(** * Authentication and session security of the console backend

    A shallow embedding of [backend/app/core/security.py] and
    [backend/app/api/auth.py]: password check, token issuance and decoding,
    the Redis blocklist, caller resolution, the two-step login and logout;
    and of the endpoints that stand behind the caller resolution, in
    [api/users.py], [api/system.py], [api/admin.py], [api/ids.py] and
    [api/threats.py], with the rule schema of [schemas/rule.py].

    Conventions of the model.
    - Time is the epoch second; every function that reads the clock in the
      source takes it as the argument [now].  python-jose and the Redis server
      count in that second.  [int(datetime.utcnow().timestamp())] is another
      reading of the same instant: [utcnow()] is naive and [timestamp()] takes
      a naive datetime for local time, so the reading is [now] less the
      offset of the host's zone from UTC, [utc_offset], and agrees with [now]
      only on a host that runs in UTC.
    - [uuid.uuid4().hex] is an input: the function that draws it takes the
      drawn identifier as the argument [fresh_jti].
    - A raised Python exception is the [Raise] result of the [result] monad.
    - The libraries the source calls (python-jose, passlib, pyotp, redis) are
      modelled by what the source relies on; the cryptography inside them is
      symbolic or a parameter. *)

From stdpp Require Import base option strings list gmap.
From Stdlib Require Import ZArith Lia.

Local Open Scope string_scope.
Local Open Scope Z_scope.

(** ** Exceptions and the result monad *)

(** The exceptions that reach the functions under study: FastAPI's
    [HTTPException], python-jose's [JWTError] (its subclasses
    [ExpiredSignatureError] and [JWTClaimsError] are caught under the same
    handler, the text tells them apart), passlib's [UnknownHashError], the
    [ValueError] raised on a digest or secret that does not parse, and the
    connection error of the Redis client. *)
Inductive exn : Type :=
| HTTPException (status_code : Z) (detail : string) (headers : list (string * string))
| JWTError (why : string)
| UnknownHashError
| ValueError (why : string)
| ConnectionError.

Inductive result (A : Type) : Type :=
| Ok (a : A)
| Raise (e : exn).

Arguments Ok {A} a.
Arguments Raise {A} e.

#[global] Instance result_ret : MRet result := fun A a => Ok a.

#[global] Instance result_bind : MBind result :=
  fun A B f m => match m with Ok a => f a | Raise e => Raise e end.

#[global] Instance result_fmap : FMap result :=
  fun A B f m => match m with Ok a => Ok (f a) | Raise e => Raise e end.

(** [try: m except JWTError: h] *)
Definition except_JWTError {A} (m : result A) (h : result A) : result A :=
  match m with
  | Raise (JWTError _) => h
  | _ => m
  end.

(** fastapi.status *)
Definition HTTP_400_BAD_REQUEST : Z := 400.
Definition HTTP_401_UNAUTHORIZED : Z := 401.
Definition HTTP_403_FORBIDDEN : Z := 403.

(** The status line FastAPI answers with: 200 for a returned value, the
    exception's own code for an [HTTPException], 500 for anything else. *)
Definition http_status {A} (m : result A) : Z :=
  match m with
  | Ok _ => 200
  | Raise (HTTPException c _ _) => c
  | Raise _ => 500
  end.

(** ** Data *)

(** Modelled from the spec: [models/user.py] is not part of the excerpt; the
    columns are the ones the spec lists for a principal and the functions
    below read. *)
Module User.
Record t : Type := mk {
  id : Z;
  username : string;
  hashed_password : string;
  is_active : bool;
  is_superuser : bool;
  is_two_factor_enabled : bool;
  two_factor_secret : option string
}.
End User.

(** The users table, in row order; [first()] takes the first match. *)
Abbreviation Session := (list User.t).

(** [db.execute(select(User).where(User.username == username)).scalars().first()] *)
Definition first_by_username (db : Session) (name : string) : option User.t :=
  List.find (fun u => bool_decide (User.username u = name)) db.

(** [db.get(User, user_id)] *)
Definition db_get (db : Session) (user_id : Z) : option User.t :=
  List.find (fun u => bool_decide (User.id u = user_id)) db.

(** The unique constraint on the username column. *)
Definition unique_usernames (db : Session) : Prop :=
  List.NoDup (List.map User.username db).

(** The table with the active flags rewritten: row [u] gets [flag u]. *)
Definition set_is_active (flag : User.t -> bool) (u : User.t) : User.t :=
  {| User.id := User.id u;
     User.username := User.username u;
     User.hashed_password := User.hashed_password u;
     User.is_active := flag u;
     User.is_superuser := User.is_superuser u;
     User.is_two_factor_enabled := User.is_two_factor_enabled u;
     User.two_factor_secret := User.two_factor_secret u |}.

(** The claims the server signs and reads.  A key the dict does not hold is
    [None], which is what [payload.get] returns for it. *)
Module Claims.
Record t : Type := mk {
  sub : option string;
  scope : option string;
  user_id : option Z;
  jti : option string;
  exp : option Z
}.
End Claims.

(** A bearer string.  The signature is symbolic: a string is either the
    compact serialisation of some claims signed with some key under some
    algorithm, or any other text. *)
Inductive token : Type :=
| Signed (alg : string) (key : string) (claims : Claims.t)
| Opaque (raw : string).

(** [jwt.encode(claims, key, algorithm=alg)] *)
Definition jwt_encode (claims : Claims.t) (key alg : string) : token :=
  Signed alg key claims.

(** [jwt.decode(token, key, algorithms=algs, options={"verify_exp": verify_exp})]:
    the signature is checked first; python-jose then rejects the token as
    expired when [exp < now]. *)
Definition jwt_decode (tok : token) (key : string) (algs : list string)
    (verify_exp : bool) (now : Z) : result Claims.t :=
  match tok with
  | Opaque _ => Raise (JWTError "Not enough segments")
  | Signed alg k claims =>
      if negb (bool_decide (alg ∈ algs)) then
        Raise (JWTError "The specified alg value is not allowed")
      else if negb (bool_decide (k = key)) then
        Raise (JWTError "Signature verification failed.")
      else
        match Claims.exp claims with
        | Some e =>
            if verify_exp && (e <? now) then Raise (JWTError "Signature has expired.")
            else Ok claims
        | None => Ok claims
        end
  end.

(** ** The Redis client *)

(** The server side of the connection: whether it answers, and for each key
    its value and the instant at which it expires. *)
Record Redis : Type := mkRedis {
  reachable : bool;
  entries : gmap string (string * Z)
}.

(** [EXISTS key] at instant [now]: a key is gone once its time to live has
    run out. *)
Definition redis_exists (r : Redis) (now : Z) (key : string) : result bool :=
  if reachable r then
    Ok (match entries r !! key with
        | Some (_, expires_at) => now <? expires_at
        | None => false
        end)
  else Raise ConnectionError.

(** [SETEX key ttl value] at instant [now] *)
Definition redis_setex (r : Redis) (now : Z) (key : string) (ttl : Z) (value : string)
    : result Redis :=
  if reachable r then
    Ok {| reachable := true; entries := <[key := (value, now + ttl)]> (entries r) |}
  else Raise ConnectionError.

(** [TTL key] at instant [now], for a key that exists *)
Definition redis_ttl (r : Redis) (now : Z) (key : string) : option Z :=
  match entries r !! key with
  | Some (_, expires_at) => if now <? expires_at then Some (expires_at - now) else None
  | None => None
  end.

(** ** Answers of the endpoints *)

(** The body of the login and second-factor answers: the keys a dict does
    not carry are [None]. *)
Module LoginResponse.
Record t : Type := mk {
  access_token : token;
  token_type : string;
  is_2fa_required : option bool;
  user_id : option Z
}.
End LoginResponse.

(** The body of the logout answer. *)
Record Message : Type := mkMessage { message : string }.

(** Python truth value of an optional string and of an optional integer. *)
Definition truthy_str (s : option string) : bool :=
  match s with
  | Some s => negb (bool_decide (s = ""))
  | None => false
  end.

Definition truthy_int (n : option Z) : bool :=
  match n with
  | Some n => negb (bool_decide (n = 0))
  | None => false
  end.

(** ** passlib *)

(** The prefixes by which passlib's bcrypt handler recognises a digest. *)
Definition bcrypt_ident_values : list string :=
  ["$2$"; "$2a$"; "$2x$"; "$2y$"; "$2b$"].

Definition bcrypt_identify (hash : string) : bool :=
  existsb (fun ident => String.prefix ident hash) bcrypt_ident_values.

(** ** A small deployment, for the examples

    Four rows, an empty blocklist that answers, and stand-ins for the two
    cryptographic parameters: a digest is a bcrypt prefix followed by the
    password, and the one-time code of a secret is the secret. *)
Module Scenario.
Definition SECRET_KEY : string := "09d25e094faa6ca2556c818166b7a956".

Definition bcrypt_verify (secret hash : string) : result bool :=
  Ok (bool_decide (hash = "$2b$12$" +:+ secret)).

Definition totp_verify (secret code : string) (now : Z) : result bool :=
  Ok (bool_decide (code = secret)).

(** The deployment runs in UTC; two other hosts, for comparison. *)
Definition utc_offset : Z := 0.
Definition Europe_Berlin : Z := 3600.
Definition America_New_York : Z := -18000.

Definition alice : User.t :=
  User.mk 1 "alice" "$2b$12$correct-pw" true false false None.
Definition bob : User.t :=
  User.mk 2 "bob" "$2b$12$bob-pw" true false true (Some "JBSWY3DPEHPK3PXP").
Definition carol : User.t :=
  User.mk 3 "carol" "$2b$12$carol-pw" false false true (Some "KRSXG5CTMVRXEZLU").
Definition dave : User.t :=
  User.mk 4 "dave" "$2b$12$dave-pw" false false false None.

Definition db : Session := [alice; bob; carol; dave].

Definition redis_client : Redis := {| reachable := true; entries := ∅ |}.

(** The token [alice] gets from a login at instant 1000. *)
Definition alice_token : token :=
  Signed "HS256" SECRET_KEY
    {| Claims.sub := Some "alice"; Claims.scope := None; Claims.user_id := None;
       Claims.jti := Some "3f2b8c1e9d4a4f6b8a7c5e1d2f3a4b5c"; Claims.exp := Some 2800 |}.

(** The restricted tokens [bob] and [carol] get from a login at instant 1000. *)
Definition bob_restricted_token : token :=
  Signed "HS256" SECRET_KEY
    {| Claims.sub := Some "bob"; Claims.scope := Some "2fa_required";
       Claims.user_id := Some 2;
       Claims.jti := Some "77aa01f3c2e54b1f9a8d6c3b2e1f0a9d"; Claims.exp := Some 1300 |}.

Definition carol_restricted_token : token :=
  Signed "HS256" SECRET_KEY
    {| Claims.sub := Some "carol"; Claims.scope := Some "2fa_required";
       Claims.user_id := Some 3;
       Claims.jti := Some "c4a0b1d2e3f445568790a1b2c3d4e5f6"; Claims.exp := Some 1300 |}.

(** A fully-authenticated token of the inactive [dave]. *)
Definition dave_token : token :=
  Signed "HS256" SECRET_KEY
    {| Claims.sub := Some "dave"; Claims.scope := None; Claims.user_id := None;
       Claims.jti := Some "d4e5f6a7b8c94d0e8f1a2b3c4d5e6f70"; Claims.exp := Some 2800 |}.
End Scenario.

(** ** Rows and answers of the threat endpoints *)

(** The columns of [models/log.py] that [api/threats.py] reads.  The model
    itself is not part of the excerpt: a column that is only passed on may
    be null; [raw_data], whose length the endpoint takes, is a string. *)
Module NetworkLog.
Record t : Type := mk {
  id : Z;
  timestamp : Z;
  threat_type : option string;
  source_ip : option string;
  destination_ip : option string;
  protocol : option string;
  raw_data : string
}.
End NetworkLog.

(** One element of the list [get_threats] returns. *)
Module Threat.
Record t : Type := mk {
  id : Z;
  timestamp : string;
  threat_type : option string;
  source_ip : option string;
  destination_ip : option string;
  protocol : option string;
  raw_data : string
}.
End Threat.

(** The answer of [get_threat_summary]. *)
Module ThreatSummary.
Record t : Type := mk {
  total_threats : Z;
  threat_types : list (option string * Z);
  time_range : string
}.
End ThreatSummary.

(** [timedelta(hours=h)] and [timedelta(days=d)], in seconds *)
Definition hours (h : Z) : Z := 3600 * h.
Definition days (d : Z) : Z := 86400 * d.

(** [raw_data[:500] + "..." if len(raw_data) > 500 else raw_data] *)
Definition truncate_raw_data (raw_data : string) : string :=
  if (500 <? String.length raw_data)%nat then String.substring 0 500 raw_data +:+ "..."
  else raw_data.

(** [GROUP BY] with [count]: one pair per distinct key, in order of first
    appearance, with the number of rows that carry the key. *)
Fixpoint count_into (key : option string) (groups : list (option string * Z))
    : list (option string * Z) :=
  match groups with
  | [] => [(key, 1)]
  | (k, n) :: rest =>
      if bool_decide (k = key) then (k, n + 1) :: rest
      else (k, n) :: count_into key rest
  end.

Definition group_by_count (keys : list (option string)) : list (option string * Z) :=
  List.fold_left (fun groups key => count_into key groups) keys [].

(** ** schemas/rule.py: the threat signature rule *)

(** A field of a JSON body: left out, [null], or given. *)
Inductive field (A : Type) : Type :=
| Missing
| Null
| Given (a : A).

Arguments Missing {A}.
Arguments Null {A}.
Arguments Given {A} a.

(** The body of [POST /rules/] as it arrives. *)
Module RuleBody.
Record t : Type := mk {
  name : field string;
  pattern : field string;
  action : field string;
  severity : field string;
  description : field string;
  protocol : field string;
  is_active : field bool
}.
End RuleBody.

(** [ThreatSignatureRuleCreate], once validated. *)
Module ThreatSignatureRuleCreate.
Record t : Type := mk {
  name : string;
  pattern : string;
  action : string;
  severity : string;
  description : option string;
  protocol : option string;
  is_active : bool
}.
End ThreatSignatureRuleCreate.

(** A required string field, [Field(..., min_length, max_length)]. *)
Definition required_str (min_length : nat) (max_length : option nat) (f : field string)
    : option string :=
  match f with
  | Given s =>
      if (min_length <=? String.length s)%nat
         && match max_length with
            | Some m => (String.length s <=? m)%nat
            | None => true
            end
      then Some s else None
  | _ => None
  end.

(** A string field with a default, [Field(default=d)]: [null] is no string. *)
Definition defaulted {A : Type} (d : A) (f : field A) : option A :=
  match f with
  | Missing => Some d
  | Null => None
  | Given a => Some a
  end.

(** An optional string field, [Field(None, max_length)]. *)
Definition optional_str (max_length : option nat) (f : field string)
    : option (option string) :=
  match f with
  | Missing | Null => Some None
  | Given s =>
      if match max_length with
         | Some m => (String.length s <=? m)%nat
         | None => true
         end
      then Some (Some s) else None
  end.

(** The validation of [ThreatSignatureRuleBase]: [None] is the 422 that
    FastAPI answers before the endpoint runs. *)
Definition validate_rule (body : RuleBody.t) : option ThreatSignatureRuleCreate.t :=
  name ← required_str 3 (Some 100%nat) (RuleBody.name body);
  pattern ← required_str 1 None (RuleBody.pattern body);
  action ← defaulted "alert" (RuleBody.action body);
  severity ← defaulted "medium" (RuleBody.severity body);
  description ← optional_str (Some 255%nat) (RuleBody.description body);
  protocol ← optional_str None (RuleBody.protocol body);
  is_active ← defaulted true (RuleBody.is_active body);
  Some (ThreatSignatureRuleCreate.mk name pattern action severity description
          protocol is_active).

(** [rule.dict()] sent back as a body: every field given, [None] as [null]. *)
Definition rule_as_body (rule : ThreatSignatureRuleCreate.t) : RuleBody.t :=
  let optional (o : option string) : field string :=
    match o with Some s => Given s | None => Null end in
  RuleBody.mk (Given (ThreatSignatureRuleCreate.name rule))
    (Given (ThreatSignatureRuleCreate.pattern rule))
    (Given (ThreatSignatureRuleCreate.action rule))
    (Given (ThreatSignatureRuleCreate.severity rule))
    (optional (ThreatSignatureRuleCreate.description rule))
    (optional (ThreatSignatureRuleCreate.protocol rule))
    (Given (ThreatSignatureRuleCreate.is_active rule)).

(** The count that a list of groups holds for a key, zero when the key has
    no group. *)
Fixpoint count_of (key : option string) (groups : list (option string * Z)) : Z :=
  match groups with
  | [] => 0
  | (k, n) :: rest => if bool_decide (k = key) then n else count_of key rest
  end.

(** ** A console, for the examples

    The small deployment with a superuser and a row whose digest was stored
    in the clear, a few rules and log rows, and stand-ins for the services:
    the users service reads the table, the log query keeps the rows in the
    window up to the limit, the engine is the list of its rules. *)
Module Console.
Definition root : User.t :=
  User.mk 5 "root" "$2b$12$root-pw" true true false None.
Definition erin : User.t :=
  User.mk 6 "erin" "erin-pw" true false false None.

Definition db : Session :=
  [Scenario.alice; Scenario.bob; Scenario.carol; Scenario.dave; root; erin].

Definition root_token : token :=
  Signed "HS256" Scenario.SECRET_KEY
    {| Claims.sub := Some "root"; Claims.scope := None; Claims.user_id := None;
       Claims.jti := Some "a0b1c2d3e4f54a6b8c7d9e0f1a2b3c4d"; Claims.exp := Some 2800 |}.

(** A restricted token that [alice] got while her second factor was on. *)
Definition alice_stale_restricted_token : token :=
  Signed "HS256" Scenario.SECRET_KEY
    {| Claims.sub := Some "alice"; Claims.scope := Some "2fa_required";
       Claims.user_id := Some 1;
       Claims.jti := Some "1a2b3c4d5e6f4a7b8c9d0e1f2a3b4c5d"; Claims.exp := Some 1300 |}.

(** A token for [root] signed with a key that is not the server's. *)
Definition foreign_token : token :=
  Signed "HS256" "not-the-server-key"
    {| Claims.sub := Some "root"; Claims.scope := None; Claims.user_id := None;
       Claims.jti := Some "f0e1d2c3b4a5498786756453423120ff"; Claims.exp := Some 2800 |}.

(** A token of the server that carries no identifier. *)
Definition token_without_jti : token :=
  Signed "HS256" Scenario.SECRET_KEY
    {| Claims.sub := Some "alice"; Claims.scope := None; Claims.user_id := None;
       Claims.jti := None; Claims.exp := Some 2800 |}.

Definition get_user (db : Session) (user_id : Z) : option User.t :=
  List.find (fun u => bool_decide (User.id u = user_id)) db.

Definition get_users (db : Session) (skip limit : Z) : list User.t :=
  List.firstn (Z.to_nat limit) (List.skipn (Z.to_nat skip) db).

Definition update_user (db : Session) (user_id : Z) (user : string)
    : result (option User.t * Session) :=
  Ok (get_user db user_id, db).

Definition rules : list (Z * string) :=
  [(1, "alert tcp any any -> any 22"); (2, "drop udp any any -> any 53");
   (3, "alert icmp any any -> any any")].

Definition logs : list NetworkLog.t :=
  [NetworkLog.mk 1 990000 (Some "port_scan") (Some "203.0.113.7") (Some "10.0.0.5")
     (Some "TCP") "SYN";
   NetworkLog.mk 2 995000 (Some "brute_force") (Some "198.51.100.9") (Some "10.0.0.5")
     (Some "TCP") "Failed password for root";
   NetworkLog.mk 3 999000 (Some "port_scan") (Some "203.0.113.7") (Some "10.0.0.6")
     (Some "TCP") "SYN";
   NetworkLog.mk 4 100000 None None None None ""].

Definition select_network_logs (logs : list NetworkLog.t) (time_filter : Z)
    (pattern : option string) (limit : Z) : list NetworkLog.t :=
  List.firstn (Z.to_nat limit)
    (List.filter (fun log => time_filter <=? NetworkLog.timestamp log) logs).

Definition isoformat (timestamp : Z) : string := "1970-01-12T12:00:00".

Definition rule_body : RuleBody.t :=
  RuleBody.mk (Given "ssh-brute-force") (Given "Failed password") Missing (Given "high")
    Null (Given "TCP") Missing.

Definition validated_rule : ThreatSignatureRuleCreate.t :=
  ThreatSignatureRuleCreate.mk "ssh-brute-force" "Failed password" "alert" "high"
    None (Some "TCP") true.

Definition add_rule (engine : list ThreatSignatureRuleCreate.t)
    (rule : ThreatSignatureRuleCreate.t) : bool * list ThreatSignatureRuleCreate.t :=
  (true, rule :: engine).
End Console.

Section Backend.

(** [os.getenv("SECRET_KEY")]; the module refuses to load without it. *)
Variable SECRET_KEY : string.

(** The bcrypt handler's own [verify], called on digests that carry a
    bcrypt prefix: it parses the digest (and raises when that fails) and
    compares the checksums. *)
Variable bcrypt_verify : string -> string -> result bool.

(** [pyotp.TOTP(secret).verify(code)] at instant [now]. *)
Variable totp_verify : string -> string -> Z -> result bool.

(** The offset of the host's local zone from UTC, in seconds east of
    Greenwich: 0 on a host in UTC, 3600 in Berlin in winter, -18000 in New
    York in winter. *)
Variable utc_offset : Z.

Definition ALGORITHM : string := "HS256".
Definition ACCESS_TOKEN_EXPIRE_MINUTES : Z := 30.

(** [timedelta(minutes=m)], in seconds *)
Definition minutes (m : Z) : Z := 60 * m.

(** [pwd_context = CryptContext(schemes=["bcrypt"], deprecated="auto")];
    [pwd_context.verify(secret, hash)] looks for the scheme of the digest
    first and raises [UnknownHashError] when no configured scheme
    recognises it. *)
Definition pwd_context_verify (secret hash : string) : result bool :=
  if bcrypt_identify hash then bcrypt_verify secret hash
  else Raise UnknownHashError.

(** *** core/security.py *)

Definition verify_password (plain_password hashed_password : string) : result bool :=
  pwd_context_verify plain_password hashed_password.

(** [data] holds the caller's claims; [expires_delta] is in seconds and,
    being a [timedelta], counts as absent when it is zero. *)
Definition create_access_token (data : Claims.t) (expires_delta : option Z)
    (now : Z) (fresh_jti : string) : token :=
  let expire :=
    match expires_delta with
    | Some d => if bool_decide (d = 0) then now + minutes ACCESS_TOKEN_EXPIRE_MINUTES
                else now + d
    | None => now + minutes ACCESS_TOKEN_EXPIRE_MINUTES
    end in
  let jti := fresh_jti in
  let to_encode :=
    {| Claims.sub := Claims.sub data;
       Claims.scope := Claims.scope data;
       Claims.user_id := Claims.user_id data;
       Claims.jti := Some jti;
       Claims.exp := Some expire |} in
  jwt_encode to_encode SECRET_KEY ALGORITHM.

Definition blocked_key (jti : string) : string := "blocked_jti:" +:+ jti.

(** [int(datetime.utcnow().timestamp())] at the epoch second [now]:
    [utcnow()] is the naive datetime of the UTC wall clock, and [timestamp()]
    converts a naive datetime as local time, which takes the host's offset
    off. *)
Definition utcnow_timestamp (now : Z) : Z := now - utc_offset.

(** [now] is the epoch second of the call, the one the Redis server counts
    the time to live from; the time to live itself is computed from the
    host's reading [utcnow_timestamp now]. *)
Definition add_token_to_blocklist (redis_client : Redis) (jti : string)
    (expires_at_timestamp : Z) (now : Z) : result Redis :=
  let now_timestamp := utcnow_timestamp now in
  let ttl := expires_at_timestamp - now_timestamp in
  if 0 <? ttl then redis_setex redis_client now (blocked_key jti) ttl "true"
  else Ok redis_client.

Definition WWW_Authenticate_Bearer : list (string * string) :=
  [("WWW-Authenticate", "Bearer")].

Definition credentials_exception : exn :=
  HTTPException HTTP_401_UNAUTHORIZED "Could not validate credentials"
    WWW_Authenticate_Bearer.

Definition two_factor_only_exception : exn :=
  HTTPException HTTP_401_UNAUTHORIZED
    "Token valid only for 2FA verification step. Full authentication required."
    WWW_Authenticate_Bearer.

(** [schemas.token.TokenData], with the two fields its call site fills *)
Record TokenData : Type := mkTokenData {
  td_username : string;
  td_scope : option string
}.

(** The [try] block of [get_current_user]. *)
Definition get_current_user_claims (tok : token) (redis_client : Redis) (now : Z)
    : result TokenData :=
  payload ← jwt_decode tok SECRET_KEY [ALGORITHM] true now;
  let username := Claims.sub payload in
  let scope := Claims.scope payload in
  let jti := Claims.jti payload in
  match username, jti with
  | Some username, Some jti =>
      blocked ← redis_exists redis_client now (blocked_key jti);
      if blocked : bool then Raise credentials_exception
      else if bool_decide (scope = Some "2fa_required") then
        Raise two_factor_only_exception
      else Ok (mkTokenData username scope)
  | _, _ => Raise credentials_exception
  end.

Definition get_current_user (tok : token) (db : Session) (redis_client : Redis)
    (now : Z) : result User.t :=
  token_data ← except_JWTError (get_current_user_claims tok redis_client now)
                 (Raise credentials_exception);
  match first_by_username db (td_username token_data) with
  | None => Raise credentials_exception
  | Some user => Ok user
  end.

(** [current_user] is what the dependency [get_current_user] returned. *)
Definition get_current_active_user_body (current_user : User.t) : result User.t :=
  if negb (User.is_active current_user) then
    Raise (HTTPException 400 "Inactive user" [])
  else Ok current_user.

(** [get_current_active_user] with its dependency resolved. *)
Definition get_current_active_user (tok : token) (db : Session) (redis_client : Redis)
    (now : Z) : result User.t :=
  current_user ← get_current_user tok db redis_client now;
  get_current_active_user_body current_user.

Definition authenticate_user (db : Session) (username password : string)
    : result (option User.t) :=
  match first_by_username db username with
  | None => Ok None
  | Some user =>
      ok ← verify_password password (User.hashed_password user);
      if negb ok then Ok None else Ok (Some user)
  end.

Definition credentials_exception_2fa : exn :=
  HTTPException HTTP_401_UNAUTHORIZED "Could not validate credentials for 2FA"
    WWW_Authenticate_Bearer.

(** The [try] block of [get_current_user_for_2fa]: the subject and the
    principal id it hands to the lookup. *)
Definition get_current_user_for_2fa_claims (tok : token) (redis_client : Redis)
    (now : Z) : result (string * Z) :=
  payload ← jwt_decode tok SECRET_KEY [ALGORITHM] true now;
  let username := Claims.sub payload in
  let scope := Claims.scope payload in
  let user_id := Claims.user_id payload in
  let jti := Claims.jti payload in
  match username, user_id, jti with
  | Some username, Some user_id, Some jti =>
      if negb (bool_decide (scope = Some "2fa_required")) then
        Raise credentials_exception_2fa
      else
        blocked ← redis_exists redis_client now (blocked_key jti);
        if blocked : bool then Raise credentials_exception_2fa
        else Ok (username, user_id)
  | _, _, _ => Raise credentials_exception_2fa
  end.

Definition get_current_user_for_2fa (tok : token) (db : Session)
    (redis_client : Redis) (now : Z) : result User.t :=
  '(username, user_id) ← except_JWTError
      (get_current_user_for_2fa_claims tok redis_client now)
      (Raise credentials_exception_2fa);
  match db_get db user_id with
  | None => Raise credentials_exception_2fa
  | Some user =>
      if negb (bool_decide (User.username user = username)) then
        Raise credentials_exception_2fa
      else Ok user
  end.

(** *** api/auth.py *)

Definition incorrect_credentials : exn :=
  HTTPException HTTP_401_UNAUTHORIZED "Incorrect username or password"
    WWW_Authenticate_Bearer.

(** [form_data] is the pair of the submitted username and password. *)
Definition login_for_access_token (form_username form_password : string)
    (db : Session) (now : Z) (fresh_jti : string) : result LoginResponse.t :=
  user ← authenticate_user db form_username form_password;
  match user with
  | None => Raise incorrect_credentials
  | Some user =>
      if User.is_two_factor_enabled user then
        let access_token_expires := minutes 5 in
        let access_token :=
          create_access_token
            {| Claims.sub := Some (User.username user);
               Claims.scope := Some "2fa_required";
               Claims.user_id := Some (User.id user);
               Claims.jti := None; Claims.exp := None |}
            (Some access_token_expires) now fresh_jti in
        Ok {| LoginResponse.access_token := access_token;
              LoginResponse.token_type := "bearer";
              LoginResponse.is_2fa_required := Some true;
              LoginResponse.user_id := Some (User.id user) |}
      else
        let access_token_expires := minutes ACCESS_TOKEN_EXPIRE_MINUTES in
        let access_token :=
          create_access_token
            {| Claims.sub := Some (User.username user);
               Claims.scope := None; Claims.user_id := None;
               Claims.jti := None; Claims.exp := None |}
            (Some access_token_expires) now fresh_jti in
        Ok {| LoginResponse.access_token := access_token;
              LoginResponse.token_type := "bearer";
              LoginResponse.is_2fa_required := None;
              LoginResponse.user_id := None |}
  end.

Definition two_factor_not_enabled : exn :=
  HTTPException HTTP_400_BAD_REQUEST "2FA not enabled or user not found." [].

Definition invalid_two_factor_code : exn :=
  HTTPException HTTP_400_BAD_REQUEST "Invalid 2FA code." WWW_Authenticate_Bearer.

(** The body of [verify_2fa_login]; [current_user] is what the dependency
    [get_current_user_for_2fa] returned, [code] is [request_data.code]. *)
Definition verify_2fa_login_body (code : string) (current_user : User.t)
    (db : Session) (now : Z) (fresh_jti : string) : result LoginResponse.t :=
  match db_get db (User.id current_user) with
  | None => Raise two_factor_not_enabled
  | Some user =>
      if negb (User.is_two_factor_enabled user)
         || negb (truthy_str (User.two_factor_secret user)) then
        Raise two_factor_not_enabled
      else
        ok ← totp_verify (default "" (User.two_factor_secret user)) code now;
        if negb ok then Raise invalid_two_factor_code
        else
          let access_token_expires := minutes ACCESS_TOKEN_EXPIRE_MINUTES in
          let access_token :=
            create_access_token
              {| Claims.sub := Some (User.username user);
                 Claims.scope := None; Claims.user_id := None;
                 Claims.jti := None; Claims.exp := None |}
              (Some access_token_expires) now fresh_jti in
          Ok {| LoginResponse.access_token := access_token;
                LoginResponse.token_type := "bearer";
                LoginResponse.is_2fa_required := None;
                LoginResponse.user_id := None |}
  end.

(** [POST /verify-2fa] with its dependency resolved. *)
Definition verify_2fa_login (tok : token) (code : string) (db : Session)
    (redis_client : Redis) (now : Z) (fresh_jti : string) : result LoginResponse.t :=
  current_user ← get_current_user_for_2fa tok db redis_client now;
  verify_2fa_login_body code current_user db now fresh_jti.

(** [GET /me] *)
Definition read_users_me (tok : token) (db : Session) (redis_client : Redis)
    (now : Z) : result User.t :=
  get_current_active_user tok db redis_client now.

(** The [try] block of [logout]. *)
Definition logout_try (tok : token) (redis_client : Redis) (now : Z)
    : result (Message * Redis) :=
  payload ← jwt_decode tok SECRET_KEY [ALGORITHM] false now;
  let jti := Claims.jti payload in
  let exp_timestamp := Claims.exp payload in
  redis_client' ←
    (if truthy_str jti && truthy_int exp_timestamp then
       add_token_to_blocklist redis_client (default "" jti) (default 0 exp_timestamp) now
     else Ok redis_client);
  Ok (mkMessage "Successfully logged out", redis_client').

(** The body of [logout], with its two handlers; it answers with the
    message and the blocklist it leaves behind. *)
Definition logout_body (current_user : User.t) (tok : token) (redis_client : Redis)
    (now : Z) : result (Message * Redis) :=
  match logout_try tok redis_client now with
  | Ok answer => Ok answer
  | Raise (JWTError _) =>
      Ok (mkMessage "Logout successful (token was invalid)", redis_client)
  | Raise _ =>
      Ok (mkMessage "Logout processed with an internal finalization error", redis_client)
  end.

(** [POST /logout]: FastAPI resolves [Depends(get_current_active_user)]
    before it calls the body, and answers with the dependency's exception
    when it raises. *)
Definition logout (tok : token) (db : Session) (redis_client : Redis) (now : Z)
    : result (Message * Redis) :=
  current_user ← get_current_active_user tok db redis_client now;
  logout_body current_user tok redis_client now.

(** *** The protected endpoints *)

(** [current_user: User = Depends(get_current_active_user)]: FastAPI
    resolves the dependency from the bearer token and calls the endpoint
    with the principal, or answers with the dependency's exception. *)
Definition Depends_get_current_active_user {A : Type} (tok : token) (db : Session)
    (redis_client : Redis) (now : Z) (endpoint : User.t -> result A) : result A :=
  current_user ← get_current_active_user tok db redis_client now;
  endpoint current_user.

Definition HTTP_404_NOT_FOUND : Z := 404.

Definition administrator_required : exn :=
  HTTPException HTTP_403_FORBIDDEN "Administrator privileges required" [].

(** *** api/users.py *)

(** The request schemas of [schemas/user.py] and the queries of
    [services/user.py] are not part of the excerpt: the schemas are abstract
    types, of which the endpoints read the e-mail address only, and each
    service call is a parameter; the ones that write return the table they
    leave. *)
Variable UserCreate : Type.
Variable UserUpdate : Type.
Variable UserCreate_email : UserCreate -> string.
Variable get_user : Session -> Z -> option User.t.
Variable get_users : Session -> Z -> Z -> list User.t.
Variable get_user_by_email : Session -> string -> option User.t.
Variable create_user : Session -> UserCreate -> result (User.t * Session).
Variable update_user : Session -> Z -> UserUpdate -> result (option User.t * Session).
Variable delete_user : Session -> Z -> result (option User.t * Session).

Definition create_new_user (user : UserCreate) (db : Session) (current_user : User.t)
    : result (User.t * Session) :=
  if negb (User.is_superuser current_user) then Raise administrator_required
  else
    match get_user_by_email db (UserCreate_email user) with
    | Some db_user =>
        Raise (HTTPException HTTP_400_BAD_REQUEST "Email already registered" [])
    | None => create_user db user
    end.

Definition read_users (skip limit : Z) (db : Session) (current_user : User.t)
    : result (list User.t) :=
  if negb (User.is_superuser current_user) then Raise administrator_required
  else Ok (get_users db skip limit).

Definition user_not_found : exn :=
  HTTPException HTTP_404_NOT_FOUND "User not found" [].

Definition read_user (user_id : Z) (db : Session) (current_user : User.t)
    : result User.t :=
  if negb (User.is_superuser current_user)
     && negb (bool_decide (User.id current_user = user_id)) then
    Raise (HTTPException HTTP_403_FORBIDDEN
             "Not authorized to access this user's data" [])
  else
    match get_user db user_id with
    | None => Raise user_not_found
    | Some db_user => Ok db_user
    end.

Definition update_existing_user (user_id : Z) (user : UserUpdate) (db : Session)
    (current_user : User.t) : result (option User.t * Session) :=
  if negb (User.is_superuser current_user)
     && negb (bool_decide (User.id current_user = user_id)) then
    Raise (HTTPException HTTP_403_FORBIDDEN "Not authorized to update this user" [])
  else
    match get_user db user_id with
    | None => Raise user_not_found
    | Some db_user => update_user db user_id user
    end.

Definition delete_existing_user (user_id : Z) (db : Session) (current_user : User.t)
    : result (option User.t * Session) :=
  if negb (User.is_superuser current_user) then Raise administrator_required
  else
    match get_user db user_id with
    | None => Raise user_not_found
    | Some db_user => delete_user db user_id
    end.

Record UserSummary : Type := mkUserSummary {
  total_users : Z;
  admin_users : Z;
  standard_users : Z
}.

(** [select(func.count(User.id))] counts the rows, and with
    [.where(User.is_superuser == True)] the rows of superusers. *)
Definition get_user_summary (db : Session) (current_user : User.t) : result UserSummary :=
  if negb (User.is_superuser current_user) then Raise administrator_required
  else
    let total_users := Z.of_nat (length db) in
    let admin_users := Z.of_nat (length (List.filter User.is_superuser db)) in
    let standard_users := total_users - admin_users in
    Ok (mkUserSummary total_users admin_users standard_users).

(** *** api/system.py and api/admin.py *)

(** What the sniffer, the host and the autofiller report is a parameter. *)
Variable Stats : Type.
Variable SystemInfo : Type.
Variable Interfaces : Type.
Variable sniffer_get_stats : Stats.
Variable get_system_info : SystemInfo.
Variable get_network_interfaces : Interfaces.
Variable AutofillRecord : Type.
Variable autofill_all : Session -> Z -> list AutofillRecord * Session.

Definition get_system_stats (current_user : User.t) : result Stats :=
  if negb (User.is_superuser current_user) then
    Raise (HTTPException HTTP_403_FORBIDDEN
             "Administrator privileges required for system stats" [])
  else Ok sniffer_get_stats.

Definition system_status (current_user : User.t) : result SystemInfo :=
  if negb (User.is_superuser current_user) then Raise administrator_required
  else Ok get_system_info.

Definition get_interfaces (current_user : User.t) : result Interfaces :=
  if negb (User.is_superuser current_user) then Raise administrator_required
  else Ok get_network_interfaces.

(** The answer of [trigger_autofill]: the count that the message spells
    out, and the details. *)
Record AutofillResponse : Type := mkAutofillResponse {
  autofill_added : nat;
  autofill_details : list AutofillRecord
}.

Definition trigger_autofill (count : Z) (db : Session) (current_admin_user : User.t)
    : result (AutofillResponse * Session) :=
  if negb (User.is_superuser current_admin_user) then Raise administrator_required
  else
    let '(results, db') := autofill_all db count in
    Ok (mkAutofillResponse (length results) results, db').

(** *** api/ids.py *)

(** The rows of [models/ids_rule.py], which is not part of the excerpt: an
    abstract row with its primary key. *)
Variable IDSRule : Type.
Variable IDSRule_id : IDSRule -> Z.

(** [db.execute(select(DBIDSRule).where(DBIDSRule.id == rule_id)).scalars().first()] *)
Definition rule_by_id (rules : list IDSRule) (rule_id : Z) : option IDSRule :=
  List.find (fun rule => bool_decide (IDSRule_id rule = rule_id)) rules.

Definition rule_not_found : exn :=
  HTTPException HTTP_404_NOT_FOUND "Rule not found" [].

Definition read_rule (rule_id : Z) (rules : list IDSRule) (current_user : User.t)
    : result IDSRule :=
  match rule_by_id rules rule_id with
  | None => Raise rule_not_found
  | Some rule => Ok rule
  end.

(** [db.delete(rule)] and the commit delete by primary key; the answer comes
    with the table that is left. *)
Definition delete_rule (rule_id : Z) (rules : list IDSRule) (current_user : User.t)
    : result (Message * list IDSRule) :=
  if negb (User.is_superuser current_user) then Raise administrator_required
  else
    match rule_by_id rules rule_id with
    | None => Raise rule_not_found
    | Some rule =>
        Ok (mkMessage "Rule deleted",
            List.filter
              (fun row => negb (bool_decide (IDSRule_id row = IDSRule_id rule))) rules)
    end.

(** *** api/threats.py *)

(** The statement that [get_threats] builds is run by the database: rows not
    older than the time filter, newest first, matching the pattern when
    there is one, at most [limit] of them.  [isoformat] renders a
    timestamp. *)
Variable select_network_logs :
  list NetworkLog.t -> Z -> option string -> Z -> list NetworkLog.t.
Variable isoformat : Z -> string.

Definition get_threats (logs : list NetworkLog.t) (current_user : User.t) (limit : Z)
    (severity : option string) (time_range : string) (now : Z) : result (list Threat.t) :=
  let time_filter :=
    if bool_decide (time_range = "1h") then now - hours 1
    else if bool_decide (time_range = "24h") then now - hours 24
    else if bool_decide (time_range = "7d") then now - days 7
    else now - hours 24 in
  let pattern :=
    if truthy_str severity then Some ("%" +:+ default "" severity +:+ "%") else None in
  let threats := select_network_logs logs time_filter pattern limit in
  Ok (List.map
        (fun threat =>
           {| Threat.id := NetworkLog.id threat;
              Threat.timestamp := isoformat (NetworkLog.timestamp threat);
              Threat.threat_type := NetworkLog.threat_type threat;
              Threat.source_ip := NetworkLog.source_ip threat;
              Threat.destination_ip := NetworkLog.destination_ip threat;
              Threat.protocol := NetworkLog.protocol threat;
              Threat.raw_data := truncate_raw_data (NetworkLog.raw_data threat) |})
        threats).

(** The two statements of the summary, both over the rows of the last
    twenty-four hours: their count, and their count per threat type. *)
Definition get_threat_summary (logs : list NetworkLog.t) (current_user : User.t)
    (now : Z) : result ThreatSummary.t :=
  let time_filter := now - hours 24 in
  let recent :=
    List.filter (fun log => time_filter <=? NetworkLog.timestamp log) logs in
  let total_threats := Z.of_nat (length recent) in
  let threat_types := group_by_count (List.map NetworkLog.threat_type recent) in
  Ok {| ThreatSummary.total_threats := total_threats;
        ThreatSummary.threat_types := threat_types;
        ThreatSummary.time_range := "24h" |}.

(** The module-level [signature_engine]: its state is abstract, [add_rule]
    answers whether it took the rule and leaves the new state. *)
Variable SignatureEngine : Type.
Variable SignatureRule : Type.
Variable signature_engine_get_rules : SignatureEngine -> list SignatureRule.
Variable signature_engine_add_rule :
  SignatureEngine -> ThreatSignatureRuleCreate.t -> bool * SignatureEngine.

Definition get_signature_rules (signature_engine : SignatureEngine)
    (current_user : User.t) : result (list SignatureRule) :=
  Ok (signature_engine_get_rules signature_engine).

(** The [JSONResponse] of a rule that was added. *)
Record RuleAdded : Type := mkRuleAdded {
  added_status_code : Z;
  added_status : string;
  added_message : string
}.

(** The answer, and the engine as the call leaves it. *)
Definition add_signature_rule (rule : ThreatSignatureRuleCreate.t)
    (signature_engine : SignatureEngine) (current_user : User.t)
    : result RuleAdded * SignatureEngine :=
  if negb (User.is_superuser current_user) then
    (Raise administrator_required, signature_engine)
  else
    let '(added, signature_engine') := signature_engine_add_rule signature_engine rule in
    if added then
      (Ok (mkRuleAdded 201 "success" "Rule added successfully"), signature_engine')
    else
      (Raise (HTTPException HTTP_400_BAD_REQUEST
                "Failed to add rule. Invalid rule data or rule already exists." []),
       signature_engine').

(** [POST /rules/] from the wire: the token is resolved, the body validated,
    and only then does the endpoint run.  [None] is the 422 that FastAPI
    answers to a body that does not validate. *)
Definition post_signature_rule (tok : token) (body : RuleBody.t) (db : Session)
    (redis_client : Redis) (now : Z) (signature_engine : SignatureEngine)
    : option (result RuleAdded) * SignatureEngine :=
  match get_current_active_user tok db redis_client now with
  | Raise e => (Some (Raise e), signature_engine)
  | Ok current_user =>
      match validate_rule body with
      | None => (None, signature_engine)
      | Some rule =>
          let '(answer, signature_engine') :=
            add_signature_rule rule signature_engine current_user in
          (Some answer, signature_engine')
      end
  end.

(** An endpoint behind [Depends(get_current_active_user)] that returns only
    to superusers: whenever it returns, the token resolved to an active
    superuser, and the answer is the one the endpoint computed for them. *)
Definition returns_to_superusers_only {A : Type} (endpoint : User.t -> result A) : Prop :=
  forall tok db redis_client now answer,
    Depends_get_current_active_user tok db redis_client now endpoint = Ok answer ->
    exists current_user,
      get_current_active_user tok db redis_client now = Ok current_user /\
      User.is_active current_user = true /\
      User.is_superuser current_user = true /\
      endpoint current_user = Ok answer.

(** ** Properties *)

(** Rewrites a comparison of two instants to the boolean that the
    arithmetic hypotheses force. *)
Ltac settle_ltb a b :=
  first
    [ replace (a <? b) with true by (symmetry; apply Z.ltb_lt; lia)
    | replace (a <? b) with false by (symmetry; apply Z.ltb_ge; lia) ].

(** *** The users table *)

Lemma first_by_username_Some (db : Session) (name : string) (u : User.t) :
  first_by_username db name = Some u -> User.username u = name /\ In u db.
Proof.
  unfold first_by_username. intros H.
  apply find_some in H as [Hin Hname].
  apply bool_decide_eq_true_1 in Hname. split; assumption.
Qed.

Lemma first_by_username_again (db : Session) (name : string) (u : User.t) :
  first_by_username db name = Some u ->
  first_by_username db (User.username u) = Some u.
Proof.
  intros H. destruct (first_by_username_Some _ _ _ H) as [-> _]. exact H.
Qed.

Lemma db_get_Some (db : Session) (i : Z) (u : User.t) :
  db_get db i = Some u -> User.id u = i /\ In u db.
Proof.
  unfold db_get. intros H.
  apply find_some in H as [Hin Hid].
  apply bool_decide_eq_true_1 in Hid. split; assumption.
Qed.

Lemma db_get_again (db : Session) (i : Z) (u : User.t) :
  db_get db i = Some u -> db_get db (User.id u) = Some u.
Proof.
  intros H. destruct (db_get_Some _ _ _ H) as [-> _]. exact H.
Qed.

Lemma unique_usernames_first (db : Session) (u : User.t) :
  unique_usernames db -> In u db ->
  first_by_username db (User.username u) = Some u.
Proof.
  unfold unique_usernames, first_by_username.
  induction db as [|v db IH]; intros Hnd Hin; [destruct Hin|].
  cbn [List.map] in Hnd. apply List.NoDup_cons_iff in Hnd as [Hnotin Hnd].
  cbn [List.find]. destruct Hin as [->|Hin].
  - rewrite bool_decide_eq_true_2 by reflexivity. reflexivity.
  - destruct (bool_decide (User.username v = User.username u)) eqn:E.
    + apply bool_decide_eq_true_1 in E. exfalso. apply Hnotin.
      rewrite E. apply List.in_map. exact Hin.
    + apply IH; assumption.
Qed.

(** *** Decoding the server's own tokens *)

Lemma jwt_decode_own (c : Claims.t) (verify_exp : bool) (now : Z) :
  jwt_decode (Signed ALGORITHM SECRET_KEY c) SECRET_KEY [ALGORITHM] verify_exp now =
  match Claims.exp c with
  | Some e =>
      if verify_exp && (e <? now) then Raise (JWTError "Signature has expired.")
      else Ok c
  | None => Ok c
  end.
Proof.
  unfold jwt_decode.
  rewrite (bool_decide_eq_true_2 (ALGORITHM ∈ [ALGORITHM])) by (left).
  rewrite (bool_decide_eq_true_2 (SECRET_KEY = SECRET_KEY)) by reflexivity.
  reflexivity.
Qed.

(** Whatever decodes is a token signed with the server's key, and decodes to
    the claims it carries. *)
Lemma jwt_decode_Ok (tok : token) (verify_exp : bool) (now : Z) (c : Claims.t) :
  jwt_decode tok SECRET_KEY [ALGORITHM] verify_exp now = Ok c ->
  tok = Signed ALGORITHM SECRET_KEY c.
Proof.
  unfold jwt_decode. destruct tok as [alg k c'|raw]; [|discriminate].
  destruct (bool_decide (alg ∈ [ALGORITHM])) eqn:Ealg; [|discriminate].
  destruct (bool_decide (k = SECRET_KEY)) eqn:Ek; [|discriminate].
  apply bool_decide_eq_true_1 in Ealg, Ek.
  apply list_elem_of_singleton in Ealg. subst alg k. cbn.
  destruct (Claims.exp c') as [e|]; [destruct (verify_exp && (e <? now))|];
    intros H; inversion H; reflexivity.
Qed.

(** Decoding fails with a [JWTError] and nothing else. *)
Lemma jwt_decode_Raise (tok : token) (key : string) (algs : list string)
    (verify_exp : bool) (now : Z) (e : exn) :
  jwt_decode tok key algs verify_exp now = Raise e -> exists why, e = JWTError why.
Proof.
  unfold jwt_decode. intros H.
  repeat case_match; simplify_eq; eauto.
Qed.

(** *** Caller resolution *)

(** [get_current_user] returns a principal exactly when the token is one of
    the server's, unexpired, carries a subject and an identifier, is not on
    the blocklist, is not restricted to the second-factor step, and its
    subject names a row. *)
Lemma get_current_user_Ok_iff (tok : token) (db : Session) (r : Redis) (now : Z)
    (u : User.t) :
  get_current_user tok db r now = Ok u <->
  exists c name j,
    jwt_decode tok SECRET_KEY [ALGORITHM] true now = Ok c /\
    Claims.sub c = Some name /\ Claims.jti c = Some j /\
    redis_exists r now (blocked_key j) = Ok false /\
    Claims.scope c <> Some "2fa_required" /\
    first_by_username db name = Some u.
Proof.
  unfold get_current_user, get_current_user_claims. split.
  - destruct (jwt_decode tok SECRET_KEY [ALGORITHM] true now) as [c|e] eqn:Edec.
    + cbn. destruct (Claims.sub c) as [name|] eqn:Esub; [|discriminate].
      destruct (Claims.jti c) as [j|] eqn:Ejti; [|discriminate].
      destruct (redis_exists r now (blocked_key j)) as [[|]|e] eqn:Eex; cbn;
        [discriminate| |destruct e; discriminate].
      case_bool_decide as Escope; cbn; [discriminate|].
      destruct (first_by_username db name) as [v|] eqn:Efind; [|discriminate].
      intros H. inversion H. subst v. exists c, name, j. auto 10.
    + cbn. destruct e; discriminate.
  - intros (c & name & j & -> & Esub & Ejti & Eex & Escope & Efind).
    cbn. rewrite Esub, Ejti, Eex. cbn.
    rewrite bool_decide_eq_false_2 by exact Escope. cbn.
    rewrite Efind. reflexivity.
Qed.

(** A token that carries the restricted scope never resolves to a
    principal, whoever signed it and whatever the stores hold; when the
    blocklist answers, the rejection is a 401. *)
Lemma get_current_user_restricted (alg key : string) (c : Claims.t) (db : Session)
    (r : Redis) (now : Z) :
  Claims.scope c = Some "2fa_required" ->
  (forall u, get_current_user (Signed alg key c) db r now <> Ok u) /\
  (reachable r = true ->
   get_current_user (Signed alg key c) db r now = Raise credentials_exception \/
   get_current_user (Signed alg key c) db r now = Raise two_factor_only_exception).
Proof.
  intros Hscope. split.
  - intros u H. apply get_current_user_Ok_iff in H
      as (c' & name & j & Hdec & _ & _ & _ & Hns & _).
    apply jwt_decode_Ok in Hdec. inversion Hdec. subst c'. contradiction.
  - intros Hup. unfold get_current_user, get_current_user_claims.
    destruct (jwt_decode (Signed alg key c) SECRET_KEY [ALGORITHM] true now)
      as [c'|e] eqn:Edec.
    + pose proof (jwt_decode_Ok _ _ _ _ Edec) as Heq. inversion Heq. subst c'.
      cbn. destruct (Claims.sub c) as [name|]; [|left; reflexivity].
      destruct (Claims.jti c) as [j|]; [|left; reflexivity].
      unfold redis_exists. rewrite Hup. cbn.
      destruct (match entries r !! blocked_key j with
                | Some (_, expires_at) => now <? expires_at
                | None => false
                end); cbn; [left; reflexivity|].
      rewrite bool_decide_eq_true_2 by exact Hscope. right. reflexivity.
    + apply jwt_decode_Raise in Edec as [why ->]. left. reflexivity.
Qed.

(** *** Login *)

(** What [login_for_access_token] does once the row is found: everything
    hinges on the answer of [verify_password]. *)
Lemma login_for_access_token_found (db : Session) (form_username form_password : string)
    (now : Z) (fresh_jti : string) (user : User.t) :
  first_by_username db form_username = Some user ->
  login_for_access_token form_username form_password db now fresh_jti =
  match verify_password form_password (User.hashed_password user) with
  | Raise e => Raise e
  | Ok false => Raise incorrect_credentials
  | Ok true =>
      if User.is_two_factor_enabled user then
        Ok {| LoginResponse.access_token :=
                Signed ALGORITHM SECRET_KEY
                  {| Claims.sub := Some (User.username user);
                     Claims.scope := Some "2fa_required";
                     Claims.user_id := Some (User.id user);
                     Claims.jti := Some fresh_jti;
                     Claims.exp := Some (now + 300) |};
              LoginResponse.token_type := "bearer";
              LoginResponse.is_2fa_required := Some true;
              LoginResponse.user_id := Some (User.id user) |}
      else
        Ok {| LoginResponse.access_token :=
                Signed ALGORITHM SECRET_KEY
                  {| Claims.sub := Some (User.username user);
                     Claims.scope := None;
                     Claims.user_id := None;
                     Claims.jti := Some fresh_jti;
                     Claims.exp := Some (now + 1800) |};
              LoginResponse.token_type := "bearer";
              LoginResponse.is_2fa_required := None;
              LoginResponse.user_id := None |}
  end.
Proof.
  intros Hfind. unfold login_for_access_token, authenticate_user.
  rewrite Hfind.
  destruct (verify_password form_password (User.hashed_password user)) as [[|]|e];
    cbn; reflexivity.
Qed.

(** C1. For a principal with the second factor enabled, a login that returns
    returns the restricted token: scope [2fa_required], the
    [is_2fa_required] flag and the principal's id.  That token never
    resolves to a principal through [get_current_user] or
    [get_current_active_user], at any time and whatever the stores hold, and
    the rejection is a 401 whenever the blocklist answers.  The login does
    return when the password verifies. *)
Theorem login_second_factor_restricted (db : Session) (form_username : string)
    (user : User.t) :
  first_by_username db form_username = Some user ->
  User.is_two_factor_enabled user = true ->
  (forall form_password now fresh_jti resp,
     login_for_access_token form_username form_password db now fresh_jti = Ok resp ->
     exists claims,
       LoginResponse.access_token resp = Signed ALGORITHM SECRET_KEY claims /\
       Claims.scope claims = Some "2fa_required" /\
       LoginResponse.is_2fa_required resp = Some true /\
       LoginResponse.user_id resp = Some (User.id user) /\
       forall db' r now',
         (forall u, get_current_user (LoginResponse.access_token resp) db' r now' <> Ok u) /\
         (forall u, get_current_active_user (LoginResponse.access_token resp) db' r now'
                    <> Ok u) /\
         (reachable r = true ->
          http_status (get_current_user (LoginResponse.access_token resp) db' r now')
          = HTTP_401_UNAUTHORIZED)) /\
  (forall form_password now fresh_jti,
     verify_password form_password (User.hashed_password user) = Ok true ->
     exists resp,
       login_for_access_token form_username form_password db now fresh_jti = Ok resp).
Proof.
  intros Hfind H2fa. split.
  - intros form_password now fresh_jti resp.
    rewrite (login_for_access_token_found _ _ _ _ _ _ Hfind), H2fa.
    destruct (verify_password form_password (User.hashed_password user)) as [[|]|e];
      [|discriminate|discriminate].
    intros H. inversion H. subst resp. clear H. cbn.
    eexists. split; [reflexivity|]. cbn. repeat (split; [reflexivity|]).
    intros db' r now'.
    match goal with
    | |- context [get_current_user (Signed ?a ?k ?c) _ _ _] =>
        destruct (get_current_user_restricted a k c db' r now' eq_refl) as [Hno H401]
    end.
    split; [exact Hno|]. split.
    + intros u. unfold get_current_active_user.
      match goal with
      | |- context [get_current_user ?t db' r now'] =>
          destruct (get_current_user t db' r now') as [v|e] eqn:E
      end; [exfalso; exact (Hno v eq_refl)|discriminate].
    + intros Hup. destruct (H401 Hup) as [-> | ->]; reflexivity.
  - intros form_password now fresh_jti Hpw.
    rewrite (login_for_access_token_found _ _ _ _ _ _ Hfind), Hpw, H2fa.
    eexists. reflexivity.
Qed.

(** C4. A stored principal without second factor, active, whose password
    verifies: login issues a bearer token with no scope claim, and
    [get_current_user] (and [get_current_active_user]) applied to that token,
    at once or at any instant up to its expiry at which the drawn identifier
    is not on the blocklist, returns that same principal. *)
Theorem login_then_resolve (db : Session) (form_username form_password : string)
    (now : Z) (fresh_jti : string) (user : User.t) (r : Redis) (now' : Z) :
  first_by_username db form_username = Some user ->
  User.is_two_factor_enabled user = false ->
  User.is_active user = true ->
  verify_password form_password (User.hashed_password user) = Ok true ->
  now' <= now + minutes ACCESS_TOKEN_EXPIRE_MINUTES ->
  redis_exists r now' (blocked_key fresh_jti) = Ok false ->
  exists claims,
    login_for_access_token form_username form_password db now fresh_jti =
      Ok {| LoginResponse.access_token := Signed ALGORITHM SECRET_KEY claims;
            LoginResponse.token_type := "bearer";
            LoginResponse.is_2fa_required := None;
            LoginResponse.user_id := None |} /\
    Claims.scope claims = None /\
    get_current_user (Signed ALGORITHM SECRET_KEY claims) db r now' = Ok user /\
    get_current_active_user (Signed ALGORITHM SECRET_KEY claims) db r now' = Ok user.
Proof.
  intros Hfind H2fa Hact Hpw Hexp Hfresh.
  rewrite (login_for_access_token_found _ _ _ _ _ _ Hfind), Hpw, H2fa.
  eexists. split; [reflexivity|]. split; [reflexivity|].
  match goal with
  | |- ?g = Ok user /\ _ => assert (Hres : g = Ok user)
  end.
  { apply get_current_user_Ok_iff. eexists _, _, _.
    rewrite jwt_decode_own. cbn [Claims.exp Claims.sub Claims.jti Claims.scope].
    unfold minutes, ACCESS_TOKEN_EXPIRE_MINUTES in Hexp.
    settle_ltb (now + 1800) now'.
    cbn. repeat (split; [reflexivity|]).
    split; [exact Hfresh|]. split; [discriminate|].
    eapply first_by_username_again. exact Hfind. }
  split; [exact Hres|].
  unfold get_current_active_user. rewrite Hres. cbn.
  unfold get_current_active_user_body. rewrite Hact. reflexivity.
Qed.

(** C6. A login under a username that no row carries and a login under an
    existing username with a password that does not match raise the very
    same exception: same status, same detail, same headers. *)
Theorem login_failures_indistinguishable (db : Session)
    (absent_username password1 : string) (now1 : Z) (jti1 : string)
    (present_username password2 : string) (now2 : Z) (jti2 : string) (user : User.t) :
  first_by_username db absent_username = None ->
  first_by_username db present_username = Some user ->
  verify_password password2 (User.hashed_password user) = Ok false ->
  login_for_access_token absent_username password1 db now1 jti1 =
    Raise incorrect_credentials /\
  login_for_access_token present_username password2 db now2 jti2 =
    Raise incorrect_credentials /\
  login_for_access_token absent_username password1 db now1 jti1 =
    login_for_access_token present_username password2 db now2 jti2.
Proof.
  intros Habsent Hpresent Hpw.
  assert (H1 : login_for_access_token absent_username password1 db now1 jti1 =
               Raise incorrect_credentials).
  { unfold login_for_access_token, authenticate_user. rewrite Habsent. reflexivity. }
  assert (H2 : login_for_access_token present_username password2 db now2 jti2 =
               Raise incorrect_credentials).
  { rewrite (login_for_access_token_found _ _ _ _ _ _ Hpresent), Hpw. reflexivity. }
  rewrite H1, H2. auto.
Qed.

(** The inactive principal is turned away with a 400. *)
Lemma get_current_active_user_inactive (tok : token) (db : Session) (r : Redis)
    (now : Z) (u : User.t) :
  get_current_user tok db r now = Ok u ->
  User.is_active u = false ->
  get_current_active_user tok db r now = Raise (HTTPException 400 "Inactive user" []).
Proof.
  intros Hres Hinactive. unfold get_current_active_user. rewrite Hres. cbn.
  unfold get_current_active_user_body. rewrite Hinactive. reflexivity.
Qed.

(** C7, as the code has it. An inactive principal that [get_current_user]
    resolved is rejected by [get_current_active_user] with status 400 and
    detail [Inactive user]. *)
Theorem inactive_user_bad_request (tok : token) (db : Session) (r : Redis) (now : Z)
    (u : User.t) :
  get_current_user tok db r now = Ok u ->
  User.is_active u = false ->
  get_current_active_user tok db r now =
    Raise (HTTPException HTTP_400_BAD_REQUEST "Inactive user" []) /\
  http_status (get_current_active_user tok db r now) = HTTP_400_BAD_REQUEST.
Proof.
  intros Hres Hinactive.
  rewrite (get_current_active_user_inactive _ _ _ _ _ Hres Hinactive).
  split; reflexivity.
Qed.

(** The active principal goes through. *)
Lemma get_current_active_user_active (tok : token) (db : Session) (r : Redis) (now : Z)
    (u : User.t) :
  get_current_user tok db r now = Ok u ->
  User.is_active u = true ->
  get_current_active_user tok db r now = Ok u.
Proof.
  intros Hres Hact. unfold get_current_active_user. rewrite Hres. cbn.
  unfold get_current_active_user_body. rewrite Hact. reflexivity.
Qed.

(** Whatever [get_current_user] raises, [get_current_active_user] raises. *)
Lemma get_current_active_user_Raise (tok : token) (db : Session) (r : Redis) (now : Z)
    (e : exn) :
  get_current_user tok db r now = Raise e ->
  get_current_active_user tok db r now = Raise e.
Proof. intros H. unfold get_current_active_user. rewrite H. reflexivity. Qed.

(** *** The second-factor step *)

(** What the dependency of [POST /verify-2fa] accepts. *)
Lemma get_current_user_for_2fa_Ok_iff (tok : token) (db : Session) (r : Redis)
    (now : Z) (u : User.t) :
  get_current_user_for_2fa tok db r now = Ok u <->
  exists c name uid j,
    jwt_decode tok SECRET_KEY [ALGORITHM] true now = Ok c /\
    Claims.sub c = Some name /\ Claims.scope c = Some "2fa_required" /\
    Claims.user_id c = Some uid /\ Claims.jti c = Some j /\
    redis_exists r now (blocked_key j) = Ok false /\
    db_get db uid = Some u /\ User.username u = name.
Proof.
  unfold get_current_user_for_2fa, get_current_user_for_2fa_claims. split.
  - destruct (jwt_decode tok SECRET_KEY [ALGORITHM] true now) as [c|e] eqn:Edec;
      [|cbn; destruct e; discriminate].
    cbn. destruct (Claims.sub c) as [name|] eqn:Esub; [|discriminate].
    destruct (Claims.user_id c) as [uid|] eqn:Euid; [|discriminate].
    destruct (Claims.jti c) as [j|] eqn:Ejti; [|discriminate].
    case_bool_decide as Escope; cbn; [|discriminate].
    destruct (redis_exists r now (blocked_key j)) as [[|]|e] eqn:Eex; cbn;
      [discriminate| |destruct e; discriminate].
    destruct (db_get db uid) as [v|] eqn:Eget; [|discriminate].
    case_bool_decide as Ename; cbn; [|discriminate].
    intros H. inversion H. subst v. exists c, name, uid, j. auto 12.
  - intros (c & name & uid & j & -> & Esub & Escope & Euid & Ejti & Eex & Eget & Ename).
    cbn. rewrite Esub, Euid, Ejti.
    rewrite bool_decide_eq_true_2 by exact Escope. cbn.
    rewrite Eex. cbn. rewrite Eget.
    rewrite bool_decide_eq_true_2 by exact Ename. reflexivity.
Qed.

(** Once the dependency has accepted the token, the endpoint is its body run
    on the row the dependency loaded, which the body loads again. *)
Lemma verify_2fa_login_accepted (tok : token) (code : string) (db : Session)
    (r : Redis) (now : Z) (fresh_jti : string) (current_user : User.t) :
  get_current_user_for_2fa tok db r now = Ok current_user ->
  verify_2fa_login tok code db r now fresh_jti =
  if negb (User.is_two_factor_enabled current_user)
     || negb (truthy_str (User.two_factor_secret current_user))
  then Raise two_factor_not_enabled
  else
    match totp_verify (default "" (User.two_factor_secret current_user)) code now with
    | Raise e => Raise e
    | Ok false => Raise invalid_two_factor_code
    | Ok true =>
        Ok {| LoginResponse.access_token :=
                Signed ALGORITHM SECRET_KEY
                  {| Claims.sub := Some (User.username current_user);
                     Claims.scope := None;
                     Claims.user_id := None;
                     Claims.jti := Some fresh_jti;
                     Claims.exp := Some (now + 1800) |};
              LoginResponse.token_type := "bearer";
              LoginResponse.is_2fa_required := None;
              LoginResponse.user_id := None |}
    end.
Proof.
  intros Hdep. unfold verify_2fa_login. rewrite Hdep. cbn.
  unfold verify_2fa_login_body.
  apply get_current_user_for_2fa_Ok_iff in Hdep
    as (c & name & uid & j & _ & _ & _ & _ & _ & _ & Hget & _).
  rewrite (db_get_again _ _ _ Hget).
  destruct (negb (User.is_two_factor_enabled current_user)
            || negb (truthy_str (User.two_factor_secret current_user)));
    [reflexivity|].
  destruct (totp_verify (default "" (User.two_factor_secret current_user)) code now)
    as [[|]|e]; reflexivity.
Qed.

(** The fully-authenticated token of a stored username resolves to the
    first row of that name, up to its expiry, unless its identifier is on
    the blocklist. *)
Lemma get_current_user_full_token (db : Session) (r : Redis) (name jti : string)
    (expire now : Z) (u : User.t) :
  first_by_username db name = Some u ->
  now <= expire ->
  redis_exists r now (blocked_key jti) = Ok false ->
  get_current_user
    (Signed ALGORITHM SECRET_KEY
       {| Claims.sub := Some name; Claims.scope := None; Claims.user_id := None;
          Claims.jti := Some jti; Claims.exp := Some expire |}) db r now = Ok u.
Proof.
  intros Hfind Hexp Hfresh. apply get_current_user_Ok_iff. eexists _, _, _.
  rewrite jwt_decode_own. cbn [Claims.exp Claims.sub Claims.jti Claims.scope].
  settle_ltb expire now.
  cbn. repeat (split; [reflexivity|]).
  split; [exact Hfresh|]. split; [discriminate|]. exact Hfind.
Qed.

(** C5. A restricted token that the dependency [get_current_user_for_2fa]
    accepts, for a principal with the second factor enabled and a secret
    enrolled: with a code that [pyotp] verifies, [verify_2fa_login] returns a
    token without scope that [get_current_user] accepts (it resolves to a
    row of the same username, which [get_current_active_user] lets through
    when it is active) as long as the drawn identifier is not on the
    blocklist; with a code that [pyotp] refuses it raises the 400
    [Invalid 2FA code.] and returns nothing. *)
Theorem second_factor_completion (tok : token) (code : string) (db : Session)
    (r : Redis) (now : Z) (fresh_jti : string) (current_user : User.t)
    (secret : string) :
  get_current_user_for_2fa tok db r now = Ok current_user ->
  User.is_two_factor_enabled current_user = true ->
  User.two_factor_secret current_user = Some secret ->
  secret <> "" ->
  (totp_verify secret code now = Ok true ->
   redis_exists r now (blocked_key fresh_jti) = Ok false ->
   exists claims u,
     verify_2fa_login tok code db r now fresh_jti =
       Ok {| LoginResponse.access_token := Signed ALGORITHM SECRET_KEY claims;
             LoginResponse.token_type := "bearer";
             LoginResponse.is_2fa_required := None;
             LoginResponse.user_id := None |} /\
     Claims.scope claims = None /\
     get_current_user (Signed ALGORITHM SECRET_KEY claims) db r now = Ok u /\
     User.username u = User.username current_user /\
     (User.is_active u = true ->
      get_current_active_user (Signed ALGORITHM SECRET_KEY claims) db r now = Ok u)) /\
  (totp_verify secret code now = Ok false ->
   verify_2fa_login tok code db r now fresh_jti = Raise invalid_two_factor_code /\
   http_status (verify_2fa_login tok code db r now fresh_jti) = HTTP_400_BAD_REQUEST /\
   forall resp, verify_2fa_login tok code db r now fresh_jti <> Ok resp).
Proof.
  intros Hdep H2fa Hsecret Hne.
  pose proof (verify_2fa_login_accepted tok code db r now fresh_jti _ Hdep) as Hrun.
  rewrite H2fa, Hsecret in Hrun. cbn in Hrun.
  rewrite (bool_decide_eq_false_2 _ Hne) in Hrun. cbn in Hrun.
  split.
  - intros Hcode Hfresh. rewrite Hcode in Hrun.
    apply get_current_user_for_2fa_Ok_iff in Hdep
      as (c & name & uid & j & _ & _ & _ & _ & _ & _ & Hget & Hname).
    destruct (db_get_Some _ _ _ Hget) as [_ Hin].
    destruct (first_by_username db (User.username current_user)) as [u|] eqn:Efirst.
    + eexists _, u. split; [exact Hrun|]. split; [reflexivity|].
      match goal with
      | |- ?g = Ok u /\ _ => assert (Hres : g = Ok u)
      end.
      { apply get_current_user_full_token; [exact Efirst|lia|exact Hfresh]. }
      split; [exact Hres|].
      split; [apply (first_by_username_Some _ _ _ Efirst)|].
      intros Hact. exact (get_current_active_user_active _ _ _ _ _ Hres Hact).
    + exfalso. unfold first_by_username in Efirst.
      eapply List.find_none in Efirst; [|exact Hin].
      cbn in Efirst. apply bool_decide_eq_false_1 in Efirst. apply Efirst. reflexivity.
  - intros Hcode. rewrite Hcode in Hrun. rewrite Hrun.
    split; [reflexivity|]. split; [reflexivity|]. discriminate.
Qed.

Lemma db_get_set_is_active (flag : User.t -> bool) (db : Session) (i : Z) :
  db_get (List.map (set_is_active flag) db) i = set_is_active flag <$> db_get db i.
Proof.
  unfold db_get. induction db as [|v db IH]; [reflexivity|].
  cbn [List.map List.find]. cbn [set_is_active User.id].
  destruct (bool_decide (User.id v = i)); [reflexivity|exact IH].
Qed.

(** The second-factor endpoint does not read the active flag: rewriting the
    flags of the table in any way leaves its answer unchanged. *)
Lemma verify_2fa_login_ignores_is_active (flag : User.t -> bool) (tok : token)
    (code : string) (db : Session) (r : Redis) (now : Z) (fresh_jti : string) :
  verify_2fa_login tok code (List.map (set_is_active flag) db) r now fresh_jti =
  verify_2fa_login tok code db r now fresh_jti.
Proof.
  unfold verify_2fa_login, get_current_user_for_2fa.
  destruct (except_JWTError (get_current_user_for_2fa_claims tok r now)
              (Raise credentials_exception_2fa)) as [[name uid]|e]; [|reflexivity].
  cbn. rewrite db_get_set_is_active.
  destruct (db_get db uid) as [u|] eqn:Eget; [|reflexivity].
  cbn. destruct (bool_decide (User.username u = name)); [|reflexivity].
  cbn. unfold verify_2fa_login_body. cbn [set_is_active User.id].
  rewrite db_get_set_is_active.
  destruct (db_get db (User.id u)) as [u'|]; reflexivity.
Qed.

(** C10. The second-factor step never reads the active flag: its answer is
    the same however the flags of the table are set.  So for an inactive
    principal with the second factor enabled, a restricted token that the
    dependency accepts and a code that [pyotp] verifies yield a token
    without scope; with unique usernames and the drawn identifier off the
    blocklist, [get_current_user] resolves that token to the inactive
    principal and [get_current_active_user], on which every protected
    endpoint depends, rejects it with [Inactive user]. *)
Theorem second_factor_ignores_active_flag (tok : token) (code : string) (db : Session)
    (r : Redis) (now : Z) (fresh_jti : string) (current_user : User.t)
    (secret : string) :
  get_current_user_for_2fa tok db r now = Ok current_user ->
  User.is_active current_user = false ->
  User.is_two_factor_enabled current_user = true ->
  User.two_factor_secret current_user = Some secret ->
  secret <> "" ->
  totp_verify secret code now = Ok true ->
  unique_usernames db ->
  redis_exists r now (blocked_key fresh_jti) = Ok false ->
  (forall flag,
     verify_2fa_login tok code (List.map (set_is_active flag) db) r now fresh_jti =
     verify_2fa_login tok code db r now fresh_jti) /\
  exists claims,
    verify_2fa_login tok code db r now fresh_jti =
      Ok {| LoginResponse.access_token := Signed ALGORITHM SECRET_KEY claims;
            LoginResponse.token_type := "bearer";
            LoginResponse.is_2fa_required := None;
            LoginResponse.user_id := None |} /\
    Claims.scope claims = None /\
    get_current_user (Signed ALGORITHM SECRET_KEY claims) db r now = Ok current_user /\
    get_current_active_user (Signed ALGORITHM SECRET_KEY claims) db r now =
      Raise (HTTPException 400 "Inactive user" []).
Proof.
  intros Hdep Hinactive H2fa Hsecret Hne Hcode Huniq Hfresh.
  split; [intros flag; apply verify_2fa_login_ignores_is_active|].
  pose proof (verify_2fa_login_accepted tok code db r now fresh_jti _ Hdep) as Hrun.
  rewrite H2fa, Hsecret in Hrun. cbn in Hrun.
  rewrite (bool_decide_eq_false_2 _ Hne), Hcode in Hrun. cbn in Hrun.
  apply get_current_user_for_2fa_Ok_iff in Hdep
    as (c & name & uid & j & _ & _ & _ & _ & _ & _ & Hget & _).
  destruct (db_get_Some _ _ _ Hget) as [_ Hin].
  pose proof (unique_usernames_first _ _ Huniq Hin) as Hfirst.
  eexists. split; [exact Hrun|]. split; [reflexivity|].
  match goal with
  | |- ?g = Ok current_user /\ _ => assert (Hres : g = Ok current_user)
  end.
  { apply get_current_user_full_token; [exact Hfirst|lia|exact Hfresh]. }
  split; [exact Hres|].
  exact (get_current_active_user_inactive _ _ _ _ _ Hres Hinactive).
Qed.

(** *** Password verification *)

(** C8, as the code has it. [verify_password] adds nothing to
    [pwd_context.verify]: on a digest without a bcrypt prefix it raises
    [UnknownHashError]; on a digest with one it returns what the bcrypt
    handler returns and raises what the handler raises. *)
Theorem verify_password_passes_through (plain_password hashed_password : string) :
  (bcrypt_identify hashed_password = false ->
   verify_password plain_password hashed_password = Raise UnknownHashError) /\
  (bcrypt_identify hashed_password = true ->
   verify_password plain_password hashed_password =
   bcrypt_verify plain_password hashed_password).
Proof.
  unfold verify_password, pwd_context_verify.
  split; intros ->; reflexivity.
Qed.

(** *** The blocklist *)

Lemma add_token_to_blocklist_expired (r : Redis) (jti : string)
    (expires_at_timestamp now : Z) :
  expires_at_timestamp - utcnow_timestamp now <= 0 ->
  add_token_to_blocklist r jti expires_at_timestamp now = Ok r.
Proof.
  intros Hle. unfold add_token_to_blocklist.
  settle_ltb 0 (expires_at_timestamp - utcnow_timestamp now). reflexivity.
Qed.

Lemma add_token_to_blocklist_live (r : Redis) (jti : string)
    (expires_at_timestamp now : Z) :
  0 < expires_at_timestamp - utcnow_timestamp now ->
  reachable r = true ->
  add_token_to_blocklist r jti expires_at_timestamp now =
  Ok {| reachable := true;
        entries := <[blocked_key jti := ("true", expires_at_timestamp + utc_offset)]>
                     (entries r) |}.
Proof.
  intros Hlt Hup. unfold add_token_to_blocklist, redis_setex.
  settle_ltb 0 (expires_at_timestamp - utcnow_timestamp now). rewrite Hup.
  do 4 f_equal. unfold utcnow_timestamp. lia.
Qed.

Lemma redis_exists_inserted (m : gmap string (string * Z)) (key value : string)
    (expires_at t : Z) :
  redis_exists {| reachable := true; entries := <[key := (value, expires_at)]> m |} t key
  = Ok (t <? expires_at).
Proof. unfold redis_exists. cbn. rewrite lookup_insert_eq. reflexivity. Qed.

(** What [add_token_to_blocklist] does on any host.  The time to live is the
    expiry less the host's reading of the clock, which is the expiry less the
    clock plus the host's offset from UTC; when that is zero or negative the
    store is left as it is; otherwise the call is the [SETEX] of the key of
    [jti] with that time to live, after which (the store answering) the key
    holds [true], has that time to live, and exists at an instant exactly
    when the instant is before the expiry of the token plus the offset. *)
Lemma add_token_to_blocklist_entry (r : Redis) (jti : string)
    (expires_at_timestamp now : Z) :
  let ttl := expires_at_timestamp - now + utc_offset in
  (ttl <= 0 -> add_token_to_blocklist r jti expires_at_timestamp now = Ok r) /\
  (0 < ttl ->
   add_token_to_blocklist r jti expires_at_timestamp now =
   redis_setex r now (blocked_key jti) ttl "true") /\
  (0 < ttl -> reachable r = true ->
   exists r',
     add_token_to_blocklist r jti expires_at_timestamp now = Ok r' /\
     entries r' = <[blocked_key jti := ("true", expires_at_timestamp + utc_offset)]>
                    (entries r) /\
     redis_ttl r' now (blocked_key jti) = Some ttl /\
     forall t, redis_exists r' t (blocked_key jti) =
               Ok (t <? expires_at_timestamp + utc_offset)).
Proof.
  intros ttl. unfold add_token_to_blocklist, utcnow_timestamp.
  replace (expires_at_timestamp - (now - utc_offset)) with ttl by (unfold ttl; lia).
  split; [|split].
  - intros Hle. settle_ltb 0 ttl. reflexivity.
  - intros Hlt. settle_ltb 0 ttl. reflexivity.
  - intros Hlt Hup. settle_ltb 0 ttl.
    unfold redis_setex. rewrite Hup. eexists. split; [reflexivity|].
    replace (now + ttl) with (expires_at_timestamp + utc_offset) by (unfold ttl; lia).
    split; [reflexivity|]. split.
    + unfold redis_ttl. cbn [entries]. rewrite lookup_insert_eq.
      unfold ttl in Hlt. settle_ltb now (expires_at_timestamp + utc_offset).
      f_equal. unfold ttl. lia.
    + intros t. unfold redis_exists. cbn [reachable entries].
      rewrite lookup_insert_eq. reflexivity.
Qed.

(** On a host that runs in UTC the reading is the clock, the time to live is
    the remaining validity of the token, and the entry is there exactly
    until the expiry of the token. *)
Lemma add_token_to_blocklist_in_utc (r : Redis) (jti : string)
    (expires_at_timestamp now : Z) :
  utc_offset = 0 ->
  let ttl := expires_at_timestamp - now in
  (ttl <= 0 -> add_token_to_blocklist r jti expires_at_timestamp now = Ok r) /\
  (0 < ttl ->
   add_token_to_blocklist r jti expires_at_timestamp now =
   redis_setex r now (blocked_key jti) ttl "true") /\
  (0 < ttl -> reachable r = true ->
   exists r',
     add_token_to_blocklist r jti expires_at_timestamp now = Ok r' /\
     entries r' = <[blocked_key jti := ("true", expires_at_timestamp)]> (entries r) /\
     redis_ttl r' now (blocked_key jti) = Some ttl /\
     forall t, redis_exists r' t (blocked_key jti) = Ok (t <? expires_at_timestamp)).
Proof.
  intros Hutc ttl.
  pose proof (add_token_to_blocklist_entry r jti expires_at_timestamp now) as H.
  cbv zeta in H. rewrite Hutc in H.
  rewrite !Z.add_0_r in H. exact H.
Qed.

(** *** Logout *)

(** The body of [logout] never raises: each of its three ways out returns a
    message. *)
Lemma logout_body_returns (current_user : User.t) (tok : token) (r : Redis) (now : Z) :
  exists answer, logout_body current_user tok r now = Ok answer.
Proof.
  unfold logout_body. destruct (logout_try tok r now) as [answer|[]]; eauto.
Qed.

(** The endpoint answers with the exception of its dependency whenever the
    dependency raises; the body does not run. *)
Lemma logout_gated (tok : token) (db : Session) (r : Redis) (now : Z) (e : exn) :
  get_current_active_user tok db r now = Raise e ->
  logout tok db r now = Raise e.
Proof. intros H. unfold logout. rewrite H. reflexivity. Qed.

(** The blocklist answered the dependency, so it is reachable. *)
Lemma get_current_active_user_reachable (tok : token) (db : Session) (r : Redis)
    (now : Z) (u : User.t) :
  get_current_active_user tok db r now = Ok u -> reachable r = true.
Proof.
  unfold get_current_active_user. intros Hdep.
  destruct (get_current_user tok db r now) as [v|x] eqn:E; [|discriminate].
  apply get_current_user_Ok_iff in E as (c' & name & j' & _ & _ & _ & Hex & _).
  unfold redis_exists in Hex. destruct (reachable r); [reflexivity|discriminate].
Qed.

(** A logout that the dependency lets through, for a token with an
    identifier and an expiry: the answer is the success message and the
    store is the one [add_token_to_blocklist] leaves. *)
Lemma logout_accepted (tok : token) (db : Session) (r : Redis) (now : Z) (u : User.t)
    (c : Claims.t) (j : string) (e : Z) :
  get_current_active_user tok db r now = Ok u ->
  tok = Signed ALGORITHM SECRET_KEY c ->
  Claims.jti c = Some j -> j <> "" ->
  Claims.exp c = Some e -> e <> 0 ->
  exists r',
    add_token_to_blocklist r j e now = Ok r' /\
    logout tok db r now = Ok (mkMessage "Successfully logged out", r').
Proof.
  intros Hdep -> Hjti Hj Hexp He.
  pose proof (get_current_active_user_reachable _ _ _ _ _ Hdep) as Hup.
  unfold logout. rewrite Hdep. cbn.
  unfold logout_body, logout_try. rewrite jwt_decode_own, Hexp. cbn.
  rewrite Hjti, Hexp. cbn.
  rewrite (bool_decide_eq_false_2 _ Hj), (bool_decide_eq_false_2 _ He). cbn.
  destruct (Z_lt_le_dec 0 (e - utcnow_timestamp now)) as [Hlt|Hle].
  - rewrite (add_token_to_blocklist_live _ _ _ _ Hlt Hup). eexists. split; reflexivity.
  - rewrite (add_token_to_blocklist_expired _ _ _ _ Hle). eexists. split; reflexivity.
Qed.

(** What logout achieves, on any host.  After a logout that finds the
    host's reading before the expiry, [get_current_user] rejects the token
    with the 401 at every instant from the logout on that is before the
    expiry plus the host's offset, where the blocklist entry is there, or
    after the expiry, where the token has expired. *)
Lemma logout_revokes_outside_gap (tok : token) (db : Session) (r : Redis)
    (now : Z) (u : User.t) (c : Claims.t) (j : string) (e : Z) :
  get_current_active_user tok db r now = Ok u ->
  tok = Signed ALGORITHM SECRET_KEY c ->
  Claims.jti c = Some j -> j <> "" ->
  Claims.exp c = Some e -> e <> 0 ->
  utcnow_timestamp now < e ->
  exists r',
    logout tok db r now = Ok (mkMessage "Successfully logged out", r') /\
    forall db' t, now <= t -> t < e + utc_offset \/ e < t ->
      get_current_user tok db' r' t = Raise credentials_exception.
Proof.
  intros Hdep Htok Hjti Hj Hexp He Hlt.
  destruct (logout_accepted _ _ _ _ _ _ _ _ Hdep Htok Hjti Hj Hexp He)
    as (r' & Hadd & Hout).
  exists r'. split; [exact Hout|]. subst tok.
  pose proof (get_current_active_user_reachable _ _ _ _ _ Hdep) as Hup.
  assert (Hpos : 0 < e - utcnow_timestamp now) by lia.
  rewrite (add_token_to_blocklist_live r j e now Hpos Hup) in Hadd.
  inversion Hadd. subst r'. clear Hadd.
  intros db' t Hge Hout'.
  unfold get_current_user, get_current_user_claims.
  rewrite jwt_decode_own, Hexp. cbn -[redis_exists].
  destruct (e <? t) eqn:Elt; [reflexivity|].
  cbn -[redis_exists]. destruct (Claims.sub c) as [name|]; [|reflexivity].
  rewrite Hjti, redis_exists_inserted.
  apply Z.ltb_ge in Elt. settle_ltb t (e + utc_offset). reflexivity.
Qed.

(** On a host in UTC: after a logout strictly before the expiry second,
    [get_current_user] rejects the token with the 401 at every instant from
    the logout on, the expiry second excepted: before it the blocklist entry
    is there, after it the token has expired. *)
Lemma logout_revokes_except_expiry_second (tok : token) (db : Session) (r : Redis)
    (now : Z) (u : User.t) (c : Claims.t) (j : string) (e : Z) :
  utc_offset = 0 ->
  get_current_active_user tok db r now = Ok u ->
  tok = Signed ALGORITHM SECRET_KEY c ->
  Claims.jti c = Some j -> j <> "" ->
  Claims.exp c = Some e -> e <> 0 ->
  now < e ->
  exists r',
    logout tok db r now = Ok (mkMessage "Successfully logged out", r') /\
    forall db' t, now <= t -> t <> e ->
      get_current_user tok db' r' t = Raise credentials_exception.
Proof.
  intros Hutc Hdep Htok Hjti Hj Hexp He Hlt.
  assert (Hread : utcnow_timestamp now < e) by (unfold utcnow_timestamp; lia).
  destruct (logout_revokes_outside_gap _ _ _ _ _ _ _ _ Hdep Htok Hjti Hj Hexp He Hread)
    as (r' & Hout & Hrej).
  exists r'. split; [exact Hout|].
  intros db' t Hge Hne. apply Hrej; [exact Hge|lia].
Qed.

(** East of UTC the entry outlives the token, and the rejection has no gap:
    after a logout of a live token every later resolution raises the 401. *)
Lemma logout_revokes_east_of_utc (tok : token) (db : Session) (r : Redis)
    (now : Z) (u : User.t) (c : Claims.t) (j : string) (e : Z) :
  0 < utc_offset ->
  get_current_active_user tok db r now = Ok u ->
  tok = Signed ALGORITHM SECRET_KEY c ->
  Claims.jti c = Some j -> j <> "" ->
  Claims.exp c = Some e -> e <> 0 ->
  now <= e ->
  exists r',
    logout tok db r now = Ok (mkMessage "Successfully logged out", r') /\
    forall db' t, now <= t ->
      get_current_user tok db' r' t = Raise credentials_exception.
Proof.
  intros Heast Hdep Htok Hjti Hj Hexp He Hle.
  assert (Hread : utcnow_timestamp now < e) by (unfold utcnow_timestamp; lia).
  destruct (logout_revokes_outside_gap _ _ _ _ _ _ _ _ Hdep Htok Hjti Hj Hexp He Hread)
    as (r' & Hout & Hrej).
  exists r'. split; [exact Hout|].
  intros db' t Hge. apply Hrej; [exact Hge|lia].
Qed.

(** What logout misses, in UTC and west of it.  A logout during the expiry
    second of a token, a second in which the token is still accepted, answers
    with the success message, writes nothing, and leaves the token
    accepted. *)
Lemma logout_in_expiry_second (tok : token) (db : Session) (r : Redis) (now : Z)
    (u : User.t) (c : Claims.t) (j : string) :
  utc_offset <= 0 ->
  get_current_active_user tok db r now = Ok u ->
  tok = Signed ALGORITHM SECRET_KEY c ->
  Claims.jti c = Some j -> j <> "" ->
  Claims.exp c = Some now -> now <> 0 ->
  logout tok db r now = Ok (mkMessage "Successfully logged out", r) /\
  get_current_active_user tok db r now = Ok u.
Proof.
  intros Hwest Hdep Htok Hjti Hj Hexp He.
  destruct (logout_accepted _ _ _ _ _ _ _ _ Hdep Htok Hjti Hj Hexp He)
    as (r' & Hadd & Hout).
  rewrite add_token_to_blocklist_expired in Hadd by (unfold utcnow_timestamp; lia).
  inversion Hadd. subst r'. split; assumption.
Qed.

(** And once the entry has run out, in the expiry second, the token of an
    earlier logout is accepted again. *)
Lemma logout_entry_gone_in_expiry_second (tok : token) (db : Session) (r : Redis)
    (now : Z) (u : User.t) (c : Claims.t) (j : string) (e : Z) :
  utc_offset <= 0 ->
  get_current_active_user tok db r now = Ok u ->
  tok = Signed ALGORITHM SECRET_KEY c ->
  Claims.jti c = Some j -> j <> "" ->
  Claims.exp c = Some e -> e <> 0 ->
  utcnow_timestamp now < e ->
  exists r',
    logout tok db r now = Ok (mkMessage "Successfully logged out", r') /\
    get_current_active_user tok db r' e = Ok u.
Proof.
  intros Hwest Hdep Htok Hjti Hj Hexp He Hlt.
  destruct (logout_accepted _ _ _ _ _ _ _ _ Hdep Htok Hjti Hj Hexp He)
    as (r' & Hadd & Hout).
  exists r'. split; [exact Hout|]. subst tok.
  pose proof (get_current_active_user_reachable _ _ _ _ _ Hdep) as Hup.
  assert (Hpos : 0 < e - utcnow_timestamp now) by lia.
  rewrite (add_token_to_blocklist_live r j e now Hpos Hup) in Hadd.
  inversion Hadd. subst r'. clear Hadd.
  unfold get_current_active_user in *.
  destruct (get_current_user (Signed ALGORITHM SECRET_KEY c) db r now) as [v|x] eqn:E;
    [|discriminate].
  cbn in Hdep.
  assert (Hv : get_current_user (Signed ALGORITHM SECRET_KEY c) db
                 {| reachable := true;
                    entries := <[blocked_key j := ("true", e + utc_offset)]>
                                 (entries r) |} e = Ok v).
  { apply get_current_user_Ok_iff in E
      as (c' & name & j' & Hdec & Hsub & Hjti' & _ & Hscope & Hfind).
    rewrite jwt_decode_own, Hexp in Hdec.
    destruct (true && (e <? now)); [discriminate|]. inversion Hdec. subst c'.
    apply get_current_user_Ok_iff. exists c, name, j.
    rewrite jwt_decode_own, Hexp, Z.ltb_irrefl. cbn -[redis_exists].
    rewrite Hjti in Hjti'. inversion Hjti'. subst j'.
    rewrite redis_exists_inserted. settle_ltb e (e + utc_offset). auto 10. }
  rewrite Hv. exact Hdep.
Qed.

(** *** Tokens: issuing, decoding, rejecting *)

(** X1. Decoding a token that [create_access_token] issued, with the
    server's key: the caller's [sub], [scope] and [user_id] come back, the
    identifier is the one drawn and the expiry is the clock plus the
    lifetime, whatever [jti] or [exp] the caller's dict held.  An absent or
    zero [expires_delta] means thirty minutes.  With expiry checking the
    token decodes up to and including its expiry second and is refused
    afterwards; without it, it always decodes. *)
Theorem create_access_token_round_trip (data : Claims.t) (expires_delta : option Z)
    (now : Z) (fresh_jti : string) (verify_exp : bool) (t : Z) :
  let lifetime :=
    match expires_delta with
    | Some d => if bool_decide (d = 0) then 1800 else d
    | None => 1800
    end in
  jwt_decode (create_access_token data expires_delta now fresh_jti)
    SECRET_KEY [ALGORITHM] verify_exp t =
  if verify_exp && (now + lifetime <? t) then Raise (JWTError "Signature has expired.")
  else Ok {| Claims.sub := Claims.sub data;
             Claims.scope := Claims.scope data;
             Claims.user_id := Claims.user_id data;
             Claims.jti := Some fresh_jti;
             Claims.exp := Some (now + lifetime) |}.
Proof.
  intros lifetime. unfold create_access_token, jwt_encode.
  rewrite jwt_decode_own. cbn [Claims.exp]. subst lifetime.
  destruct expires_delta as [d|]; [case_bool_decide|]; reflexivity.
Qed.

(** Whatever is not a token signed with the server's key under HS256 fails
    to decode. *)
Lemma jwt_decode_foreign (tok : token) (verify_exp : bool) (now : Z) :
  (forall c, tok <> Signed ALGORITHM SECRET_KEY c) ->
  exists why, jwt_decode tok SECRET_KEY [ALGORITHM] verify_exp now = Raise (JWTError why).
Proof.
  intros Hforeign.
  destruct (jwt_decode tok SECRET_KEY [ALGORITHM] verify_exp now) as [c|e] eqn:E.
  - apply jwt_decode_Ok in E. destruct (Hforeign c E).
  - apply jwt_decode_Raise in E as [why ->]. eauto.
Qed.

(** A decoding failure is answered by each dependency with its own 401,
    before the blocklist or the table is looked at. *)
Lemma get_current_user_undecodable (tok : token) (db : Session) (r : Redis) (now : Z)
    (why : string) :
  jwt_decode tok SECRET_KEY [ALGORITHM] true now = Raise (JWTError why) ->
  get_current_user tok db r now = Raise credentials_exception.
Proof.
  intros H. unfold get_current_user, get_current_user_claims. rewrite H. reflexivity.
Qed.

Lemma get_current_user_for_2fa_undecodable (tok : token) (db : Session) (r : Redis)
    (now : Z) (why : string) :
  jwt_decode tok SECRET_KEY [ALGORITHM] true now = Raise (JWTError why) ->
  get_current_user_for_2fa tok db r now = Raise credentials_exception_2fa.
Proof.
  intros H. unfold get_current_user_for_2fa, get_current_user_for_2fa_claims.
  rewrite H. reflexivity.
Qed.

(** X2. A bearer string that is not a token signed with the server's key
    under HS256 (text that is no token, another key, another algorithm) is
    answered with the 401 of the dependency by every authenticated endpoint
    of [api/auth.py], whatever it claims and whatever the table and the
    blocklist hold, reachable or not. *)
Theorem foreign_token_rejected (tok : token) (code : string) (db : Session) (r : Redis)
    (now : Z) (fresh_jti : string) :
  (forall c, tok <> Signed ALGORITHM SECRET_KEY c) ->
  get_current_user tok db r now = Raise credentials_exception /\
  get_current_active_user tok db r now = Raise credentials_exception /\
  read_users_me tok db r now = Raise credentials_exception /\
  logout tok db r now = Raise credentials_exception /\
  get_current_user_for_2fa tok db r now = Raise credentials_exception_2fa /\
  verify_2fa_login tok code db r now fresh_jti = Raise credentials_exception_2fa.
Proof.
  intros Hforeign.
  destruct (jwt_decode_foreign tok true now Hforeign) as [why Hdec].
  pose proof (get_current_user_undecodable tok db r now why Hdec) as H1.
  pose proof (get_current_user_for_2fa_undecodable tok db r now why Hdec) as H2.
  pose proof (get_current_active_user_Raise _ _ _ _ _ H1) as H3.
  repeat split; try assumption.
  - apply logout_gated. exact H3.
  - unfold verify_2fa_login. rewrite H2. reflexivity.
Qed.

(** X3. A token whose expiry second has passed is answered with the 401 of
    the dependency by [get_current_user] and by [get_current_user_for_2fa],
    whoever signed it, whether or not it was ever revoked, and even when the
    blocklist does not answer. *)
Theorem expired_token_rejected (alg key : string) (c : Claims.t) (e : Z) (db : Session)
    (r : Redis) (now : Z) :
  Claims.exp c = Some e ->
  e < now ->
  get_current_user (Signed alg key c) db r now = Raise credentials_exception /\
  get_current_user_for_2fa (Signed alg key c) db r now = Raise credentials_exception_2fa.
Proof.
  intros Hexp Hlt.
  assert (Hdec : exists why,
    jwt_decode (Signed alg key c) SECRET_KEY [ALGORITHM] true now = Raise (JWTError why)).
  { unfold jwt_decode. rewrite Hexp. settle_ltb e now.
    repeat case_match; simplify_eq; eauto. }
  destruct Hdec as [why Hdec]. split.
  - exact (get_current_user_undecodable _ db r now why Hdec).
  - exact (get_current_user_for_2fa_undecodable _ db r now why Hdec).
Qed.

(** X4. A token without a subject or without an identifier is answered by
    [get_current_user] with the 401; [get_current_user_for_2fa] answers with
    its 401 when the subject, the identifier or the principal id is missing
    or the scope is not exactly [2fa_required].  Neither asks the blocklist
    first, so this holds when it does not answer. *)
Theorem incomplete_claims_rejected (alg key : string) (c : Claims.t) (db : Session)
    (r : Redis) (now : Z) :
  (Claims.sub c = None \/ Claims.jti c = None ->
   get_current_user (Signed alg key c) db r now = Raise credentials_exception) /\
  (Claims.sub c = None \/ Claims.jti c = None \/ Claims.user_id c = None \/
   Claims.scope c <> Some "2fa_required" ->
   get_current_user_for_2fa (Signed alg key c) db r now = Raise credentials_exception_2fa).
Proof.
  split; intros Hmissing.
  - unfold get_current_user, get_current_user_claims.
    destruct (jwt_decode (Signed alg key c) SECRET_KEY [ALGORITHM] true now)
      as [c'|e] eqn:Edec.
    + pose proof (jwt_decode_Ok _ _ _ _ Edec) as Heq. inversion Heq. subst c'.
      cbn. destruct Hmissing as [-> | ->]; [reflexivity|].
      destruct (Claims.sub c); reflexivity.
    + apply jwt_decode_Raise in Edec as [why ->]. reflexivity.
  - unfold get_current_user_for_2fa, get_current_user_for_2fa_claims.
    destruct (jwt_decode (Signed alg key c) SECRET_KEY [ALGORITHM] true now)
      as [c'|e] eqn:Edec.
    + pose proof (jwt_decode_Ok _ _ _ _ Edec) as Heq. inversion Heq. subst c'.
      cbn. destruct (Claims.sub c) as [name|]; [|reflexivity].
      destruct (Claims.user_id c) as [uid|]; [|reflexivity].
      destruct (Claims.jti c) as [j|]; [|reflexivity].
      destruct Hmissing as [H|[H|[H|H]]]; try discriminate.
      rewrite bool_decide_eq_false_2 by exact H. reflexivity.
    + apply jwt_decode_Raise in Edec as [why ->]. reflexivity.
Qed.

(** X5. [get_current_active_user] returns a principal exactly when the
    bearer string is a token signed with the server's key under HS256, not
    past its expiry second, with a subject and an identifier, the identifier
    is not on the blocklist (which answers), the scope is not
    [2fa_required], and the first row under the subject's name is that
    principal and is active. *)
Theorem get_current_active_user_Ok_iff (tok : token) (db : Session) (r : Redis)
    (now : Z) (u : User.t) :
  get_current_active_user tok db r now = Ok u <->
  exists c name j,
    tok = Signed ALGORITHM SECRET_KEY c /\
    (forall e, Claims.exp c = Some e -> now <= e) /\
    Claims.sub c = Some name /\ Claims.jti c = Some j /\
    redis_exists r now (blocked_key j) = Ok false /\
    Claims.scope c <> Some "2fa_required" /\
    first_by_username db name = Some u /\
    User.is_active u = true.
Proof.
  split.
  - intros H. unfold get_current_active_user in H.
    destruct (get_current_user tok db r now) as [v|x] eqn:E; [|discriminate].
    cbn in H. unfold get_current_active_user_body in H.
    destruct (User.is_active v) eqn:Hact; [|discriminate].
    cbn in H. inversion H. subst v. clear H.
    apply get_current_user_Ok_iff in E
      as (c & name & j & Hdec & Hsub & Hjti & Hex & Hscope & Hfind).
    pose proof (jwt_decode_Ok _ _ _ _ Hdec) as ->.
    exists c, name, j. repeat (split; [first [reflexivity|assumption]|]).
    split; [|auto 10].
    intros e He. rewrite jwt_decode_own, He in Hdec. cbn in Hdec.
    destruct (e <? now) eqn:Elt; [discriminate|]. apply Z.ltb_ge in Elt. exact Elt.
  - intros (c & name & j & -> & Hexp & Hsub & Hjti & Hex & Hscope & Hfind & Hact).
    apply get_current_active_user_active; [|exact Hact].
    apply get_current_user_Ok_iff. exists c, name, j.
    split; [|auto 10].
    rewrite jwt_decode_own. destruct (Claims.exp c) as [e|] eqn:He; [|reflexivity].
    specialize (Hexp e eq_refl). settle_ltb e now. reflexivity.
Qed.

(** X6. No bearer string is accepted by both dependencies: a token that
    [get_current_user] resolves, at some instant against some table and
    blocklist, is one that [get_current_user_for_2fa] refuses at every
    instant against every table and blocklist, and the other way round. *)
Theorem token_scope_separation (tok : token) (db : Session) (r : Redis) (now : Z)
    (db' : Session) (r' : Redis) (now' : Z) :
  (forall u, get_current_user tok db r now <> Ok u) \/
  (forall u, get_current_user_for_2fa tok db' r' now' <> Ok u).
Proof.
  destruct tok as [alg key c|raw].
  - destruct (decide (Claims.scope c = Some "2fa_required")) as [Hs|Hs].
    + left. exact (proj1 (get_current_user_restricted alg key c db r now Hs)).
    + right. intros u H.
      apply get_current_user_for_2fa_Ok_iff in H
        as (c' & name & uid & j & Hdec & _ & Hscope & _).
      apply jwt_decode_Ok in Hdec. inversion Hdec. subst c'. contradiction.
  - left. intros u H. apply get_current_user_Ok_iff in H as (c & _ & _ & Hdec & _).
    discriminate Hdec.
Qed.

(** *** Login, once more *)

(** X7. [authenticate_user] returns a principal exactly when the first row
    under the username exists and [verify_password] answers [True] for its
    digest, and that principal is this row; it returns [None] exactly when
    there is no such row or [verify_password] answers [False]. *)
Theorem authenticate_user_result (db : Session) (username password : string) :
  (forall u,
     authenticate_user db username password = Ok (Some u) <->
     first_by_username db username = Some u /\
     verify_password password (User.hashed_password u) = Ok true) /\
  (authenticate_user db username password = Ok None <->
   first_by_username db username = None \/
   exists u, first_by_username db username = Some u /\
             verify_password password (User.hashed_password u) = Ok false).
Proof.
  unfold authenticate_user.
  destruct (first_by_username db username) as [v|] eqn:Efind.
  - destruct (verify_password password (User.hashed_password v)) as [[|]|e] eqn:Epw;
      cbn; (split; [intros u|]); split; intros H.
    + inversion H. subst. auto.
    + destruct H as [H _]. inversion H. subst. reflexivity.
    + discriminate.
    + destruct H as [H|(u & H & Hu)]; [discriminate|].
      inversion H. subst. congruence.
    + discriminate.
    + destruct H as [H Hu]. inversion H. subst. congruence.
    + right. eauto.
    + reflexivity.
    + discriminate.
    + destruct H as [H Hu]. inversion H. subst. congruence.
    + discriminate.
    + destruct H as [H|(u & H & Hu)]; [discriminate|].
      inversion H. subst. congruence.
  - split; [intros u|]; split; intros H.
    + discriminate.
    + destruct H as [H _]. discriminate.
    + left. reflexivity.
    + reflexivity.
Qed.

Lemma first_by_username_set_is_active (flag : User.t -> bool) (db : Session)
    (name : string) :
  first_by_username (List.map (set_is_active flag) db) name =
  set_is_active flag <$> first_by_username db name.
Proof.
  unfold first_by_username. induction db as [|v db IH]; [reflexivity|].
  cbn [List.map List.find]. cbn [set_is_active User.username].
  destruct (bool_decide (User.username v = name)); [reflexivity|exact IH].
Qed.

(** X8. The login does not read the active flag: rewriting the flags of the
    table in any way leaves its answer, token included, unchanged.  An
    inactive principal is handed the same token as an active one. *)
Theorem login_ignores_is_active (flag : User.t -> bool) (form_username form_password : string)
    (db : Session) (now : Z) (fresh_jti : string) :
  login_for_access_token form_username form_password
    (List.map (set_is_active flag) db) now fresh_jti =
  login_for_access_token form_username form_password db now fresh_jti.
Proof.
  unfold login_for_access_token, authenticate_user.
  rewrite first_by_username_set_is_active.
  destruct (first_by_username db form_username) as [u|]; [|reflexivity].
  cbn [fmap option_fmap option_map]. cbn [set_is_active User.hashed_password].
  destruct (verify_password form_password (User.hashed_password u)) as [[|]|e];
    reflexivity.
Qed.

(** X16. For a row whose stored digest carries no bcrypt prefix, the login
    raises passlib's [UnknownHashError] whatever password is submitted: the
    caller gets a 500 where an unknown username gets the 401. *)
Theorem login_unidentified_digest (db : Session) (form_username form_password : string)
    (now : Z) (fresh_jti : string) (user : User.t) :
  first_by_username db form_username = Some user ->
  bcrypt_identify (User.hashed_password user) = false ->
  login_for_access_token form_username form_password db now fresh_jti =
    Raise UnknownHashError /\
  http_status (login_for_access_token form_username form_password db now fresh_jti) = 500.
Proof.
  intros Hfind Hident.
  rewrite (login_for_access_token_found _ _ _ _ _ _ Hfind).
  unfold verify_password, pwd_context_verify. rewrite Hident. split; reflexivity.
Qed.

(** *** The two steps together *)

(** An entry that has run out stays out: the blocklist only ever forgets. *)
Lemma redis_exists_later (r : Redis) (now now' : Z) (key : string) :
  redis_exists r now key = Ok false ->
  now <= now' ->
  redis_exists r now' key = Ok false.
Proof.
  unfold redis_exists. destruct (reachable r); [|discriminate].
  destruct (entries r !! key) as [[value expires_at]|]; [|auto].
  intros H Hle. injection H as Hlt. apply Z.ltb_ge in Hlt.
  settle_ltb now' expires_at. reflexivity.
Qed.

(** X9. The two-step login, end to end.  A principal with the second factor
    enabled and a secret enrolled logs in with a password that verifies;
    within the five minutes of the restricted token a code that [pyotp]
    verifies is submitted with it; the token that comes back, within its
    thirty minutes, resolves through [get_current_user] to that very
    principal.  The drawn identifiers are not on the blocklist, and the
    principal is the row under its id. *)
Theorem two_step_login (db : Session) (r : Redis) (form_username form_password : string)
    (user : User.t) (secret code : string) (now1 now2 now3 : Z) (jti1 jti2 : string) :
  first_by_username db form_username = Some user ->
  db_get db (User.id user) = Some user ->
  User.is_two_factor_enabled user = true ->
  User.two_factor_secret user = Some secret ->
  secret <> "" ->
  verify_password form_password (User.hashed_password user) = Ok true ->
  now2 <= now1 + 300 ->
  redis_exists r now2 (blocked_key jti1) = Ok false ->
  totp_verify secret code now2 = Ok true ->
  now3 <= now2 + 1800 ->
  redis_exists r now3 (blocked_key jti2) = Ok false ->
  exists restricted full,
    login_for_access_token form_username form_password db now1 jti1 =
      Ok {| LoginResponse.access_token := restricted;
            LoginResponse.token_type := "bearer";
            LoginResponse.is_2fa_required := Some true;
            LoginResponse.user_id := Some (User.id user) |} /\
    verify_2fa_login restricted code db r now2 jti2 =
      Ok {| LoginResponse.access_token := full;
            LoginResponse.token_type := "bearer";
            LoginResponse.is_2fa_required := None;
            LoginResponse.user_id := None |} /\
    get_current_user full db r now3 = Ok user.
Proof.
  intros Hfind Hget H2fa Hsecret Hne Hpw Hlive1 Hfresh1 Hcode Hlive2 Hfresh2.
  rewrite (login_for_access_token_found _ _ _ _ _ _ Hfind), Hpw, H2fa.
  eexists _, _. split; [reflexivity|].
  match goal with
  | |- verify_2fa_login ?t _ _ _ _ _ = _ /\ _ =>
      assert (Hdep : get_current_user_for_2fa t db r now2 = Ok user)
  end.
  { apply get_current_user_for_2fa_Ok_iff. eexists _, _, _, _.
    rewrite jwt_decode_own. cbn [Claims.exp]. settle_ltb (now1 + 300) now2.
    cbn. repeat (split; [reflexivity|]). split; [exact Hfresh1|].
    split; [exact Hget|reflexivity]. }
  rewrite (verify_2fa_login_accepted _ code db r now2 jti2 _ Hdep).
  rewrite H2fa, Hsecret. cbn.
  rewrite (bool_decide_eq_false_2 _ Hne), Hcode. cbn.
  split; [reflexivity|].
  apply get_current_user_full_token; [|lia|exact Hfresh2].
  eapply first_by_username_again. exact Hfind.
Qed.

(** X10. Completing the second factor does not use up the restricted
    token: [verify_2fa_login] writes nothing to the blocklist, so the same
    token, presented again at any later instant up to its expiry with a code
    that verifies then, is accepted again and yields one more
    fully-authenticated token, under its own fresh identifier. *)
Theorem second_factor_token_not_consumed (c : Claims.t) (code1 code2 : string)
    (db : Session) (r : Redis) (now1 now2 : Z) (jti1 jti2 : string)
    (current_user : User.t) (secret : string) :
  get_current_user_for_2fa (Signed ALGORITHM SECRET_KEY c) db r now1 = Ok current_user ->
  now1 <= now2 ->
  (forall e, Claims.exp c = Some e -> now2 <= e) ->
  User.is_two_factor_enabled current_user = true ->
  User.two_factor_secret current_user = Some secret ->
  secret <> "" ->
  totp_verify secret code1 now1 = Ok true ->
  totp_verify secret code2 now2 = Ok true ->
  exists claims1 claims2,
    verify_2fa_login (Signed ALGORITHM SECRET_KEY c) code1 db r now1 jti1 =
      Ok {| LoginResponse.access_token := Signed ALGORITHM SECRET_KEY claims1;
            LoginResponse.token_type := "bearer";
            LoginResponse.is_2fa_required := None;
            LoginResponse.user_id := None |} /\
    verify_2fa_login (Signed ALGORITHM SECRET_KEY c) code2 db r now2 jti2 =
      Ok {| LoginResponse.access_token := Signed ALGORITHM SECRET_KEY claims2;
            LoginResponse.token_type := "bearer";
            LoginResponse.is_2fa_required := None;
            LoginResponse.user_id := None |} /\
    Claims.jti claims1 = Some jti1 /\ Claims.jti claims2 = Some jti2.
Proof.
  intros Hdep Hle Hlive H2fa Hsecret Hne Hcode1 Hcode2.
  assert (Hdep2 : get_current_user_for_2fa (Signed ALGORITHM SECRET_KEY c) db r now2
                  = Ok current_user).
  { apply get_current_user_for_2fa_Ok_iff in Hdep
      as (c' & name & uid & j & Hdec & Hsub & Hscope & Huid & Hjti & Hex & Hget & Hname).
    pose proof (jwt_decode_Ok _ _ _ _ Hdec) as Heq. inversion Heq. subst c'.
    apply get_current_user_for_2fa_Ok_iff. exists c, name, uid, j.
    split; [|pose proof (redis_exists_later _ _ _ _ Hex Hle); auto 12].
    rewrite jwt_decode_own. destruct (Claims.exp c) as [e|] eqn:He; [|reflexivity].
    specialize (Hlive e eq_refl). settle_ltb e now2. reflexivity. }
  rewrite (verify_2fa_login_accepted _ code1 db r now1 jti1 _ Hdep).
  rewrite (verify_2fa_login_accepted _ code2 db r now2 jti2 _ Hdep2).
  rewrite H2fa, Hsecret. cbn.
  rewrite (bool_decide_eq_false_2 _ Hne), Hcode1, Hcode2. cbn.
  eexists _, _. repeat split; reflexivity.
Qed.

(** X11. A restricted token that the dependency accepts, for a principal
    whose second factor is switched off or who has no secret enrolled (none,
    or the empty string): [verify_2fa_login] raises the 400
    [2FA not enabled or user not found.] whatever code is submitted, without
    asking [pyotp]. *)
Theorem verify_2fa_login_not_enrolled (tok : token) (code : string) (db : Session)
    (r : Redis) (now : Z) (fresh_jti : string) (current_user : User.t) :
  get_current_user_for_2fa tok db r now = Ok current_user ->
  User.is_two_factor_enabled current_user = false \/
  User.two_factor_secret current_user = None \/
  User.two_factor_secret current_user = Some "" ->
  verify_2fa_login tok code db r now fresh_jti = Raise two_factor_not_enabled /\
  http_status (verify_2fa_login tok code db r now fresh_jti) = HTTP_400_BAD_REQUEST.
Proof.
  intros Hdep Hoff.
  rewrite (verify_2fa_login_accepted _ code db r now fresh_jti _ Hdep).
  destruct Hoff as [-> | [-> | ->]]; cbn.
  - split; reflexivity.
  - rewrite orb_true_r. split; reflexivity.
  - rewrite (bool_decide_eq_true_2 ("" = "")) by reflexivity. cbn.
    rewrite orb_true_r. split; reflexivity.
Qed.

(** *** Logout, once more *)


(** A token that the dependency resolves is one of the server's and carries
    an identifier. *)
Lemma get_current_active_user_Ok_claims (tok : token) (db : Session) (r : Redis)
    (now : Z) (u : User.t) :
  get_current_active_user tok db r now = Ok u ->
  exists c j, tok = Signed ALGORITHM SECRET_KEY c /\ Claims.jti c = Some j.
Proof.
  unfold get_current_active_user. intros H.
  destruct (get_current_user tok db r now) as [v|x] eqn:E; [|discriminate].
  apply get_current_user_Ok_iff in E as (c & name & j & Hdec & _ & Hjti & _).
  apply jwt_decode_Ok in Hdec. eauto.
Qed.

(** What a logout that returns leaves behind: the token was one of the
    server's with an identifier, the store answered, and the store is either
    untouched or has gained the entry of that identifier. *)
Lemma logout_Ok_store (tok : token) (db : Session) (r : Redis) (now : Z)
    (m : Message) (r' : Redis) :
  logout tok db r now = Ok (m, r') ->
  exists c j u,
    tok = Signed ALGORITHM SECRET_KEY c /\ Claims.jti c = Some j /\
    get_current_active_user tok db r now = Ok u /\
    reachable r = true /\
    m <> mkMessage "Logout successful (token was invalid)" /\
    (r' = r \/
     exists e, r' = {| reachable := true;
                       entries := <[blocked_key j := ("true", e)]> (entries r) |}).
Proof.
  unfold logout. intros H.
  destruct (get_current_active_user tok db r now) as [u|x] eqn:Hdep; [|discriminate].
  cbn in H.
  pose proof (get_current_active_user_reachable _ _ _ _ _ Hdep) as Hup.
  destruct (get_current_active_user_Ok_claims _ _ _ _ _ Hdep) as (c & j & -> & Hjti).
  exists c, j, u. repeat (split; [first [reflexivity|assumption]|]).
  unfold logout_body, logout_try in H. rewrite jwt_decode_own in H.
  assert (Hdec : match Claims.exp c with
                 | Some e => if false && (e <? now)
                             then Raise (JWTError "Signature has expired.") else Ok c
                 | None => Ok c
                 end = Ok c) by (destruct (Claims.exp c); reflexivity).
  rewrite Hdec in H. cbn in H. rewrite Hjti in H. cbn in H.
  destruct (negb (bool_decide (j = "")) && truthy_int (Claims.exp c)).
  - unfold add_token_to_blocklist, redis_setex in H. rewrite Hup in H.
    destruct (0 <? default 0 (Claims.exp c) - utcnow_timestamp now);
      cbn in H; inversion H; subst.
    + split; [discriminate|]. right.
      exists (now + (default 0 (Claims.exp c) - utcnow_timestamp now)). reflexivity.
    + split; [discriminate|]. left. reflexivity.
  - cbn in H. inversion H. subst. split; [discriminate|]. left. reflexivity.
Qed.


(** X13. Revoking twice is revoking once, on any host: a second
    [add_token_to_blocklist] for the same identifier and expiry, in the same
    or a later second, leaves the store as the first left it.  The second in
    which the entry runs out does not depend on when, or how often, the token
    is revoked: whenever the first call wrote, it is the expiry plus the
    host's offset from UTC. *)
Theorem add_token_to_blocklist_twice (r : Redis) (jti : string)
    (expires_at_timestamp now1 now2 : Z) (r1 : Redis) :
  add_token_to_blocklist r jti expires_at_timestamp now1 = Ok r1 ->
  now1 <= now2 ->
  add_token_to_blocklist r1 jti expires_at_timestamp now2 = Ok r1 /\
  (utcnow_timestamp now1 < expires_at_timestamp ->
   entries r1 !! blocked_key jti = Some ("true", expires_at_timestamp + utc_offset)).
Proof.
  intros Hfirst Hle.
  destruct (Z_lt_le_dec 0 (expires_at_timestamp - utcnow_timestamp now1))
    as [Hlive1|Hdead1].
  - assert (Hup : reachable r = true).
    { destruct (reachable r) eqn:Hr; [reflexivity|].
      unfold add_token_to_blocklist, redis_setex in Hfirst. rewrite Hr in Hfirst.
      revert Hfirst.
      settle_ltb 0 (expires_at_timestamp - utcnow_timestamp now1). discriminate. }
    rewrite (add_token_to_blocklist_live _ _ _ _ Hlive1 Hup) in Hfirst.
    inversion Hfirst. subst r1. clear Hfirst.
    split; [|intros _; cbn [entries]; apply lookup_insert_eq].
    destruct (Z_lt_le_dec 0 (expires_at_timestamp - utcnow_timestamp now2))
      as [Hlive2|Hdead2];
      [|apply add_token_to_blocklist_expired; exact Hdead2].
    rewrite add_token_to_blocklist_live; [|exact Hlive2|reflexivity].
    cbn [entries]. rewrite insert_insert_eq. reflexivity.
  - rewrite (add_token_to_blocklist_expired _ _ _ _ Hdead1) in Hfirst.
    inversion Hfirst. subst r1. clear Hfirst.
    split; [|lia].
    apply add_token_to_blocklist_expired. unfold utcnow_timestamp in *. lia.
Qed.

(** X14. The body of [logout], taken alone, never raises, and touches the
    store only under the answer [Successfully logged out].  A bearer string
    that is not one of the server's tokens gets the answer
    [Logout successful (token was invalid)].  For a token of the server the
    outcome turns on the host's reading of the clock, not on the clock: with
    the expiry at or before the reading the answer is
    [Successfully logged out] and nothing is written; with the expiry after
    the reading, a true identifier and a true expiry, the entry is written
    under [Successfully logged out], to run out at the expiry plus the host's
    offset, or, the store not answering, the third answer is given.  On a
    host in UTC the reading is the clock, and the identifier of a token at or
    past its expiry is never put on the blocklist. *)
Theorem logout_body_exits (current_user : User.t) (tok : token) (r : Redis) (now : Z) :
  (exists m r',
     logout_body current_user tok r now = Ok (m, r') /\
     (m = mkMessage "Successfully logged out" \/ r' = r)) /\
  ((forall c, tok <> Signed ALGORITHM SECRET_KEY c) ->
   logout_body current_user tok r now =
     Ok (mkMessage "Logout successful (token was invalid)", r)) /\
  (forall c e,
     tok = Signed ALGORITHM SECRET_KEY c -> Claims.exp c = Some e ->
     e <= utcnow_timestamp now ->
     logout_body current_user tok r now = Ok (mkMessage "Successfully logged out", r)) /\
  (forall c j e,
     tok = Signed ALGORITHM SECRET_KEY c -> Claims.jti c = Some j -> j <> "" ->
     Claims.exp c = Some e -> e <> 0 -> utcnow_timestamp now < e ->
     (reachable r = false ->
      logout_body current_user tok r now =
        Ok (mkMessage "Logout processed with an internal finalization error", r)) /\
     (reachable r = true ->
      logout_body current_user tok r now =
        Ok (mkMessage "Successfully logged out",
            {| reachable := true;
               entries := <[blocked_key j := ("true", e + utc_offset)]> (entries r) |}))) /\
  (utc_offset = 0 ->
   forall c e,
     tok = Signed ALGORITHM SECRET_KEY c -> Claims.exp c = Some e -> e <= now ->
     logout_body current_user tok r now = Ok (mkMessage "Successfully logged out", r)).
Proof.
  assert (Hdead : forall c e,
            tok = Signed ALGORITHM SECRET_KEY c -> Claims.exp c = Some e ->
            e <= utcnow_timestamp now ->
            logout_body current_user tok r now =
              Ok (mkMessage "Successfully logged out", r)).
  { intros c e -> Hexp Hle. unfold logout_body, logout_try.
    rewrite jwt_decode_own, Hexp. cbn. rewrite Hexp. cbn.
    destruct (truthy_str (Claims.jti c) && negb (bool_decide (e = 0))); [|reflexivity].
    rewrite add_token_to_blocklist_expired by lia. reflexivity. }
  split; [|split; [|split; [|split]]].
  - unfold logout_body.
    destruct (logout_try tok r now) as [[m r']|x] eqn:E.
    + exists m, r'. split; [reflexivity|]. left.
      unfold logout_try in E.
      destruct (jwt_decode tok SECRET_KEY [ALGORITHM] false now) as [c|y];
        [|discriminate].
      cbn in E.
      destruct (if truthy_str (Claims.jti c) && truthy_int (Claims.exp c)
                then add_token_to_blocklist r (default "" (Claims.jti c))
                       (default 0 (Claims.exp c)) now
                else Ok r) as [r''|y]; [|discriminate].
      cbn in E. inversion E. reflexivity.
    + destruct x; eexists _, _; (split; [reflexivity|]); right; reflexivity.
  - intros Hforeign. unfold logout_body, logout_try.
    destruct (jwt_decode_foreign tok false now Hforeign) as [why ->]. reflexivity.
  - exact Hdead.
  - intros c j e -> Hjti Hj Hexp He Hlt.
    assert (Hpos : 0 < e - utcnow_timestamp now) by lia.
    unfold logout_body, logout_try.
    rewrite jwt_decode_own, Hexp. cbn. rewrite Hjti, Hexp. cbn.
    rewrite (bool_decide_eq_false_2 _ Hj), (bool_decide_eq_false_2 _ He). cbn.
    split.
    + intros Hdown. unfold add_token_to_blocklist, redis_setex.
      settle_ltb 0 (e - utcnow_timestamp now). rewrite Hdown. reflexivity.
    + intros Hup. rewrite (add_token_to_blocklist_live _ _ _ _ Hpos Hup). reflexivity.
  - intros Hutc c e Htok Hexp Hle. apply (Hdead c e Htok Hexp).
    unfold utcnow_timestamp. lia.
Qed.

(** X15. When [POST /logout] returns at all, the caller's token resolved to
    an active principal and the answer is not
    [Logout successful (token was invalid)]: the dependency has turned every
    undecodable token away before the body could say so. *)
Theorem logout_returns_for_active_callers_only (tok : token) (db : Session) (r : Redis)
    (now : Z) (m : Message) (r' : Redis) :
  logout tok db r now = Ok (m, r') ->
  (exists u, get_current_user tok db r now = Ok u /\ User.is_active u = true) /\
  m <> mkMessage "Logout successful (token was invalid)".
Proof.
  intros Hout.
  apply logout_Ok_store in Hout as (c & j & u & _ & _ & Hdep & _ & Hm & _).
  split; [|exact Hm].
  exists u. unfold get_current_active_user in Hdep.
  destruct (get_current_user tok db r now) as [v|x]; [|discriminate].
  cbn in Hdep. unfold get_current_active_user_body in Hdep.
  destruct (User.is_active v) eqn:Hact; [|discriminate].
  cbn in Hdep. inversion Hdep. subst v. auto.
Qed.

(** *** The protected endpoints *)

(** An endpoint behind the dependency returns exactly when the dependency
    resolves a principal and the endpoint returns for it. *)
Lemma Depends_get_current_active_user_Ok {A : Type} (tok : token) (db : Session)
    (r : Redis) (now : Z) (endpoint : User.t -> result A) (answer : A) :
  Depends_get_current_active_user tok db r now endpoint = Ok answer <->
  exists current_user,
    get_current_active_user tok db r now = Ok current_user /\
    endpoint current_user = Ok answer.
Proof.
  unfold Depends_get_current_active_user. split.
  - destruct (get_current_active_user tok db r now) as [u|e]; [|discriminate].
    cbn. eauto.
  - intros (u & -> & H). exact H.
Qed.

Lemma get_current_active_user_is_active (tok : token) (db : Session) (r : Redis)
    (now : Z) (u : User.t) :
  get_current_active_user tok db r now = Ok u -> User.is_active u = true.
Proof.
  unfold get_current_active_user.
  destruct (get_current_user tok db r now) as [v|e]; [|discriminate].
  cbn. unfold get_current_active_user_body.
  destruct (User.is_active v) eqn:Hact; [|discriminate].
  cbn. intros H. inversion H. subst. exact Hact.
Qed.

(** An endpoint that raises for everyone who is no superuser returns to
    superusers only. *)
Lemma returns_to_superusers_only_intro {A : Type} (endpoint : User.t -> result A) :
  (forall current_user answer,
     endpoint current_user = Ok answer -> User.is_superuser current_user = true) ->
  returns_to_superusers_only endpoint.
Proof.
  intros Hguard tok db r now answer H.
  apply Depends_get_current_active_user_Ok in H as (u & Hdep & Hrun).
  exists u. split; [exact Hdep|].
  split; [exact (get_current_active_user_is_active _ _ _ _ _ Hdep)|].
  split; [exact (Hguard u answer Hrun)|exact Hrun].
Qed.

(** X17. The administrator endpoints of [api/users.py] (create, list,
    delete, summary) return only when the bearer token resolves to an active
    superuser; an active principal who is no superuser gets the 403
    [Administrator privileges required] from each, whatever the request and
    the table hold, and a superuser's listing is what [get_users] returns. *)
Theorem users_administrator_endpoints (db : Session) :
  (forall user, returns_to_superusers_only (create_new_user user db)) /\
  (forall skip limit, returns_to_superusers_only (read_users skip limit db)) /\
  (forall user_id, returns_to_superusers_only (delete_existing_user user_id db)) /\
  returns_to_superusers_only (get_user_summary db) /\
  (forall current_user,
     User.is_superuser current_user = false ->
     (forall user, create_new_user user db current_user = Raise administrator_required) /\
     (forall skip limit,
        read_users skip limit db current_user = Raise administrator_required) /\
     (forall user_id,
        delete_existing_user user_id db current_user = Raise administrator_required) /\
     get_user_summary db current_user = Raise administrator_required) /\
  (forall current_user skip limit,
     User.is_superuser current_user = true ->
     read_users skip limit db current_user = Ok (get_users db skip limit)).
Proof.
  repeat split.
  - intros user. apply returns_to_superusers_only_intro. intros u x.
    unfold create_new_user. destruct (User.is_superuser u); [reflexivity|discriminate].
  - intros skip limit. apply returns_to_superusers_only_intro. intros u x.
    unfold read_users. destruct (User.is_superuser u); [reflexivity|discriminate].
  - intros user_id. apply returns_to_superusers_only_intro. intros u x.
    unfold delete_existing_user.
    destruct (User.is_superuser u); [reflexivity|discriminate].
  - apply returns_to_superusers_only_intro. intros u x.
    unfold get_user_summary. destruct (User.is_superuser u); [reflexivity|discriminate].
  - intros user. unfold create_new_user. rewrite H. reflexivity.
  - intros skip limit. unfold read_users. rewrite H. reflexivity.
  - intros user_id. unfold delete_existing_user. rewrite H. reflexivity.
  - unfold get_user_summary. rewrite H. reflexivity.
  - intros u skip limit Hsuper. unfold read_users. rewrite Hsuper. reflexivity.
Qed.

(** X18. Reading and updating one user is for the superuser and for the
    user themselves.  [read_user] returns a row exactly when the caller is a
    superuser or asks for their own id and [get_user] finds the row, which
    is then the answer.  Anyone else gets a 403 from both endpoints before
    the table is consulted, so whether the id exists does not show; a
    permitted caller gets the 404 for an id that [get_user] does not find. *)
Theorem users_own_record_or_superuser (user_id : Z) (db : Session) (current_user : User.t) :
  (forall u,
     read_user user_id db current_user = Ok u <->
     (User.is_superuser current_user = true \/ User.id current_user = user_id) /\
     get_user db user_id = Some u) /\
  (User.is_superuser current_user = false -> User.id current_user <> user_id ->
   read_user user_id db current_user =
     Raise (HTTPException HTTP_403_FORBIDDEN
              "Not authorized to access this user's data" []) /\
   forall user,
     update_existing_user user_id user db current_user =
       Raise (HTTPException HTTP_403_FORBIDDEN "Not authorized to update this user" [])) /\
  (User.is_superuser current_user = true \/ User.id current_user = user_id ->
   get_user db user_id = None ->
   read_user user_id db current_user = Raise user_not_found /\
   forall user, update_existing_user user_id user db current_user = Raise user_not_found) /\
  (forall user answer,
     update_existing_user user_id user db current_user = Ok answer ->
     (User.is_superuser current_user = true \/ User.id current_user = user_id) /\
     update_user db user_id user = Ok answer).
Proof.
  unfold read_user, update_existing_user.
  destruct (User.is_superuser current_user) eqn:Hsuper; cbn.
  - split; [|split; [|split]].
    + intros u. destruct (get_user db user_id) as [v|]; split.
      * intros H. inversion H. auto.
      * intros [_ H]. inversion H. reflexivity.
      * discriminate.
      * intros [_ H]. discriminate.
    + discriminate.
    + intros _ ->. auto.
    + intros user answer. destruct (get_user db user_id); [auto|discriminate].
  - case_bool_decide as Hid; cbn.
    + split; [|split; [|split]].
      * intros u. destruct (get_user db user_id) as [v|]; split.
        -- intros H. inversion H. auto.
        -- intros [_ H]. inversion H. reflexivity.
        -- discriminate.
        -- intros [_ H]. discriminate.
      * intros _ Hne. contradiction.
      * intros _ ->. auto.
      * intros user answer. destruct (get_user db user_id); [auto|discriminate].
    + split; [|split; [|split]].
      * intros u. split; [discriminate|]. intros [[H|H] _]; [discriminate|contradiction].
      * auto.
      * intros [H|H]; [discriminate|contradiction].
      * discriminate.
Qed.

Lemma filter_length_split {A : Type} (p : A -> bool) (l : list A) :
  (length (List.filter p l) + length (List.filter (fun x => negb (p x)) l))%nat = length l.
Proof.
  induction l as [|x l IH]; [reflexivity|].
  cbn. destruct (p x); cbn; lia.
Qed.

(** X19. The user summary adds up: [total_users] is the number of rows,
    [admin_users] the number of superusers, and [standard_users], computed
    as their difference, is the number of rows that are no superuser; it is
    never negative and never above the total. *)
Theorem get_user_summary_counts (db : Session) (current_user : User.t) (s : UserSummary) :
  get_user_summary db current_user = Ok s ->
  total_users s = Z.of_nat (length db) /\
  admin_users s = Z.of_nat (length (List.filter User.is_superuser db)) /\
  standard_users s =
    Z.of_nat (length (List.filter (fun u => negb (User.is_superuser u)) db)) /\
  total_users s = admin_users s + standard_users s /\
  0 <= standard_users s <= total_users s.
Proof.
  unfold get_user_summary.
  destruct (User.is_superuser current_user); [|discriminate].
  cbn. intros H. inversion H. subst s. clear H. cbn.
  pose proof (filter_length_split User.is_superuser db) as Hsplit.
  repeat split; lia.
Qed.

(** X20. The endpoints of [api/system.py] and [api/admin.py] return only
    when the bearer token resolves to an active superuser; an active
    principal who is no superuser gets a 403 from each, and the autofill
    leaves the table as it was. *)
Theorem system_and_admin_endpoints :
  returns_to_superusers_only get_system_stats /\
  returns_to_superusers_only system_status /\
  returns_to_superusers_only get_interfaces /\
  (forall count db, returns_to_superusers_only (trigger_autofill count db)) /\
  (forall current_user,
     User.is_superuser current_user = false ->
     http_status (get_system_stats current_user) = HTTP_403_FORBIDDEN /\
     system_status current_user = Raise administrator_required /\
     get_interfaces current_user = Raise administrator_required /\
     forall count db,
       trigger_autofill count db current_user = Raise administrator_required) /\
  (forall current_user count db,
     User.is_superuser current_user = true ->
     trigger_autofill count db current_user =
       Ok (mkAutofillResponse (length (fst (autofill_all db count)))
             (fst (autofill_all db count)),
           snd (autofill_all db count))).
Proof.
  repeat split.
  - apply returns_to_superusers_only_intro. intros u x. unfold get_system_stats.
    destruct (User.is_superuser u); [reflexivity|discriminate].
  - apply returns_to_superusers_only_intro. intros u x. unfold system_status.
    destruct (User.is_superuser u); [reflexivity|discriminate].
  - apply returns_to_superusers_only_intro. intros u x. unfold get_interfaces.
    destruct (User.is_superuser u); [reflexivity|discriminate].
  - intros count db. apply returns_to_superusers_only_intro. intros u x.
    unfold trigger_autofill. destruct (User.is_superuser u); [reflexivity|discriminate].
  - unfold get_system_stats. rewrite H. reflexivity.
  - unfold system_status. rewrite H. reflexivity.
  - unfold get_interfaces. rewrite H. reflexivity.
  - intros count db. unfold trigger_autofill. rewrite H. reflexivity.
  - intros u count db Hsuper. unfold trigger_autofill. rewrite Hsuper. cbn.
    destruct (autofill_all db count). reflexivity.
Qed.

(** *** IDS rules *)

Lemma rule_by_id_Some (rules : list IDSRule) (rule_id : Z) (rule : IDSRule) :
  rule_by_id rules rule_id = Some rule -> IDSRule_id rule = rule_id /\ In rule rules.
Proof.
  unfold rule_by_id. intros H. apply find_some in H as [Hin Hid].
  apply bool_decide_eq_true_1 in Hid. auto.
Qed.

Lemma rule_by_id_after_delete (rules : list IDSRule) (deleted rule_id : Z) :
  rule_by_id
    (List.filter (fun row => negb (bool_decide (IDSRule_id row = deleted))) rules) rule_id
  = if bool_decide (rule_id = deleted) then None else rule_by_id rules rule_id.
Proof.
  unfold rule_by_id. induction rules as [|row rules IH].
  - cbn. case_bool_decide; reflexivity.
  - cbn [List.filter]. destruct (bool_decide (IDSRule_id row = deleted)) eqn:Edel; cbn.
    + rewrite IH. apply bool_decide_eq_true_1 in Edel.
      case_bool_decide as Hid; [reflexivity|].
      rewrite bool_decide_eq_false_2 by congruence. reflexivity.
    + rewrite IH. apply bool_decide_eq_false_1 in Edel.
      destruct (bool_decide (IDSRule_id row = rule_id)) eqn:Erow; [|reflexivity].
      apply bool_decide_eq_true_1 in Erow.
      rewrite bool_decide_eq_false_2 by congruence. reflexivity.
Qed.

(** X21. A rule that [delete_rule] has deleted is gone and nothing else is:
    the deletion returns only to a superuser and for an id that a row
    carries; afterwards [read_rule] answers the 404 [Rule not found] for
    that id and answers for every other id as before, a second deletion of
    the id gets the 404, and the rows that are left are those with another
    id, in their order. *)
Theorem delete_rule_then_read (rule_id : Z) (rules : list IDSRule) (current_user : User.t)
    (m : Message) (rules' : list IDSRule) :
  delete_rule rule_id rules current_user = Ok (m, rules') ->
  User.is_superuser current_user = true /\
  (exists rule, read_rule rule_id rules current_user = Ok rule) /\
  m = mkMessage "Rule deleted" /\
  rules' = List.filter (fun row => negb (bool_decide (IDSRule_id row = rule_id))) rules /\
  (forall reader, read_rule rule_id rules' reader = Raise rule_not_found) /\
  (forall other reader,
     other <> rule_id -> read_rule other rules' reader = read_rule other rules reader) /\
  delete_rule rule_id rules' current_user = Raise rule_not_found.
Proof.
  unfold delete_rule.
  destruct (User.is_superuser current_user) eqn:Hsuper; [|discriminate]. cbn.
  destruct (rule_by_id rules rule_id) as [rule|] eqn:Efind; [|discriminate].
  intros H. inversion H. subst m rules'. clear H.
  destruct (rule_by_id_Some _ _ _ Efind) as [-> _].
  split; [reflexivity|]. split; [unfold read_rule; rewrite Efind; eauto|].
  split; [reflexivity|]. split; [reflexivity|].
  split; [|split].
  - intros reader. unfold read_rule. rewrite rule_by_id_after_delete.
    rewrite bool_decide_eq_true_2 by reflexivity. reflexivity.
  - intros other reader Hne. unfold read_rule. rewrite rule_by_id_after_delete.
    rewrite bool_decide_eq_false_2 by exact Hne. reflexivity.
  - rewrite rule_by_id_after_delete.
    rewrite bool_decide_eq_true_2 by reflexivity. reflexivity.
Qed.

(** *** Threats *)

Lemma length_substring_0 (n : nat) (s : string) :
  String.length (String.substring 0 n s) = Nat.min n (String.length s).
Proof.
  revert s. induction n as [|n IH]; intros s.
  - destruct s; reflexivity.
  - destruct s as [|c s]; [reflexivity|]. cbn. rewrite IH. reflexivity.
Qed.

Lemma length_app (s1 s2 : string) :
  String.length (s1 +:+ s2) = (String.length s1 + String.length s2)%nat.
Proof.
  induction s1 as [|c s1 IH]; [reflexivity|].
  change (String c s1 +:+ s2) with (String c (s1 +:+ s2)).
  cbn [String.length]. rewrite IH. reflexivity.
Qed.

Lemma prefix_substring_0 (n : nat) (s : string) :
  String.prefix (String.substring 0 n s) s = true.
Proof.
  revert s. induction n as [|n IH]; intros s.
  - destruct s; reflexivity.
  - destruct s as [|c s]; [reflexivity|]. cbn.
    destruct (Ascii.ascii_dec c c) as [_|Hne]; [apply IH|contradiction].
Qed.

Lemma truncate_raw_data_length (raw_data : string) :
  (String.length (truncate_raw_data raw_data) <= 503)%nat.
Proof.
  unfold truncate_raw_data.
  destruct (500 <? String.length raw_data)%nat eqn:E.
  - apply Nat.ltb_lt in E. rewrite length_app, length_substring_0.
    change (String.length "...") with 3%nat. lia.
  - apply Nat.ltb_ge in E. lia.
Qed.

(** X22. What [get_threats] returns, row by row.  The rows are the ones the
    database selects: not older than the window before the clock (one hour
    for [1h], seven days for [7d], twenty-four hours otherwise), matching
    [%severity%] when a non-empty [severity] is given, at most [limit] of
    them, the rows carrying their raw data as a string.  The answer has one
    element per selected row, in the order of the rows, with the row's
    identifier, rendered timestamp, threat type, addresses and protocol, and
    with the row's raw data cut: data of up to 500 characters is passed on as
    it is, longer data is cut to its first 500 characters followed by three
    dots (so data of 501 or 502 characters comes out longer than it went
    in).  No element carries more than 503 characters of raw data. *)
Theorem get_threats_raw_data_bounded (logs : list NetworkLog.t) (current_user : User.t)
    (limit : Z) (severity : option string) (time_range : string) (now : Z) :
  let window :=
    if bool_decide (time_range = "1h") then 3600
    else if bool_decide (time_range = "7d") then 604800
    else 86400 in
  let pattern :=
    match severity with
    | Some s => if bool_decide (s = "") then None else Some ("%" +:+ s +:+ "%")
    | None => None
    end in
  let rows := select_network_logs logs (now - window) pattern limit in
  let answer := get_threats logs current_user limit severity time_range now in
  length <$> answer = Ok (length rows) /\
  List.map Threat.id <$> answer = Ok (List.map NetworkLog.id rows) /\
  List.map Threat.timestamp <$> answer =
    Ok (List.map (fun row => isoformat (NetworkLog.timestamp row)) rows) /\
  List.map Threat.threat_type <$> answer = Ok (List.map NetworkLog.threat_type rows) /\
  List.map Threat.source_ip <$> answer = Ok (List.map NetworkLog.source_ip rows) /\
  List.map Threat.destination_ip <$> answer =
    Ok (List.map NetworkLog.destination_ip rows) /\
  List.map Threat.protocol <$> answer = Ok (List.map NetworkLog.protocol rows) /\
  List.map Threat.raw_data <$> answer =
    Ok (List.map (fun row => truncate_raw_data (NetworkLog.raw_data row)) rows) /\
  (exists threats,
     answer = Ok threats /\
     Forall (fun threat => (String.length (Threat.raw_data threat) <= 503)%nat) threats) /\
  (forall raw_data,
     ((String.length raw_data <= 500)%nat -> truncate_raw_data raw_data = raw_data) /\
     ((500 < String.length raw_data)%nat ->
      String.length (truncate_raw_data raw_data) = 503%nat /\
      truncate_raw_data raw_data = String.substring 0 500 raw_data +:+ "..." /\
      String.prefix (String.substring 0 500 raw_data) raw_data = true)).
Proof.
  intros window pattern rows answer.
  assert (Hanswer : answer =
            Ok (List.map
                  (fun threat =>
                     {| Threat.id := NetworkLog.id threat;
                        Threat.timestamp := isoformat (NetworkLog.timestamp threat);
                        Threat.threat_type := NetworkLog.threat_type threat;
                        Threat.source_ip := NetworkLog.source_ip threat;
                        Threat.destination_ip := NetworkLog.destination_ip threat;
                        Threat.protocol := NetworkLog.protocol threat;
                        Threat.raw_data := truncate_raw_data (NetworkLog.raw_data threat) |})
                  rows)).
  { assert (Hfilter :
      (if bool_decide (time_range = "1h") then now - hours 1
       else if bool_decide (time_range = "24h") then now - hours 24
       else if bool_decide (time_range = "7d") then now - days 7
       else now - hours 24) = now - window).
    { unfold window, hours, days.
      repeat case_bool_decide; subst; try discriminate; lia. }
    assert (Hpattern :
      (if truthy_str severity then Some ("%" +:+ default "" severity +:+ "%")
       else None) = pattern).
    { unfold pattern. destruct severity as [s|]; [|reflexivity]. cbn.
      destruct (bool_decide (s = "")); reflexivity. }
    unfold answer, get_threats, rows. cbv zeta. rewrite Hfilter, Hpattern.
    reflexivity. }
  rewrite Hanswer. cbn.
  rewrite !List.map_map, List.length_map. cbn.
  repeat (split; [reflexivity|]). split.
  - eexists. split; [reflexivity|].
    apply List.Forall_forall. intros threat Hin.
    apply List.in_map_iff in Hin as (row & <- & _).
    cbn [Threat.raw_data]. apply truncate_raw_data_length.
  - intros raw_data. unfold truncate_raw_data. split; intros Hlen.
    + apply Nat.ltb_ge in Hlen. rewrite Hlen. reflexivity.
    + pose proof Hlen as Hlt. apply Nat.ltb_lt in Hlt. rewrite Hlt.
      split; [|split; [reflexivity|apply prefix_substring_0]].
      rewrite length_app, length_substring_0.
      change (String.length "...") with 3%nat. lia.
Qed.

(** X23. The defaults of [get_threats]: a [time_range] other than [1h] and
    [7d], known or not, is answered as [24h] is; an empty [severity] is
    answered as no [severity] is, without a pattern; and the windows are one
    hour, twenty-four hours and seven days back from the clock. *)
Theorem get_threats_defaults (logs : list NetworkLog.t) (current_user : User.t)
    (limit : Z) (severity : option string) (time_range : string) (now : Z) :
  (time_range <> "1h" -> time_range <> "7d" ->
   get_threats logs current_user limit severity time_range now =
   get_threats logs current_user limit severity "24h" now) /\
  get_threats logs current_user limit (Some "") time_range now =
    get_threats logs current_user limit None time_range now /\
  (exists rows1 rows24 rows7,
     rows1 = select_network_logs logs (now - 3600) None limit /\
     rows24 = select_network_logs logs (now - 86400) None limit /\
     rows7 = select_network_logs logs (now - 604800) None limit /\
     List.map Threat.id <$> get_threats logs current_user limit None "1h" now =
       Ok (List.map NetworkLog.id rows1) /\
     List.map Threat.id <$> get_threats logs current_user limit None "24h" now =
       Ok (List.map NetworkLog.id rows24) /\
     List.map Threat.id <$> get_threats logs current_user limit None "7d" now =
       Ok (List.map NetworkLog.id rows7)).
Proof.
  split; [|split].
  - intros H1 H7. unfold get_threats.
    rewrite (bool_decide_eq_false_2 _ H1), (bool_decide_eq_false_2 _ H7).
    case_bool_decide; reflexivity.
  - reflexivity.
  - eexists _, _, _. repeat (split; [reflexivity|]).
    unfold get_threats. cbn. rewrite !List.map_map.
    replace (now - hours 1) with (now - 3600) by (unfold hours; lia).
    replace (now - hours 24) with (now - 86400) by (unfold hours; lia).
    replace (now - days 7) with (now - 604800) by (unfold days; lia).
    repeat split; reflexivity.
Qed.

Lemma count_of_count_into (k key : option string) (groups : list (option string * Z)) :
  count_of k (count_into key groups) =
  count_of k groups + (if bool_decide (key = k) then 1 else 0).
Proof.
  induction groups as [|[k0 n0] groups IH].
  - cbn. case_bool_decide; lia.
  - cbn [count_into]. destruct (bool_decide (k0 = key)) eqn:Ekey.
    + apply bool_decide_eq_true_1 in Ekey. subst k0. cbn [count_of].
      case_bool_decide; lia.
    + apply bool_decide_eq_false_1 in Ekey. cbn [count_of]. rewrite IH.
      destruct (bool_decide (k0 = k)) eqn:Ek; [|reflexivity].
      apply bool_decide_eq_true_1 in Ek. subst k0.
      rewrite bool_decide_eq_false_2 by congruence. lia.
Qed.

Lemma count_into_keys (k key : option string) (groups : list (option string * Z)) :
  In k (List.map fst (count_into key groups)) <-> In k (List.map fst groups) \/ k = key.
Proof using.
  induction groups as [|[k0 n0] groups IH].
  - cbn. split.
    + intros [H|[]]. right. symmetry. exact H.
    + intros [[]|H]. left. symmetry. exact H.
  - cbn [count_into]. case_bool_decide as Hk; cbn [List.map fst In].
    + subst k0. split.
      * intros H. left. exact H.
      * intros [H|H]; [exact H|]. left. symmetry. exact H.
    + rewrite IH. split.
      * intros [H|[H|H]]; [left; left; exact H|left; right; exact H|right; exact H].
      * intros [[H|H]|H]; [left; exact H|right; left; exact H|right; right; exact H].
Qed.

Lemma count_into_NoDup (key : option string) (groups : list (option string * Z)) :
  List.NoDup (List.map fst groups) -> List.NoDup (List.map fst (count_into key groups)).
Proof using.
  induction groups as [|[k0 n0] groups IH]; intros Hnd.
  - cbn. apply List.NoDup_cons; [intros []|apply List.NoDup_nil].
  - cbn [count_into]. cbn [List.map fst] in Hnd.
    apply List.NoDup_cons_iff in Hnd as [Hnotin Hnd].
    case_bool_decide as Hk; cbn [List.map fst].
    + apply List.NoDup_cons; assumption.
    + apply List.NoDup_cons; [|apply IH; exact Hnd].
      rewrite count_into_keys. intros [Hin| ->]; [contradiction|congruence].
Qed.

Lemma count_into_positive (key : option string) (groups : list (option string * Z)) :
  List.Forall (fun group => 0 < snd group) groups ->
  List.Forall (fun group => 0 < snd group) (count_into key groups).
Proof.
  induction 1 as [|[k0 n0] groups Hpos Htail IH]; cbn [count_into].
  - repeat constructor.
  - cbn in Hpos. case_bool_decide; constructor; cbn; first [lia|assumption].
Qed.

Lemma count_into_sum (key : option string) (groups : list (option string * Z)) :
  List.fold_right Z.add 0 (List.map snd (count_into key groups)) =
  List.fold_right Z.add 0 (List.map snd groups) + 1.
Proof.
  induction groups as [|[k n] groups IH]; [reflexivity|].
  cbn [count_into]. case_bool_decide; cbn; [lia|].
  cbn in IH. rewrite IH. lia.
Qed.

Lemma count_of_In (k : option string) (n : Z) (groups : list (option string * Z)) :
  List.NoDup (List.map fst groups) -> In (k, n) groups -> count_of k groups = n.
Proof.
  induction groups as [|[k0 n0] groups IH]; intros Hnd Hin; [destruct Hin|].
  cbn [List.map fst] in Hnd. apply List.NoDup_cons_iff in Hnd as [Hnotin Hnd].
  cbn [count_of]. destruct Hin as [Heq|Hin].
  - inversion Heq. subst. rewrite bool_decide_eq_true_2 by reflexivity. reflexivity.
  - case_bool_decide as Hk; [|apply IH; assumption].
    subst k0. exfalso. apply Hnotin.
    change k with (fst (k, n)). apply List.in_map. exact Hin.
Qed.

(** What the grouping computes, from any groups it starts with. *)
Lemma group_by_count_from (keys : list (option string))
    (groups : list (option string * Z)) :
  let result := List.fold_left (fun groups key => count_into key groups) keys groups in
  (List.NoDup (List.map fst groups) -> List.NoDup (List.map fst result)) /\
  (List.Forall (fun group => 0 < snd group) groups ->
   List.Forall (fun group => 0 < snd group) result) /\
  List.fold_right Z.add 0 (List.map snd result) =
    List.fold_right Z.add 0 (List.map snd groups) + Z.of_nat (length keys) /\
  (forall k, count_of k result =
             count_of k groups +
             Z.of_nat (length (List.filter (fun key => bool_decide (key = k)) keys))).
Proof using.
  revert groups. induction keys as [|key keys IH]; intros groups; cbn [List.fold_left].
  - cbn. split; [auto|]. split; [auto|].
    split; [|intros k]; rewrite Z.add_0_r; reflexivity.
  - destruct (IH (count_into key groups)) as (Hnd & Hpos & Hsum & Hcount).
    cbn zeta. split; [|split; [|split]].
    + intros H. apply Hnd, count_into_NoDup, H.
    + intros H. apply Hpos, count_into_positive, H.
    + rewrite Hsum, count_into_sum. cbn [length].
      rewrite Nat2Z.inj_succ. unfold Z.succ. rewrite <- !Z.add_assoc.
      f_equal. apply Z.add_comm.
    + intros k. rewrite Hcount, count_of_count_into. cbn [List.filter].
      destruct (bool_decide (key = k)); cbn [length].
      * rewrite Nat2Z.inj_succ. unfold Z.succ. rewrite <- !Z.add_assoc.
        f_equal. apply Z.add_comm.
      * rewrite Z.add_0_r. reflexivity.
Qed.

Lemma filter_map_length {A B : Type} (f : A -> B) (p : B -> bool) (l : list A) :
  length (List.filter p (List.map f l)) = length (List.filter (fun x => p (f x)) l).
Proof.
  induction l as [|x l IH]; [reflexivity|].
  cbn. destruct (p (f x)); cbn; rewrite IH; reflexivity.
Qed.

(** X24. The threat summary adds up.  Over the rows of the last twenty-four
    hours: [total_threats] is their number; [threat_types] has one pair per
    threat type that occurs, no type twice; each pair's count is the number
    of those rows with that type, at least one; and the counts sum to
    [total_threats]. *)
Theorem get_threat_summary_counts (logs : list NetworkLog.t) (current_user : User.t)
    (now : Z) :
  let recent :=
    List.filter (fun log => now - 86400 <=? NetworkLog.timestamp log) logs in
  exists s,
    get_threat_summary logs current_user now = Ok s /\
    ThreatSummary.time_range s = "24h" /\
    ThreatSummary.total_threats s = Z.of_nat (length recent) /\
    List.fold_right Z.add 0 (List.map snd (ThreatSummary.threat_types s)) =
      ThreatSummary.total_threats s /\
    List.NoDup (List.map fst (ThreatSummary.threat_types s)) /\
    (forall k n,
       In (k, n) (ThreatSummary.threat_types s) ->
       0 < n /\
       n = Z.of_nat
             (length
                (List.filter
                   (fun log => bool_decide (NetworkLog.threat_type log = k)) recent))).
Proof using.
  intros recent. unfold get_threat_summary.
  replace (now - hours 24) with (now - 86400) by (unfold hours; lia).
  fold recent. eexists. split; [reflexivity|].
  cbn [ThreatSummary.time_range ThreatSummary.total_threats ThreatSummary.threat_types].
  unfold group_by_count.
  destruct (group_by_count_from (List.map NetworkLog.threat_type recent) [])
    as (Hnd & Hpos & Hsum & Hcount).
  cbn zeta in Hnd, Hpos, Hsum, Hcount.
  specialize (Hnd (List.NoDup_nil _)). specialize (Hpos (List.Forall_nil _)).
  split; [reflexivity|]. split; [reflexivity|].
  split; [rewrite Hsum, List.length_map; cbn; lia|].
  split; [exact Hnd|].
  intros k n Hin. split.
  - rewrite List.Forall_forall in Hpos. exact (Hpos _ Hin).
  - rewrite <- (count_of_In k n _ Hnd Hin), Hcount. cbn [count_of].
    rewrite filter_map_length. lia.
Qed.

(** *** The threat signature rule *)

Lemma required_str_Some (min_length : nat) (max_length : option nat) (f : field string)
    (s : string) :
  required_str min_length max_length f = Some s <->
  f = Given s /\ (min_length <= String.length s)%nat /\
  (forall m, max_length = Some m -> (String.length s <= m)%nat).
Proof.
  unfold required_str. destruct f as [| |s0]; try (split; [discriminate|intros [H _]; discriminate]).
  destruct (min_length <=? String.length s0)%nat eqn:Emin; cbn.
  - apply Nat.leb_le in Emin. destruct max_length as [m|].
    + destruct (String.length s0 <=? m)%nat eqn:Emax.
      * apply Nat.leb_le in Emax. split.
        -- intros H. inversion H. subst. repeat split; [assumption|].
           intros m' Hm. inversion Hm. subst. assumption.
        -- intros (H & _ & _). inversion H. reflexivity.
      * apply Nat.leb_gt in Emax. split; [discriminate|].
        intros (H & _ & Hmax). inversion H. subst. specialize (Hmax m eq_refl). lia.
    + split.
      * intros H. inversion H. subst. repeat split; [assumption|discriminate].
      * intros (H & _ & _). inversion H. reflexivity.
  - apply Nat.leb_gt in Emin. split; [discriminate|].
    intros (H & Hmin & _). inversion H. subst. lia.
Qed.

Lemma optional_str_Some (max_length : option nat) (f : field string) (o : option string) :
  optional_str max_length f = Some o <->
  match f with
  | Missing | Null => o = None
  | Given s => o = Some s /\ forall m, max_length = Some m -> (String.length s <= m)%nat
  end.
Proof.
  unfold optional_str. destruct f as [| |s]; try (split; intros H; [inversion H|subst]; reflexivity).
  destruct max_length as [m|].
  - destruct (String.length s <=? m)%nat eqn:Emax.
    + apply Nat.leb_le in Emax. split.
      * intros H. inversion H. split; [reflexivity|].
        intros m' Hm. inversion Hm. subst. assumption.
      * intros [-> _]. reflexivity.
    + apply Nat.leb_gt in Emax. split; [discriminate|].
      intros [_ Hmax]. specialize (Hmax m eq_refl). lia.
  - split.
    + intros H. inversion H. split; [reflexivity|discriminate].
    + intros [-> _]. reflexivity.
Qed.

Lemma defaulted_Some {A : Type} (d : A) (f : field A) (a : A) :
  defaulted d f = Some a <-> (f = Missing /\ a = d) \/ f = Given a.
Proof.
  unfold defaulted. destruct f as [| |a0]; split; intros H.
  - inversion H. auto.
  - reflexivity || (destruct H as [[_ ->]|H]; [reflexivity|discriminate]).
  - discriminate.
  - destruct H as [[H _]|H]; discriminate.
  - inversion H. auto.
  - destruct H as [[H _]|H]; [discriminate|]. inversion H. reflexivity.
Qed.

(** The validation, field by field. *)
Lemma validate_rule_Some (body : RuleBody.t) (rule : ThreatSignatureRuleCreate.t) :
  validate_rule body = Some rule <->
  required_str 3 (Some 100%nat) (RuleBody.name body)
    = Some (ThreatSignatureRuleCreate.name rule) /\
  required_str 1 None (RuleBody.pattern body)
    = Some (ThreatSignatureRuleCreate.pattern rule) /\
  defaulted "alert" (RuleBody.action body) = Some (ThreatSignatureRuleCreate.action rule) /\
  defaulted "medium" (RuleBody.severity body)
    = Some (ThreatSignatureRuleCreate.severity rule) /\
  optional_str (Some 255%nat) (RuleBody.description body)
    = Some (ThreatSignatureRuleCreate.description rule) /\
  optional_str None (RuleBody.protocol body)
    = Some (ThreatSignatureRuleCreate.protocol rule) /\
  defaulted true (RuleBody.is_active body) = Some (ThreatSignatureRuleCreate.is_active rule).
Proof.
  unfold validate_rule.
  destruct (required_str 3 (Some 100%nat) (RuleBody.name body)) as [name|];
    [|split; [discriminate|intros (H & _); discriminate]].
  destruct (required_str 1 None (RuleBody.pattern body)) as [pattern|];
    [|split; [discriminate|intros (_ & H & _); discriminate]].
  destruct (defaulted "alert" (RuleBody.action body)) as [action|];
    [|split; [discriminate|intros (_ & _ & H & _); discriminate]].
  destruct (defaulted "medium" (RuleBody.severity body)) as [severity|];
    [|split; [discriminate|intros (_ & _ & _ & H & _); discriminate]].
  destruct (optional_str (Some 255%nat) (RuleBody.description body)) as [description|];
    [|split; [discriminate|intros (_ & _ & _ & _ & H & _); discriminate]].
  destruct (optional_str None (RuleBody.protocol body)) as [protocol|];
    [|split; [discriminate|intros (_ & _ & _ & _ & _ & H & _); discriminate]].
  destruct (defaulted true (RuleBody.is_active body)) as [is_active|];
    [|split; [discriminate|intros (_ & _ & _ & _ & _ & _ & H); discriminate]].
  cbn [mbind option_bind]. split.
  - intros H. inversion H. cbn. auto 10.
  - destruct rule. cbn. intros (H1 & H2 & H3 & H4 & H5 & H6 & H7).
    inversion H1; inversion H2; inversion H3; inversion H4; inversion H5;
      inversion H6; inversion H7. reflexivity.
Qed.

Lemma validate_rule_bounds (body : RuleBody.t) (rule : ThreatSignatureRuleCreate.t) :
  validate_rule body = Some rule ->
  (3 <= String.length (ThreatSignatureRuleCreate.name rule) <= 100)%nat /\
  (1 <= String.length (ThreatSignatureRuleCreate.pattern rule))%nat.
Proof.
  intros H. apply validate_rule_Some in H as (Hn & Hp & _).
  apply required_str_Some in Hn as (_ & Hnmin & Hnmax).
  apply required_str_Some in Hp as (_ & Hpmin & _).
  specialize (Hnmax _ eq_refl). lia.
Qed.

(** X25. What passes the validation of [ThreatSignatureRuleCreate]: the
    name is given and has 3 to 100 characters, the pattern is given and not
    empty, a description that is given has at most 255 characters; an action
    left out becomes [alert], a severity left out [medium], an activity flag
    left out [True], and none of the three may be [null]; a description or
    protocol left out or [null] is [None].  What is given is kept as it
    is. *)
Theorem validate_rule_accepts (body : RuleBody.t) (rule : ThreatSignatureRuleCreate.t) :
  validate_rule body = Some rule ->
  (RuleBody.name body = Given (ThreatSignatureRuleCreate.name rule) /\
   (3 <= String.length (ThreatSignatureRuleCreate.name rule) <= 100)%nat) /\
  (RuleBody.pattern body = Given (ThreatSignatureRuleCreate.pattern rule) /\
   (1 <= String.length (ThreatSignatureRuleCreate.pattern rule))%nat) /\
  ((RuleBody.action body = Missing /\ ThreatSignatureRuleCreate.action rule = "alert") \/
   RuleBody.action body = Given (ThreatSignatureRuleCreate.action rule)) /\
  ((RuleBody.severity body = Missing /\ ThreatSignatureRuleCreate.severity rule = "medium") \/
   RuleBody.severity body = Given (ThreatSignatureRuleCreate.severity rule)) /\
  ((RuleBody.is_active body = Missing /\ ThreatSignatureRuleCreate.is_active rule = true) \/
   RuleBody.is_active body = Given (ThreatSignatureRuleCreate.is_active rule)) /\
  match RuleBody.description body with
  | Missing | Null => ThreatSignatureRuleCreate.description rule = None
  | Given d => ThreatSignatureRuleCreate.description rule = Some d /\
               (String.length d <= 255)%nat
  end /\
  match RuleBody.protocol body with
  | Missing | Null => ThreatSignatureRuleCreate.protocol rule = None
  | Given p => ThreatSignatureRuleCreate.protocol rule = Some p
  end.
Proof.
  intros H. apply validate_rule_Some in H as (Hn & Hp & Ha & Hs & Hd & Hpr & Hact).
  apply required_str_Some in Hn as (Hn & Hnmin & Hnmax).
  apply required_str_Some in Hp as (Hp & Hpmin & _).
  apply defaulted_Some in Ha, Hs, Hact.
  apply optional_str_Some in Hd, Hpr.
  specialize (Hnmax _ eq_refl).
  split; [split; [assumption|lia]|]. split; [split; [assumption|lia]|].
  repeat (split; [assumption|]).
  split.
  - destruct (RuleBody.description body); [assumption|assumption|].
    destruct Hd as [-> Hmax]. split; [reflexivity|exact (Hmax _ eq_refl)].
  - destruct (RuleBody.protocol body); [assumption|assumption|].
    destruct Hpr as [-> _]. reflexivity.
Qed.

(** X26. Validation is idempotent: the dict of a validated rule, sent as a
    body again, validates to the same rule. *)
Theorem validate_rule_idempotent (body : RuleBody.t) (rule : ThreatSignatureRuleCreate.t) :
  validate_rule body = Some rule ->
  validate_rule (rule_as_body rule) = Some rule.
Proof.
  intros H. apply validate_rule_Some in H as (Hn & Hp & Ha & Hs & Hd & Hpr & Hact).
  apply required_str_Some in Hn as (_ & Hnmin & Hnmax).
  apply required_str_Some in Hp as (_ & Hpmin & _).
  apply optional_str_Some in Hd.
  apply validate_rule_Some. unfold rule_as_body. cbn [RuleBody.name RuleBody.pattern
    RuleBody.action RuleBody.severity RuleBody.description RuleBody.protocol
    RuleBody.is_active].
  split; [apply required_str_Some; auto|].
  split; [apply required_str_Some; repeat split; [assumption|discriminate]|].
  split; [reflexivity|]. split; [reflexivity|].
  split; [|split; [|reflexivity]].
  - apply optional_str_Some.
    destruct (ThreatSignatureRuleCreate.description rule) as [d|] eqn:Ed; [|reflexivity].
    split; [reflexivity|]. intros m Hm.
    destruct (RuleBody.description body) as [| |d0]; try discriminate.
    destruct Hd as [Heq Hmax]. inversion Heq. subst. exact (Hmax m Hm).
  - apply optional_str_Some.
    destruct (ThreatSignatureRuleCreate.protocol rule); [|reflexivity].
    split; [reflexivity|discriminate].
Qed.

(** X27. [POST /rules/] from the wire.  The signature engine is left as it
    was unless the token resolves to an active superuser and the body
    validates, and then it is as [add_rule] leaves it, for a rule whose name
    has 3 to 100 characters and whose pattern is not empty.  The token comes
    first: whatever the dependency raises is the answer, whether or not the
    body validates; a body that does not validate is refused before the
    superuser check. *)
Theorem post_signature_rule_guarded (tok : token) (body : RuleBody.t) (db : Session)
    (r : Redis) (now : Z) (signature_engine : SignatureEngine) :
  (snd (post_signature_rule tok body db r now signature_engine) = signature_engine \/
   exists current_user rule,
     get_current_active_user tok db r now = Ok current_user /\
     User.is_superuser current_user = true /\
     validate_rule body = Some rule /\
     (3 <= String.length (ThreatSignatureRuleCreate.name rule) <= 100)%nat /\
     (1 <= String.length (ThreatSignatureRuleCreate.pattern rule))%nat /\
     snd (post_signature_rule tok body db r now signature_engine) =
       snd (signature_engine_add_rule signature_engine rule)) /\
  (forall e,
     get_current_active_user tok db r now = Raise e ->
     post_signature_rule tok body db r now signature_engine =
       (Some (Raise e), signature_engine)) /\
  (forall current_user,
     get_current_active_user tok db r now = Ok current_user ->
     validate_rule body = None ->
     post_signature_rule tok body db r now signature_engine = (None, signature_engine)) /\
  (forall current_user rule,
     get_current_active_user tok db r now = Ok current_user ->
     validate_rule body = Some rule ->
     User.is_superuser current_user = false ->
     post_signature_rule tok body db r now signature_engine =
       (Some (Raise administrator_required), signature_engine)).
Proof.
  unfold post_signature_rule.
  destruct (get_current_active_user tok db r now) as [u|e] eqn:Hdep.
  - destruct (validate_rule body) as [rule|] eqn:Hval.
    + unfold add_signature_rule.
      destruct (User.is_superuser u) eqn:Hsuper; cbn.
      * destruct (validate_rule_bounds _ _ Hval) as (Hname & Hpattern).
        destruct (signature_engine_add_rule signature_engine rule) as [[|] engine']
          eqn:Eadd; cbn;
          (split;
           [right; exists u, rule; rewrite ?Eadd; auto 10
           |repeat split; intros; simplify_eq; congruence]).
      * split; [left; reflexivity|].
        split; [discriminate|]. split; [discriminate|].
        intros u' rule' Hu Hr _. reflexivity.
    + split; [left; reflexivity|].
      split; [discriminate|]. split; [reflexivity|]. discriminate.
  - split; [left; reflexivity|].
    split; [intros e' H; inversion H; reflexivity|].
    split; discriminate.
Qed.

End Backend.

(** ** The properties on the small deployment *)

(** The tokens of the deployment are the ones the login hands out; it does
    not look at the active flag. *)
Example scenario_tokens_issued :
  LoginResponse.access_token <$>
    login_for_access_token Scenario.SECRET_KEY Scenario.bcrypt_verify
      "carol" "carol-pw" Scenario.db 1000 "c4a0b1d2e3f445568790a1b2c3d4e5f6"
    = Ok Scenario.carol_restricted_token /\
  LoginResponse.access_token <$>
    login_for_access_token Scenario.SECRET_KEY Scenario.bcrypt_verify
      "dave" "dave-pw" Scenario.db 1000 "d4e5f6a7b8c94d0e8f1a2b3c4d5e6f70"
    = Ok Scenario.dave_token.
Proof. split; reflexivity. Qed.

Lemma login_second_factor_restricted_witness :
  first_by_username Scenario.db "bob" = Some Scenario.bob /\
  User.is_two_factor_enabled Scenario.bob = true /\
  login_for_access_token Scenario.SECRET_KEY Scenario.bcrypt_verify
    "bob" "bob-pw" Scenario.db 1000 "77aa01f3c2e54b1f9a8d6c3b2e1f0a9d" =
    Ok {| LoginResponse.access_token := Scenario.bob_restricted_token;
          LoginResponse.token_type := "bearer";
          LoginResponse.is_2fa_required := Some true;
          LoginResponse.user_id := Some 2 |} /\
  (forall db r now u,
     get_current_user Scenario.SECRET_KEY Scenario.bob_restricted_token db r now
     <> Ok u) /\
  http_status (get_current_user Scenario.SECRET_KEY Scenario.bob_restricted_token
                 Scenario.db Scenario.redis_client 1000) = 401.
Proof.
  split; [reflexivity|]. split; [reflexivity|].
  assert (Hlogin :
    login_for_access_token Scenario.SECRET_KEY Scenario.bcrypt_verify
      "bob" "bob-pw" Scenario.db 1000 "77aa01f3c2e54b1f9a8d6c3b2e1f0a9d" =
    Ok {| LoginResponse.access_token := Scenario.bob_restricted_token;
          LoginResponse.token_type := "bearer";
          LoginResponse.is_2fa_required := Some true;
          LoginResponse.user_id := Some 2 |}) by reflexivity.
  split; [exact Hlogin|].
  destruct (login_second_factor_restricted Scenario.SECRET_KEY Scenario.bcrypt_verify
              Scenario.db "bob" Scenario.bob eq_refl eq_refl) as [Hret _].
  destruct (Hret _ _ _ _ Hlogin) as (claims & _ & _ & _ & _ & Hrej).
  split.
  - intros db r now u. destruct (Hrej db r now) as (Hno & _). exact (Hno u).
  - destruct (Hrej Scenario.db Scenario.redis_client 1000) as (_ & _ & H401).
    exact (H401 eq_refl).
Defined.

Lemma login_then_resolve_witness :
  first_by_username Scenario.db "alice" = Some Scenario.alice /\
  User.is_two_factor_enabled Scenario.alice = false /\
  User.is_active Scenario.alice = true /\
  verify_password Scenario.bcrypt_verify "correct-pw"
    (User.hashed_password Scenario.alice) = Ok true /\
  1000 <= 1000 + minutes ACCESS_TOKEN_EXPIRE_MINUTES /\
  redis_exists Scenario.redis_client 1000 (blocked_key "3f2b8c1e9d4a4f6b8a7c5e1d2f3a4b5c") = Ok false /\
  exists claims,
    login_for_access_token Scenario.SECRET_KEY Scenario.bcrypt_verify
      "alice" "correct-pw" Scenario.db 1000 "3f2b8c1e9d4a4f6b8a7c5e1d2f3a4b5c" =
      Ok {| LoginResponse.access_token := Signed ALGORITHM Scenario.SECRET_KEY claims;
            LoginResponse.token_type := "bearer";
            LoginResponse.is_2fa_required := None;
            LoginResponse.user_id := None |} /\
    Claims.scope claims = None /\
    get_current_user Scenario.SECRET_KEY (Signed ALGORITHM Scenario.SECRET_KEY claims)
      Scenario.db Scenario.redis_client 1000 = Ok Scenario.alice /\
    get_current_active_user Scenario.SECRET_KEY
      (Signed ALGORITHM Scenario.SECRET_KEY claims)
      Scenario.db Scenario.redis_client 1000 = Ok Scenario.alice.
Proof.
  assert (Hle : 1000 <= 1000 + minutes ACCESS_TOKEN_EXPIRE_MINUTES)
    by (unfold minutes, ACCESS_TOKEN_EXPIRE_MINUTES; lia).
  repeat (split; [first [reflexivity | exact Hle]|]).
  exact (login_then_resolve Scenario.SECRET_KEY Scenario.bcrypt_verify Scenario.db
           "alice" "correct-pw" 1000 "3f2b8c1e9d4a4f6b8a7c5e1d2f3a4b5c" Scenario.alice Scenario.redis_client 1000
           eq_refl eq_refl eq_refl eq_refl Hle eq_refl).
Defined.

Lemma login_failures_indistinguishable_witness :
  first_by_username Scenario.db "mallory" = None /\
  first_by_username Scenario.db "alice" = Some Scenario.alice /\
  verify_password Scenario.bcrypt_verify "wrong-pw"
    (User.hashed_password Scenario.alice) = Ok false /\
  login_for_access_token Scenario.SECRET_KEY Scenario.bcrypt_verify
    "mallory" "guess" Scenario.db 1000 "0a1b2c3d4e5f4a6b8c7d8e9f0a1b2c3d" =
  login_for_access_token Scenario.SECRET_KEY Scenario.bcrypt_verify
    "alice" "wrong-pw" Scenario.db 1001 "0b1c2d3e4f5a4b6c8d7e8f9a0b1c2d3e".
Proof.
  repeat (split; [reflexivity|]).
  exact (proj2 (proj2 (login_failures_indistinguishable Scenario.SECRET_KEY
           Scenario.bcrypt_verify Scenario.db "mallory" "guess" 1000 "0a1b2c3d4e5f4a6b8c7d8e9f0a1b2c3d"
           "alice" "wrong-pw" 1001 "0b1c2d3e4f5a4b6c8d7e8f9a0b1c2d3e" Scenario.alice eq_refl eq_refl eq_refl))).
Defined.

Lemma inactive_user_bad_request_witness :
  get_current_user Scenario.SECRET_KEY Scenario.dave_token Scenario.db
    Scenario.redis_client 1000 = Ok Scenario.dave /\
  User.is_active Scenario.dave = false /\
  get_current_active_user Scenario.SECRET_KEY Scenario.dave_token Scenario.db
    Scenario.redis_client 1000 =
    Raise (HTTPException HTTP_400_BAD_REQUEST "Inactive user" []).
Proof.
  repeat (split; [reflexivity|]).
  exact (proj1 (inactive_user_bad_request Scenario.SECRET_KEY Scenario.dave_token
           Scenario.db Scenario.redis_client 1000 Scenario.dave eq_refl eq_refl)).
Defined.

(** C7, as the claim has it, fails: the inactive [dave] is turned away with
    a 400, not with the 403 that stands for Forbidden. *)
Lemma inactive_user_not_forbidden :
  ~ (forall tok db r now u,
       get_current_user Scenario.SECRET_KEY tok db r now = Ok u ->
       User.is_active u = false ->
       http_status (get_current_active_user Scenario.SECRET_KEY tok db r now)
       = HTTP_403_FORBIDDEN).
Proof.
  intros H.
  specialize (H Scenario.dave_token Scenario.db Scenario.redis_client 1000
                Scenario.dave eq_refl eq_refl).
  vm_compute in H. discriminate H.
Qed.

Lemma second_factor_completion_witness :
  get_current_user_for_2fa Scenario.SECRET_KEY Scenario.bob_restricted_token
    Scenario.db Scenario.redis_client 1000 = Ok Scenario.bob /\
  User.is_two_factor_enabled Scenario.bob = true /\
  User.two_factor_secret Scenario.bob = Some "JBSWY3DPEHPK3PXP" /\
  "JBSWY3DPEHPK3PXP" <> "" /\
  Scenario.totp_verify "JBSWY3DPEHPK3PXP" "JBSWY3DPEHPK3PXP" 1000 = Ok true /\
  redis_exists Scenario.redis_client 1000 (blocked_key "5e6f7a8b9c0d4e1f8a2b3c4d5e6f7a8b") = Ok false /\
  Scenario.totp_verify "JBSWY3DPEHPK3PXP" "000000" 1000 = Ok false /\
  (exists claims u,
     verify_2fa_login Scenario.SECRET_KEY Scenario.totp_verify
       Scenario.bob_restricted_token "JBSWY3DPEHPK3PXP"
       Scenario.db Scenario.redis_client 1000 "5e6f7a8b9c0d4e1f8a2b3c4d5e6f7a8b" =
       Ok {| LoginResponse.access_token := Signed ALGORITHM Scenario.SECRET_KEY claims;
             LoginResponse.token_type := "bearer";
             LoginResponse.is_2fa_required := None;
             LoginResponse.user_id := None |} /\
     Claims.scope claims = None /\
     get_current_user Scenario.SECRET_KEY (Signed ALGORITHM Scenario.SECRET_KEY claims)
       Scenario.db Scenario.redis_client 1000 = Ok u /\
     User.username u = User.username Scenario.bob /\
     (User.is_active u = true ->
      get_current_active_user Scenario.SECRET_KEY
        (Signed ALGORITHM Scenario.SECRET_KEY claims)
        Scenario.db Scenario.redis_client 1000 = Ok u)) /\
  verify_2fa_login Scenario.SECRET_KEY Scenario.totp_verify
    Scenario.bob_restricted_token "000000"
    Scenario.db Scenario.redis_client 1000 "5e6f7a8b9c0d4e1f8a2b3c4d5e6f7a8b" = Raise invalid_two_factor_code.
Proof.
  assert (Hne : "JBSWY3DPEHPK3PXP" <> "") by discriminate.
  repeat (split; [first [reflexivity | exact Hne]|]).
  split.
  - exact (proj1 (second_factor_completion Scenario.SECRET_KEY Scenario.totp_verify
             Scenario.bob_restricted_token "JBSWY3DPEHPK3PXP" Scenario.db
             Scenario.redis_client 1000 "5e6f7a8b9c0d4e1f8a2b3c4d5e6f7a8b" Scenario.bob "JBSWY3DPEHPK3PXP"
             eq_refl eq_refl eq_refl Hne) eq_refl eq_refl).
  - exact (proj1 (proj2 (second_factor_completion Scenario.SECRET_KEY
             Scenario.totp_verify
             Scenario.bob_restricted_token "000000" Scenario.db
             Scenario.redis_client 1000 "5e6f7a8b9c0d4e1f8a2b3c4d5e6f7a8b" Scenario.bob "JBSWY3DPEHPK3PXP"
             eq_refl eq_refl eq_refl Hne) eq_refl)).
Defined.

Lemma scenario_unique_usernames : unique_usernames Scenario.db.
Proof.
  unfold unique_usernames. cbn.
  repeat (apply List.NoDup_cons; [cbn; intuition discriminate|]).
  apply List.NoDup_nil.
Defined.

Lemma second_factor_ignores_active_flag_witness :
  get_current_user_for_2fa Scenario.SECRET_KEY Scenario.carol_restricted_token
    Scenario.db Scenario.redis_client 1000 = Ok Scenario.carol /\
  User.is_active Scenario.carol = false /\
  User.is_two_factor_enabled Scenario.carol = true /\
  User.two_factor_secret Scenario.carol = Some "KRSXG5CTMVRXEZLU" /\
  "KRSXG5CTMVRXEZLU" <> "" /\
  Scenario.totp_verify "KRSXG5CTMVRXEZLU" "KRSXG5CTMVRXEZLU" 1000 = Ok true /\
  unique_usernames Scenario.db /\
  redis_exists Scenario.redis_client 1000 (blocked_key "9c0d1e2f3a4b4c5d8e6f7a8b9c0d1e2f") = Ok false /\
  exists claims,
    verify_2fa_login Scenario.SECRET_KEY Scenario.totp_verify
      Scenario.carol_restricted_token "KRSXG5CTMVRXEZLU"
      Scenario.db Scenario.redis_client 1000 "9c0d1e2f3a4b4c5d8e6f7a8b9c0d1e2f" =
      Ok {| LoginResponse.access_token := Signed ALGORITHM Scenario.SECRET_KEY claims;
            LoginResponse.token_type := "bearer";
            LoginResponse.is_2fa_required := None;
            LoginResponse.user_id := None |} /\
    Claims.scope claims = None /\
    get_current_user Scenario.SECRET_KEY (Signed ALGORITHM Scenario.SECRET_KEY claims)
      Scenario.db Scenario.redis_client 1000 = Ok Scenario.carol /\
    get_current_active_user Scenario.SECRET_KEY
      (Signed ALGORITHM Scenario.SECRET_KEY claims)
      Scenario.db Scenario.redis_client 1000 =
      Raise (HTTPException 400 "Inactive user" []).
Proof.
  assert (Hne : "KRSXG5CTMVRXEZLU" <> "") by discriminate.
  repeat (split; [first [reflexivity | exact Hne | exact scenario_unique_usernames]|]).
  exact (proj2 (second_factor_ignores_active_flag Scenario.SECRET_KEY
           Scenario.totp_verify Scenario.carol_restricted_token "KRSXG5CTMVRXEZLU"
           Scenario.db Scenario.redis_client 1000 "9c0d1e2f3a4b4c5d8e6f7a8b9c0d1e2f" Scenario.carol
           "KRSXG5CTMVRXEZLU" eq_refl eq_refl eq_refl eq_refl Hne eq_refl
           scenario_unique_usernames eq_refl)).
Defined.

Lemma verify_password_passes_through_witness :
  bcrypt_identify "correct-pw" = false /\
  verify_password Scenario.bcrypt_verify "correct-pw" "correct-pw" =
    Raise UnknownHashError /\
  bcrypt_identify "$2b$12$correct-pw" = true /\
  verify_password Scenario.bcrypt_verify "correct-pw" "$2b$12$correct-pw" =
    Scenario.bcrypt_verify "correct-pw" "$2b$12$correct-pw".
Proof.
  split; [reflexivity|]. split.
  - exact (proj1 (verify_password_passes_through Scenario.bcrypt_verify
             "correct-pw" "correct-pw") eq_refl).
  - split; [reflexivity|].
    exact (proj2 (verify_password_passes_through Scenario.bcrypt_verify
             "correct-pw" "$2b$12$correct-pw") eq_refl).
Defined.

(** C8, as the claim has it, fails: on a digest that is no bcrypt digest,
    here a password stored in the clear, [verify_password] raises, even over
    a bcrypt handler that never does. *)
Lemma verify_password_raises :
  ~ (forall plain_password hashed_password,
       exists b : bool,
         verify_password Scenario.bcrypt_verify plain_password hashed_password = Ok b).
Proof.
  intros H. destruct (H "correct-pw" "correct-pw") as [b Hb].
  vm_compute in Hb. discriminate Hb.
Qed.

(** C9, where the code departs from it.  The time to live that
    [add_token_to_blocklist] computes is the expiry less the host's reading
    [int(datetime.utcnow().timestamp())], and the reading is the current time
    only on a host in UTC.  For the token of [alice], expiry 2800, revoked at
    2000: in UTC the entry has 800 seconds to live and is gone at 2800; in
    Berlin, an hour east, it has 4400 seconds to live and is still there at
    6399, an hour after the token expired at 2801; in New York, five hours
    west, the time to live comes out negative, nothing is written for a token
    with 800 seconds left, and after the logout the token is accepted as
    before. *)
Theorem add_token_to_blocklist_off_utc :
  let jti := "3f2b8c1e9d4a4f6b8a7c5e1d2f3a4b5c" in
  utcnow_timestamp Scenario.utc_offset 2000 = 2000 /\
  utcnow_timestamp Scenario.Europe_Berlin 2000 = -1600 /\
  utcnow_timestamp Scenario.America_New_York 2000 = 20000 /\
  (exists r',
     add_token_to_blocklist Scenario.utc_offset Scenario.redis_client jti 2800 2000 = Ok r' /\
     redis_ttl r' 2000 (blocked_key jti) = Some 800 /\
     redis_exists r' 2799 (blocked_key jti) = Ok true /\
     redis_exists r' 2800 (blocked_key jti) = Ok false) /\
  (exists r',
     add_token_to_blocklist Scenario.Europe_Berlin Scenario.redis_client jti 2800 2000
       = Ok r' /\
     redis_ttl r' 2000 (blocked_key jti) = Some 4400 /\
     get_current_user Scenario.SECRET_KEY Scenario.alice_token Scenario.db
       Scenario.redis_client 2801 = Raise credentials_exception /\
     redis_exists r' 2801 (blocked_key jti) = Ok true /\
     redis_exists r' 6399 (blocked_key jti) = Ok true /\
     redis_exists r' 6400 (blocked_key jti) = Ok false) /\
  add_token_to_blocklist Scenario.America_New_York Scenario.redis_client jti 2800 2000
    = Ok Scenario.redis_client /\
  logout Scenario.SECRET_KEY Scenario.America_New_York Scenario.alice_token Scenario.db
    Scenario.redis_client 2000
    = Ok (mkMessage "Successfully logged out", Scenario.redis_client) /\
  get_current_user Scenario.SECRET_KEY Scenario.alice_token Scenario.db
    Scenario.redis_client 2001 = Ok Scenario.alice.
Proof.
  cbv zeta. do 3 (split; [reflexivity|]). split; [|split].
  - exists {| reachable := true;
              entries := <[blocked_key "3f2b8c1e9d4a4f6b8a7c5e1d2f3a4b5c" := ("true", 2800)]> ∅ |}.
    repeat split; reflexivity.
  - exists {| reachable := true;
              entries := <[blocked_key "3f2b8c1e9d4a4f6b8a7c5e1d2f3a4b5c" := ("true", 6400)]> ∅ |}.
    repeat split; reflexivity.
  - repeat split; reflexivity.
Qed.

(** C2, where the code departs from it, on the host in UTC.  The token
    [alice] gets from her login at 1000 expires at 2800 and is still
    accepted during that second.  A logout at 2800 answers
    with the success message and writes nothing, so the token is accepted
    afterwards; a logout at 2000 writes an entry that lasts through 2799, so
    the token is rejected at 2799 and accepted again at 2800. *)
Theorem logout_does_not_cover_expiry_second :
  login_for_access_token Scenario.SECRET_KEY Scenario.bcrypt_verify
    "alice" "correct-pw" Scenario.db 1000 "3f2b8c1e9d4a4f6b8a7c5e1d2f3a4b5c" =
    Ok {| LoginResponse.access_token := Scenario.alice_token;
          LoginResponse.token_type := "bearer";
          LoginResponse.is_2fa_required := None;
          LoginResponse.user_id := None |} /\
  get_current_active_user Scenario.SECRET_KEY Scenario.alice_token Scenario.db
    Scenario.redis_client 2800 = Ok Scenario.alice /\
  logout Scenario.SECRET_KEY Scenario.utc_offset Scenario.alice_token Scenario.db Scenario.redis_client 2800 =
    Ok (mkMessage "Successfully logged out", Scenario.redis_client) /\
  get_current_user Scenario.SECRET_KEY Scenario.alice_token Scenario.db
    Scenario.redis_client 2800 = Ok Scenario.alice /\
  exists r',
    logout Scenario.SECRET_KEY Scenario.utc_offset Scenario.alice_token Scenario.db Scenario.redis_client 2000
      = Ok (mkMessage "Successfully logged out", r') /\
    redis_ttl r' 2000 (blocked_key "3f2b8c1e9d4a4f6b8a7c5e1d2f3a4b5c") = Some 800 /\
    get_current_user Scenario.SECRET_KEY Scenario.alice_token Scenario.db r' 2799 =
      Raise credentials_exception /\
    get_current_user Scenario.SECRET_KEY Scenario.alice_token Scenario.db r' 2800 =
      Ok Scenario.alice.
Proof.
  do 4 (split; [reflexivity|]).
  exists {| reachable := true;
            entries := <[blocked_key "3f2b8c1e9d4a4f6b8a7c5e1d2f3a4b5c" := ("true", 2800)]> ∅ |}.
  repeat split; reflexivity.
Qed.

(** C3, where the code departs from it.  The endpoint resolves
    [get_current_active_user] first, so a malformed token, an expired token
    and the token of an earlier logout are each answered with the 401 of the
    dependency, and a blocklist that does not answer surfaces as the
    dependency's connection error. *)
Theorem logout_rejects_what_its_dependency_rejects :
  logout Scenario.SECRET_KEY Scenario.utc_offset (Opaque "not-a-token") Scenario.db Scenario.redis_client 1000
    = Raise credentials_exception /\
  logout Scenario.SECRET_KEY Scenario.utc_offset Scenario.alice_token Scenario.db Scenario.redis_client 2801
    = Raise credentials_exception /\
  (exists r',
     logout Scenario.SECRET_KEY Scenario.utc_offset Scenario.alice_token Scenario.db Scenario.redis_client 2000
       = Ok (mkMessage "Successfully logged out", r') /\
     logout Scenario.SECRET_KEY Scenario.utc_offset Scenario.alice_token Scenario.db r' 2000
       = Raise credentials_exception) /\
  http_status (logout Scenario.SECRET_KEY Scenario.utc_offset (Opaque "not-a-token") Scenario.db
                 Scenario.redis_client 1000) = 401 /\
  logout Scenario.SECRET_KEY Scenario.utc_offset Scenario.alice_token Scenario.db
    {| reachable := false; entries := ∅ |} 2000 = Raise ConnectionError.
Proof.
  split; [reflexivity|]. split; [reflexivity|].
  split; [|split; reflexivity].
  exists {| reachable := true;
            entries := <[blocked_key "3f2b8c1e9d4a4f6b8a7c5e1d2f3a4b5c" := ("true", 2800)]> ∅ |}.
  split; reflexivity.
Qed.

(** ** The further properties on the console *)

Lemma foreign_token_rejected_witness :
  (forall c, Console.foreign_token <> Signed ALGORITHM Scenario.SECRET_KEY c) /\
  get_current_user Scenario.SECRET_KEY Console.foreign_token Console.db
    Scenario.redis_client 1000 = Raise credentials_exception /\
  logout Scenario.SECRET_KEY Scenario.utc_offset Console.foreign_token Console.db Scenario.redis_client 1000
    = Raise credentials_exception.
Proof.
  assert (H : forall c, Console.foreign_token <> Signed ALGORITHM Scenario.SECRET_KEY c)
    by (intros c Heq; discriminate Heq).
  split; [exact H|].
  pose proof (foreign_token_rejected Scenario.SECRET_KEY Scenario.totp_verify Scenario.utc_offset
                Console.foreign_token "000000" Console.db Scenario.redis_client 1000
                "0a1b2c3d4e5f4a6b8c7d8e9f0a1b2c3d" H) as (H1 & _ & _ & H4 & _).
  split; assumption.
Defined.

Lemma expired_token_rejected_witness :
  Claims.exp
    {| Claims.sub := Some "alice"; Claims.scope := None; Claims.user_id := None;
       Claims.jti := Some "3f2b8c1e9d4a4f6b8a7c5e1d2f3a4b5c"; Claims.exp := Some 2800 |}
    = Some 2800 /\
  2800 < 2801 /\
  get_current_user Scenario.SECRET_KEY Scenario.alice_token Scenario.db
    {| reachable := false; entries := ∅ |} 2801 = Raise credentials_exception.
Proof.
  assert (Hlt : 2800 < 2801) by lia.
  split; [reflexivity|]. split; [exact Hlt|].
  exact (proj1 (expired_token_rejected Scenario.SECRET_KEY "HS256" Scenario.SECRET_KEY
                  {| Claims.sub := Some "alice"; Claims.scope := None;
                     Claims.user_id := None;
                     Claims.jti := Some "3f2b8c1e9d4a4f6b8a7c5e1d2f3a4b5c";
                     Claims.exp := Some 2800 |}
                  2800 Scenario.db {| reachable := false; entries := ∅ |} 2801
                  eq_refl Hlt)).
Defined.

Lemma incomplete_claims_rejected_witness :
  get_current_user Scenario.SECRET_KEY Console.token_without_jti Console.db
    {| reachable := false; entries := ∅ |} 1000 = Raise credentials_exception /\
  get_current_user_for_2fa Scenario.SECRET_KEY Scenario.alice_token Console.db
    Scenario.redis_client 1000 = Raise credentials_exception_2fa.
Proof.
  split.
  - exact (proj1 (incomplete_claims_rejected Scenario.SECRET_KEY "HS256"
                    Scenario.SECRET_KEY
                    {| Claims.sub := Some "alice"; Claims.scope := None;
                       Claims.user_id := None; Claims.jti := None;
                       Claims.exp := Some 2800 |}
                    Console.db {| reachable := false; entries := ∅ |} 1000)
             (or_intror eq_refl)).
  - refine (proj2 (incomplete_claims_rejected Scenario.SECRET_KEY "HS256"
                     Scenario.SECRET_KEY
                     {| Claims.sub := Some "alice"; Claims.scope := None;
                        Claims.user_id := None;
                        Claims.jti := Some "3f2b8c1e9d4a4f6b8a7c5e1d2f3a4b5c";
                        Claims.exp := Some 2800 |}
                     Console.db Scenario.redis_client 1000) _).
    right. right. left. reflexivity.
Defined.

Lemma two_step_login_witness :
  first_by_username Scenario.db "bob" = Some Scenario.bob /\
  db_get Scenario.db (User.id Scenario.bob) = Some Scenario.bob /\
  User.is_two_factor_enabled Scenario.bob = true /\
  User.two_factor_secret Scenario.bob = Some "JBSWY3DPEHPK3PXP" /\
  "JBSWY3DPEHPK3PXP" <> "" /\
  verify_password Scenario.bcrypt_verify "bob-pw"
    (User.hashed_password Scenario.bob) = Ok true /\
  1100 <= 1000 + 300 /\
  redis_exists Scenario.redis_client 1100
    (blocked_key "77aa01f3c2e54b1f9a8d6c3b2e1f0a9d") = Ok false /\
  Scenario.totp_verify "JBSWY3DPEHPK3PXP" "JBSWY3DPEHPK3PXP" 1100 = Ok true /\
  2000 <= 1100 + 1800 /\
  redis_exists Scenario.redis_client 2000
    (blocked_key "5e6f7a8b9c0d4e1f8a2b3c4d5e6f7a8b") = Ok false /\
  exists restricted full,
    login_for_access_token Scenario.SECRET_KEY Scenario.bcrypt_verify "bob" "bob-pw"
      Scenario.db 1000 "77aa01f3c2e54b1f9a8d6c3b2e1f0a9d" =
      Ok {| LoginResponse.access_token := restricted;
            LoginResponse.token_type := "bearer";
            LoginResponse.is_2fa_required := Some true;
            LoginResponse.user_id := Some (User.id Scenario.bob) |} /\
    verify_2fa_login Scenario.SECRET_KEY Scenario.totp_verify restricted
      "JBSWY3DPEHPK3PXP" Scenario.db Scenario.redis_client 1100
      "5e6f7a8b9c0d4e1f8a2b3c4d5e6f7a8b" =
      Ok {| LoginResponse.access_token := full;
            LoginResponse.token_type := "bearer";
            LoginResponse.is_2fa_required := None;
            LoginResponse.user_id := None |} /\
    get_current_user Scenario.SECRET_KEY full Scenario.db Scenario.redis_client 2000
      = Ok Scenario.bob.
Proof.
  assert (Hne : "JBSWY3DPEHPK3PXP" <> "") by discriminate.
  assert (H1 : 1100 <= 1000 + 300) by lia.
  assert (H2 : 2000 <= 1100 + 1800) by lia.
  repeat (split; [first [reflexivity | exact Hne | exact H1 | exact H2]|]).
  exact (two_step_login Scenario.SECRET_KEY Scenario.bcrypt_verify Scenario.totp_verify
           Scenario.db Scenario.redis_client "bob" "bob-pw" Scenario.bob
           "JBSWY3DPEHPK3PXP" "JBSWY3DPEHPK3PXP" 1000 1100 2000
           "77aa01f3c2e54b1f9a8d6c3b2e1f0a9d" "5e6f7a8b9c0d4e1f8a2b3c4d5e6f7a8b"
           eq_refl eq_refl eq_refl eq_refl Hne eq_refl H1 eq_refl eq_refl H2 eq_refl).
Defined.

Lemma second_factor_token_not_consumed_witness :
  get_current_user_for_2fa Scenario.SECRET_KEY Scenario.bob_restricted_token
    Scenario.db Scenario.redis_client 1000 = Ok Scenario.bob /\
  1000 <= 1200 /\
  (forall e, Some 1300 = Some e -> 1200 <= e) /\
  Scenario.totp_verify "JBSWY3DPEHPK3PXP" "JBSWY3DPEHPK3PXP" 1000 = Ok true /\
  Scenario.totp_verify "JBSWY3DPEHPK3PXP" "JBSWY3DPEHPK3PXP" 1200 = Ok true /\
  exists claims1 claims2,
    verify_2fa_login Scenario.SECRET_KEY Scenario.totp_verify
      Scenario.bob_restricted_token "JBSWY3DPEHPK3PXP" Scenario.db
      Scenario.redis_client 1000 "5e6f7a8b9c0d4e1f8a2b3c4d5e6f7a8b" =
      Ok {| LoginResponse.access_token := Signed ALGORITHM Scenario.SECRET_KEY claims1;
            LoginResponse.token_type := "bearer";
            LoginResponse.is_2fa_required := None;
            LoginResponse.user_id := None |} /\
    verify_2fa_login Scenario.SECRET_KEY Scenario.totp_verify
      Scenario.bob_restricted_token "JBSWY3DPEHPK3PXP" Scenario.db
      Scenario.redis_client 1200 "9c0d1e2f3a4b4c5d8e6f7a8b9c0d1e2f" =
      Ok {| LoginResponse.access_token := Signed ALGORITHM Scenario.SECRET_KEY claims2;
            LoginResponse.token_type := "bearer";
            LoginResponse.is_2fa_required := None;
            LoginResponse.user_id := None |} /\
    Claims.jti claims1 = Some "5e6f7a8b9c0d4e1f8a2b3c4d5e6f7a8b" /\
    Claims.jti claims2 = Some "9c0d1e2f3a4b4c5d8e6f7a8b9c0d1e2f".
Proof.
  assert (Hne : "JBSWY3DPEHPK3PXP" <> "") by discriminate.
  assert (Hle : 1000 <= 1200) by lia.
  assert (Hlive : forall e, Some 1300 = Some e -> 1200 <= e)
    by (intros e He; injection He as <-; lia).
  split; [reflexivity|]. split; [exact Hle|]. split; [exact Hlive|].
  split; [reflexivity|]. split; [reflexivity|].
  exact (second_factor_token_not_consumed Scenario.SECRET_KEY Scenario.totp_verify
           {| Claims.sub := Some "bob"; Claims.scope := Some "2fa_required";
              Claims.user_id := Some 2;
              Claims.jti := Some "77aa01f3c2e54b1f9a8d6c3b2e1f0a9d";
              Claims.exp := Some 1300 |}
           "JBSWY3DPEHPK3PXP" "JBSWY3DPEHPK3PXP" Scenario.db Scenario.redis_client
           1000 1200 "5e6f7a8b9c0d4e1f8a2b3c4d5e6f7a8b"
           "9c0d1e2f3a4b4c5d8e6f7a8b9c0d1e2f" Scenario.bob "JBSWY3DPEHPK3PXP"
           eq_refl Hle Hlive eq_refl eq_refl Hne eq_refl eq_refl).
Defined.

Lemma verify_2fa_login_not_enrolled_witness :
  get_current_user_for_2fa Scenario.SECRET_KEY Console.alice_stale_restricted_token
    Console.db Scenario.redis_client 1000 = Ok Scenario.alice /\
  User.is_two_factor_enabled Scenario.alice = false /\
  verify_2fa_login Scenario.SECRET_KEY Scenario.totp_verify
    Console.alice_stale_restricted_token "123456" Console.db Scenario.redis_client 1000
    "5e6f7a8b9c0d4e1f8a2b3c4d5e6f7a8b" = Raise two_factor_not_enabled.
Proof.
  split; [reflexivity|]. split; [reflexivity|].
  exact (proj1 (verify_2fa_login_not_enrolled Scenario.SECRET_KEY Scenario.totp_verify
                  Console.alice_stale_restricted_token "123456" Console.db
                  Scenario.redis_client 1000 "5e6f7a8b9c0d4e1f8a2b3c4d5e6f7a8b"
                  Scenario.alice eq_refl (or_introl eq_refl))).
Defined.

Lemma login_unidentified_digest_witness :
  first_by_username Console.db "erin" = Some Console.erin /\
  bcrypt_identify (User.hashed_password Console.erin) = false /\
  login_for_access_token Scenario.SECRET_KEY Scenario.bcrypt_verify "erin" "erin-pw"
    Console.db 1000 "0a1b2c3d4e5f4a6b8c7d8e9f0a1b2c3d" = Raise UnknownHashError.
Proof.
  split; [reflexivity|]. split; [reflexivity|].
  exact (proj1 (login_unidentified_digest Scenario.SECRET_KEY Scenario.bcrypt_verify
                  Console.db "erin" "erin-pw" 1000 "0a1b2c3d4e5f4a6b8c7d8e9f0a1b2c3d"
                  Console.erin eq_refl eq_refl)).
Defined.


Lemma add_token_to_blocklist_twice_witness :
  add_token_to_blocklist Scenario.Europe_Berlin Scenario.redis_client
    "3f2b8c1e9d4a4f6b8a7c5e1d2f3a4b5c" 2800 2000 =
    Ok {| reachable := true;
          entries := <[blocked_key "3f2b8c1e9d4a4f6b8a7c5e1d2f3a4b5c" := ("true", 6400)]> ∅ |} /\
  2000 <= 2500 /\
  utcnow_timestamp Scenario.Europe_Berlin 2000 < 2800 /\
  add_token_to_blocklist Scenario.Europe_Berlin
    {| reachable := true;
       entries := <[blocked_key "3f2b8c1e9d4a4f6b8a7c5e1d2f3a4b5c" := ("true", 6400)]> ∅ |}
    "3f2b8c1e9d4a4f6b8a7c5e1d2f3a4b5c" 2800 2500 =
    Ok {| reachable := true;
          entries := <[blocked_key "3f2b8c1e9d4a4f6b8a7c5e1d2f3a4b5c" := ("true", 6400)]> ∅ |} /\
  entries
    {| reachable := true;
       entries := <[blocked_key "3f2b8c1e9d4a4f6b8a7c5e1d2f3a4b5c" := ("true", 6400)]> ∅ |}
    !! blocked_key "3f2b8c1e9d4a4f6b8a7c5e1d2f3a4b5c"
    = Some ("true", 2800 + Scenario.Europe_Berlin).
Proof.
  assert (Hle : 2000 <= 2500) by lia.
  assert (Hlive : utcnow_timestamp Scenario.Europe_Berlin 2000 < 2800) by (vm_compute; reflexivity).
  split; [reflexivity|]. split; [exact Hle|]. split; [exact Hlive|].
  pose proof (add_token_to_blocklist_twice Scenario.Europe_Berlin Scenario.redis_client
                "3f2b8c1e9d4a4f6b8a7c5e1d2f3a4b5c" 2800 2000 2500 _ eq_refl Hle)
    as [Hsame Hentry].
  split; [exact Hsame|exact (Hentry Hlive)].
Defined.

Lemma logout_body_exits_witness :
  logout_body Scenario.SECRET_KEY Scenario.utc_offset Scenario.alice (Opaque "not-a-token")
    Scenario.redis_client 1000 =
    Ok (mkMessage "Logout successful (token was invalid)", Scenario.redis_client) /\
  logout_body Scenario.SECRET_KEY Scenario.utc_offset Scenario.alice Scenario.alice_token
    Scenario.redis_client 2801 =
    Ok (mkMessage "Successfully logged out", Scenario.redis_client) /\
  logout_body Scenario.SECRET_KEY Scenario.America_New_York Scenario.alice
    Scenario.alice_token Scenario.redis_client 2000 =
    Ok (mkMessage "Successfully logged out", Scenario.redis_client) /\
  logout_body Scenario.SECRET_KEY Scenario.utc_offset Scenario.alice Scenario.alice_token
    {| reachable := false; entries := ∅ |} 2000 =
    Ok (mkMessage "Logout processed with an internal finalization error",
        {| reachable := false; entries := ∅ |}) /\
  logout_body Scenario.SECRET_KEY Scenario.Europe_Berlin Scenario.alice
    Scenario.alice_token Scenario.redis_client 2801 =
    Ok (mkMessage "Successfully logged out",
        {| reachable := true;
           entries := <[blocked_key "3f2b8c1e9d4a4f6b8a7c5e1d2f3a4b5c"
                        := ("true", 2800 + Scenario.Europe_Berlin)]> ∅ |}).
Proof.
  split; [|split; [|split; [|split]]].
  - refine (proj1 (proj2 (logout_body_exits Scenario.SECRET_KEY Scenario.utc_offset
                             Scenario.alice (Opaque "not-a-token")
                             Scenario.redis_client 1000)) _).
    intros c H. discriminate H.
  - refine (proj2 (proj2 (proj2 (proj2
              (logout_body_exits Scenario.SECRET_KEY Scenario.utc_offset Scenario.alice
                 Scenario.alice_token Scenario.redis_client 2801))))
              eq_refl _ 2800 eq_refl eq_refl _).
    lia.
  - refine (proj1 (proj2 (proj2
              (logout_body_exits Scenario.SECRET_KEY Scenario.America_New_York
                 Scenario.alice Scenario.alice_token Scenario.redis_client 2000)))
              _ 2800 eq_refl eq_refl _).
    vm_compute. discriminate.
  - refine (proj1 (proj1 (proj2 (proj2 (proj2
              (logout_body_exits Scenario.SECRET_KEY Scenario.utc_offset Scenario.alice
                 Scenario.alice_token {| reachable := false; entries := ∅ |} 2000))))
              _ "3f2b8c1e9d4a4f6b8a7c5e1d2f3a4b5c" 2800 eq_refl eq_refl _ eq_refl _ _)
              eq_refl); first [discriminate | vm_compute; reflexivity].
  - refine (proj2 (proj1 (proj2 (proj2 (proj2
              (logout_body_exits Scenario.SECRET_KEY Scenario.Europe_Berlin Scenario.alice
                 Scenario.alice_token Scenario.redis_client 2801))))
              _ "3f2b8c1e9d4a4f6b8a7c5e1d2f3a4b5c" 2800 eq_refl eq_refl _ eq_refl _ _)
              eq_refl); first [discriminate | vm_compute; reflexivity].
Defined.

Lemma logout_returns_for_active_callers_only_witness :
  logout Scenario.SECRET_KEY Scenario.utc_offset Scenario.alice_token Scenario.db Scenario.redis_client 2800 =
    Ok (mkMessage "Successfully logged out", Scenario.redis_client) /\
  exists u,
    get_current_user Scenario.SECRET_KEY Scenario.alice_token Scenario.db
      Scenario.redis_client 2800 = Ok u /\ User.is_active u = true.
Proof.
  split; [reflexivity|].
  exact (proj1 (logout_returns_for_active_callers_only Scenario.SECRET_KEY Scenario.utc_offset
                  Scenario.alice_token Scenario.db Scenario.redis_client 2800
                  (mkMessage "Successfully logged out") Scenario.redis_client eq_refl)).
Defined.

Lemma users_administrator_endpoints_witness :
  Depends_get_current_active_user Scenario.SECRET_KEY Console.root_token Console.db
    Scenario.redis_client 1000 (read_users Console.get_users 1 2 Console.db) =
    Ok [Scenario.bob; Scenario.carol] /\
  (exists current_user,
     get_current_active_user Scenario.SECRET_KEY Console.root_token Console.db
       Scenario.redis_client 1000 = Ok current_user /\
     User.is_active current_user = true /\
     User.is_superuser current_user = true /\
     read_users Console.get_users 1 2 Console.db current_user =
       Ok [Scenario.bob; Scenario.carol]) /\
  Depends_get_current_active_user Scenario.SECRET_KEY Scenario.alice_token Console.db
    Scenario.redis_client 1000 (read_users Console.get_users 1 2 Console.db) =
    Raise administrator_required.
Proof.
  split; [reflexivity|]. split; [|reflexivity].
  refine (proj1 (proj2 (users_administrator_endpoints Scenario.SECRET_KEY string
                          (fun email => email) Console.get_user Console.get_users
                          (fun _ _ => None) (fun _ _ => Raise (ValueError "read-only"))
                          (fun _ _ => Raise (ValueError "read-only")) Console.db))
            1 2 Console.root_token Console.db Scenario.redis_client 1000 _ eq_refl).
Defined.

Lemma users_own_record_or_superuser_witness :
  read_user Console.get_user 1 Console.db Scenario.alice = Ok Scenario.alice /\
  read_user Console.get_user 2 Console.db Scenario.alice =
    Raise (HTTPException HTTP_403_FORBIDDEN
             "Not authorized to access this user's data" []) /\
  read_user Console.get_user 99 Console.db Scenario.alice =
    Raise (HTTPException HTTP_403_FORBIDDEN
             "Not authorized to access this user's data" []) /\
  read_user Console.get_user 99 Console.db Console.root = Raise user_not_found /\
  read_user Console.get_user 2 Console.db Console.root = Ok Scenario.bob.
Proof.
  assert (Hne2 : User.id Scenario.alice <> 2) by discriminate.
  assert (Hne99 : User.id Scenario.alice <> 99) by discriminate.
  split; [|split; [|split; [|split]]].
  - apply (proj1 (users_own_record_or_superuser string Console.get_user
                    Console.update_user 1 Console.db Scenario.alice)).
    split; [right; reflexivity|reflexivity].
  - exact (proj1 (proj1 (proj2 (users_own_record_or_superuser string Console.get_user
                                  Console.update_user 2 Console.db Scenario.alice))
                    eq_refl Hne2)).
  - exact (proj1 (proj1 (proj2 (users_own_record_or_superuser string Console.get_user
                                  Console.update_user 99 Console.db Scenario.alice))
                    eq_refl Hne99)).
  - exact (proj1 (proj1 (proj2 (proj2 (users_own_record_or_superuser string
                                         Console.get_user Console.update_user 99
                                         Console.db Console.root)))
                    (or_introl eq_refl) eq_refl)).
  - apply (proj1 (users_own_record_or_superuser string Console.get_user
                    Console.update_user 2 Console.db Console.root)).
    split; [left; reflexivity|reflexivity].
Defined.

Lemma get_user_summary_counts_witness :
  get_user_summary Console.db Console.root = Ok (mkUserSummary 6 1 5) /\
  standard_users (mkUserSummary 6 1 5) =
    Z.of_nat (length (List.filter (fun u => negb (User.is_superuser u)) Console.db)).
Proof.
  split; [reflexivity|].
  exact (proj1 (proj2 (proj2 (get_user_summary_counts Console.db Console.root
                                (mkUserSummary 6 1 5) eq_refl)))).
Defined.

Lemma delete_rule_then_read_witness :
  delete_rule (Z * string) fst 2 Console.rules Console.root =
    Ok (mkMessage "Rule deleted",
        [(1, "alert tcp any any -> any 22"); (3, "alert icmp any any -> any any")]) /\
  forall reader,
    read_rule (Z * string) fst 2
      [(1, "alert tcp any any -> any 22"); (3, "alert icmp any any -> any any")] reader
    = Raise rule_not_found.
Proof.
  split; [reflexivity|].
  exact (proj1 (proj2 (proj2 (proj2 (proj2
           (delete_rule_then_read (Z * string) fst 2 Console.rules Console.root
              (mkMessage "Rule deleted")
              [(1, "alert tcp any any -> any 22"); (3, "alert icmp any any -> any any")]
              eq_refl)))))).
Defined.

Lemma get_threats_defaults_witness :
  "30d" <> "1h" /\ "30d" <> "7d" /\
  get_threats Console.select_network_logs Console.isoformat Console.logs Scenario.alice
    100 None "30d" 1000000 =
  get_threats Console.select_network_logs Console.isoformat Console.logs Scenario.alice
    100 None "24h" 1000000.
Proof.
  assert (H1 : "30d" <> "1h") by discriminate.
  assert (H7 : "30d" <> "7d") by discriminate.
  split; [exact H1|]. split; [exact H7|].
  exact (proj1 (get_threats_defaults Console.select_network_logs Console.isoformat
                  Console.logs Scenario.alice 100 None "30d" 1000000) H1 H7).
Defined.

Lemma validate_rule_accepts_witness :
  validate_rule Console.rule_body = Some Console.validated_rule /\
  (3 <= String.length (ThreatSignatureRuleCreate.name Console.validated_rule) <= 100)%nat /\
  validate_rule
    (RuleBody.mk (Given "ab") (Given "x") Missing Missing Missing Missing Missing) = None /\
  validate_rule
    (RuleBody.mk (Given "abc") (Given "") Missing Missing Missing Missing Missing) = None /\
  validate_rule
    (RuleBody.mk (Given "abc") (Given "x") Null Missing Missing Missing Missing) = None /\
  validate_rule
    (RuleBody.mk (Given "abc") (Given "x") Missing Missing Missing Missing Missing) =
    Some (ThreatSignatureRuleCreate.mk "abc" "x" "alert" "medium" None None true).
Proof.
  split; [reflexivity|]. split; [|repeat split; reflexivity].
  exact (proj2 (proj1 (validate_rule_accepts Console.rule_body Console.validated_rule
                         eq_refl))).
Defined.

Lemma validate_rule_idempotent_witness :
  validate_rule Console.rule_body = Some Console.validated_rule /\
  validate_rule (rule_as_body Console.validated_rule) = Some Console.validated_rule.
Proof.
  split; [reflexivity|].
  exact (validate_rule_idempotent Console.rule_body Console.validated_rule eq_refl).
Defined.

Lemma post_signature_rule_guarded_witness :
  post_signature_rule Scenario.SECRET_KEY _ Console.add_rule Console.root_token
    Console.rule_body Console.db Scenario.redis_client 1000 [] =
    (Some (Ok (mkRuleAdded 201 "success" "Rule added successfully")),
     [Console.validated_rule]) /\
  post_signature_rule Scenario.SECRET_KEY _ Console.add_rule Scenario.alice_token
    Console.rule_body Console.db Scenario.redis_client 1000 [] =
    (Some (Raise administrator_required), []) /\
  post_signature_rule Scenario.SECRET_KEY _ Console.add_rule Console.foreign_token
    (RuleBody.mk Missing Missing Missing Missing Missing Missing Missing)
    Console.db Scenario.redis_client 1000 [] =
    (Some (Raise credentials_exception), []).
Proof.
  split; [reflexivity|]. split.
  - exact (proj2 (proj2 (proj2 (post_signature_rule_guarded Scenario.SECRET_KEY _
                                  Console.add_rule Scenario.alice_token
                                  Console.rule_body Console.db Scenario.redis_client
                                  1000 [])))
             Scenario.alice Console.validated_rule eq_refl eq_refl eq_refl).
  - exact (proj1 (proj2 (post_signature_rule_guarded Scenario.SECRET_KEY _
                           Console.add_rule Console.foreign_token
                           (RuleBody.mk Missing Missing Missing Missing Missing Missing
                              Missing)
                           Console.db Scenario.redis_client 1000 []))
             credentials_exception eq_refl).
Defined.
